(** * Metallicity_Stack_Commons: flux ratios, temperature, metallicity and the
      error-propagation pipeline

    A shallow embedding of

    - [Metallicity_Stack_Commons/__init__.py] (line vocabulary, [k_dict]),
    - [analysis/temp_metallicity_calc.py] ([R_calculation], [temp_calculation],
      [metallicity_calculation]),
    - [analysis/ratios.py] ([flux_ratios]),
    - [analysis/attenuation.py] ([compute_EBV]),
    - [analysis/error_prop.py] ([write_npz], [fluxes_derived_prop]).

    [column_names] and [chun_codes] are not among the sources: what the
    sources import from them is part of the store and a parameter.

    Numbers are IEEE binary64 values (Rocq's primitive floats, the same format
    as [numpy.float64]); [+ - * /] and the comparisons are the kernel's.
    [log10] and [**] follow the C99 (Annex F) table for every special
    argument; their value at the remaining, regular arguments is what the
    platform's libm computes and is a parameter of the development.

    Python values are dynamically typed, calls check the callee's signature,
    and exceptions are results.  Module-level objects ([dust0], [k_dict], the
    name lists) live in a store that every call threads through. *)

From Stdlib Require Import Floats ZArith String List Bool Lia PeanoNat.
Import ListNotations.

Set Warnings "-inexact-float,-register-all".
Set Implicit Arguments.

Local Open Scope string_scope.
Local Open Scope list_scope.

(* ------------------------------------------------------------------------- *)
(** ** Exceptions and the two monads *)

Inductive exn : Set :=
| TypeError | KeyError | ValueError | IndexError | NameError | FileNotFoundError
| OSError.

Inductive outcome (A : Type) : Type :=
| Ok (a : A)
| Raise (e : exn).

Arguments Ok {A} a.
Arguments Raise {A} e.

Definition obind {A B} (c : outcome A) (k : A -> outcome B) : outcome B :=
  match c with
  | Ok a => k a
  | Raise e => Raise e
  end.

Declare Scope py_scope.
Delimit Scope py_scope with py.
Notation "x <- c ;; k" := (obind c (fun x => k))
  (at level 61, c at next level, right associativity) : py_scope.
Notation "' pat <- c ;; k" := (obind c (fun x => match x with pat => k end))
  (at level 61, pat pattern, c at next level, right associativity) : py_scope.

Definition of_option {A} (e : exn) (o : option A) : outcome A :=
  match o with
  | Some a => Ok a
  | None => Raise e
  end.

Fixpoint mapM {A B} (f : A -> outcome B) (l : list A) : outcome (list B) :=
  match l with
  | [] => Ok []
  | x :: l' =>
      match f x with
      | Ok y => match mapM f l' with
                | Ok ys => Ok (y :: ys)
                | Raise e => Raise e
                end
      | Raise e => Raise e
      end
  end.

(* ------------------------------------------------------------------------- *)
(** ** binary64 arithmetic: the part of libm the formulas use *)

Module Np.
Local Open Scope float_scope.

(** [y] is an integer / an odd integer (decided on the mantissa and exponent). *)
Definition is_integer (y : float) : bool :=
  match Prim2SF y with
  | S754_zero _ => true
  | S754_finite _ m e =>
      (0 <=? e)%Z || (Z.land (Zpos m) (Z.ones (- e)) =? 0)%Z
  | _ => false
  end.

Definition is_odd_integer (y : float) : bool :=
  match Prim2SF y with
  | S754_finite _ m e =>
      if (e =? 0)%Z then Z.odd (Zpos m)
      else if (e <? 0)%Z
           then (Z.land (Zpos m) (Z.ones (- e)) =? 0)%Z
                && Z.odd (Z.shiftr (Zpos m) (- e))
           else false
  | _ => false
  end.

Section Libm.
(** libm's [log10] on finite positive arguments other than 1, and [pow] on
    the arguments C99 leaves to the implementation. *)
Variable libm_log10 : float -> float.
Variable libm_pow : float -> float -> float.

(** [np.log10] on one binary64 value (C99 F.9.3.8); a negative argument
    gives NaN with a RuntimeWarning, not an exception. *)
Definition log10 (x : float) : float :=
  if is_nan x then nan
  else if is_zero x then neg_infinity
  else if x <? 0 then nan
  else if is_infinity x then infinity
  else if x =? 1 then 0
  else libm_log10 x.

(** [x ** y] / [np.power] on binary64 values (C99 F.9.4.4). *)
Definition power (x y : float) : float :=
  if is_zero y then 1
  else if x =? 1 then 1
  else if is_nan x || is_nan y then nan
  else if is_zero x then
    if y <? 0
    then (if is_odd_integer y && get_sign x then neg_infinity else infinity)
    else (if is_odd_integer y then x else 0)
  else if is_infinity y then
    if x =? -1 then 1
    else if abs x <? 1
         then (if y <? 0 then infinity else 0)
         else (if y <? 0 then 0 else infinity)
  else if is_infinity x then
    if x <? 0
    then (if y <? 0
          then (if is_odd_integer y then -0 else 0)
          else (if is_odd_integer y then neg_infinity else infinity))
    else (if y <? 0 then 0 else infinity)
  else if (x <? 0) && negb (is_integer y) then nan
  else libm_pow x y.
End Libm.

End Np.

(* ------------------------------------------------------------------------- *)
(** ** Python values and numpy arrays *)

(** A numpy array of float64 is a list (one dimension) or a list of rows with
    its number of columns (two dimensions: object x draw).  [VIdx] is an
    index array as [np.where] and [np.arange] build them. *)
Inductive value : Type :=
| VNone
| VBool (b : bool)
| VStr (s : string)
| VFloat (x : float)
| VArr (a : list float)
| VArr2 (ncols : nat) (rows : list (list float))
| VIdx (idx : list nat)
| VDict (d : list (string * value)).

(** Python dictionaries keep insertion order; assigning an existing key
    replaces its value in place. *)
Section Dict.
Variable V : Type.

Fixpoint dict_get (d : list (string * V)) (k : string) : option V :=
  match d with
  | [] => None
  | (k', v) :: d' => if String.eqb k' k then Some v else dict_get d' k
  end.

Fixpoint dict_set (d : list (string * V)) (k : string) (v : V)
  : list (string * V) :=
  match d with
  | [] => [(k, v)]
  | (k', v') :: d' =>
      if String.eqb k' k then (k, v) :: d' else (k', v') :: dict_set d' k v
  end.

Definition dict_update (d e : list (string * V)) : list (string * V) :=
  fold_left (fun acc kv => dict_set acc (fst kv) (snd kv)) e d.

Definition dict_in (d : list (string * V)) (k : string) : bool :=
  match dict_get d k with Some _ => true | None => false end.

(** [d[k]] *)
Definition getitem (d : list (string * V)) (k : string) : outcome V :=
  of_option KeyError (dict_get d k).
End Dict.

(** [l[i]] on a Python list *)
Definition list_item {A} (l : list A) (i : nat) : outcome A :=
  of_option IndexError (nth_error l i).

(** [l[i] = x] on a Python list *)
Fixpoint list_set {A} (l : list A) (i : nat) (x : A) : list A :=
  match l, i with
  | [], _ => []
  | _ :: l', O => x :: l'
  | y :: l', S i' => y :: list_set l' i' x
  end.

Module Numpy.
Local Open Scope float_scope.
Local Open Scope py_scope.

(** The numeric views of a value. *)
Inductive nd : Type :=
| Sc (x : float)
| A1 (a : list float)
| A2 (ncols : nat) (rows : list (list float)).

Definition as_nd (v : value) : outcome nd :=
  match v with
  | VFloat x => Ok (Sc x)
  | VBool b => Ok (Sc (if b then 1 else 0))
  | VArr a => Ok (A1 a)
  | VArr2 c r => Ok (A2 c r)
  | _ => Raise TypeError
  end.

Definition of_nd (n : nd) : value :=
  match n with
  | Sc x => VFloat x
  | A1 a => VArr a
  | A2 c r => VArr2 c r
  end.

(** Broadcasting of one axis: equal lengths, or one of them is 1. *)
Definition bc_len (n m : nat) : option nat :=
  if Nat.eqb n m then Some n
  else if Nat.eqb n 1 then Some m
  else if Nat.eqb m 1 then Some n
  else None.

Fixpoint map2 {A B C} (f : A -> B -> C) (a : list A) (b : list B) : list C :=
  match a, b with
  | x :: a', y :: b' => f x y :: map2 f a' b'
  | _, _ => []
  end.

Definition bc_zip {A B C} (f : A -> B -> C) (da : A) (db : B)
  (a : list A) (b : list B) : list C :=
  if Nat.eqb (length a) (length b) then map2 f a b
  else if Nat.eqb (length a) 1 then map (f (hd da a)) b
  else map (fun x => f x (hd db b)) a.

Definition binop_nd (f : float -> float -> float) (u v : nd) : outcome nd :=
  match u, v with
  | Sc x, Sc y => Ok (Sc (f x y))
  | Sc x, A1 b => Ok (A1 (map (f x) b))
  | A1 a, Sc y => Ok (A1 (map (fun t => f t y) a))
  | Sc x, A2 c r => Ok (A2 c (map (map (f x)) r))
  | A2 c r, Sc y => Ok (A2 c (map (map (fun t => f t y)) r))
  | A1 a, A1 b =>
      match bc_len (length a) (length b) with
      | Some _ => Ok (A1 (bc_zip f 0 0 a b))
      | None => Raise ValueError
      end
  | A1 a, A2 c r =>
      match bc_len (length a) c with
      | Some c' => Ok (A2 c' (map (fun row => bc_zip f 0 0 a row) r))
      | None => Raise ValueError
      end
  | A2 c r, A1 b =>
      match bc_len c (length b) with
      | Some c' => Ok (A2 c' (map (fun row => bc_zip f 0 0 row b) r))
      | None => Raise ValueError
      end
  | A2 c1 r1, A2 c2 r2 =>
      match bc_len (length r1) (length r2), bc_len c1 c2 with
      | Some _, Some c' => Ok (A2 c' (bc_zip (bc_zip f 0 0) [] [] r1 r2))
      | _, _ => Raise ValueError
      end
  end.

Definition unop (f : float -> float) (v : value) : outcome value :=
  u <- as_nd v ;;
  Ok (match u with
      | Sc x => VFloat (f x)
      | A1 a => VArr (map f a)
      | A2 c r => VArr2 c (map (map f) r)
      end).

Definition binop (f : float -> float -> float) (u v : value) : outcome value :=
  a <- as_nd u ;;
  b <- as_nd v ;;
  r <- binop_nd f a b ;;
  Ok (of_nd r).

Definition add := binop PrimFloat.add.
Definition sub := binop PrimFloat.sub.
Definition mul := binop PrimFloat.mul.
Definition div := binop PrimFloat.div.
Definition neg := unop PrimFloat.opp.

(** [len(v)] *)
Definition len (v : value) : outcome nat :=
  match v with
  | VArr a => Ok (length a)
  | VArr2 _ r => Ok (length r)
  | VIdx i => Ok (length i)
  | VDict d => Ok (length d)
  | VStr s => Ok (String.length s)
  | _ => Raise TypeError
  end.

Definition zeros (n : nat) : list float := repeat 0 n.
Definition arange (n : nat) : list nat := seq 0 n.

(** [a[idx]] with an index array: the selected entries (rows, in two
    dimensions); an index past the end raises IndexError. *)
Definition take (v : value) (idx : list nat) : outcome value :=
  match v with
  | VArr a => l <- mapM (list_item a) idx ;; Ok (VArr l)
  | VArr2 c r => l <- mapM (list_item r) idx ;; Ok (VArr2 c l)
  | VIdx a => l <- mapM (list_item a) idx ;; Ok (VIdx l)
  | VFloat _ => Raise IndexError
  | _ => Raise TypeError
  end.

(** [a[idx] = v] on a one-dimensional array.  The value is broadcast to the
    [length idx] selected places: a scalar, an array of that length or of
    length 1; a two-dimensional value only when dropping its leading axis
    keeps its size.  A shape mismatch raises ValueError, an index past the
    end IndexError.  Assignments run in index order (the last one wins on a
    repeated index). *)
Definition put_values (m : nat) (v : value) : outcome (list float) :=
  match v with
  | VFloat x => Ok (repeat x m)
  | VBool b => Ok (repeat (if b then 1 else 0) m)
  | VArr l =>
      if Nat.eqb (length l) m then Ok l
      else if Nat.eqb (length l) 1 then Ok (repeat (hd 0 l) m)
      else Raise ValueError
  | VArr2 c r =>
      if Nat.eqb (length r * c) c then
        let l := concat r in
        if Nat.eqb c m then Ok l
        else if Nat.eqb c 1 then Ok (repeat (hd 0 l) m)
        else Raise ValueError
      else Raise ValueError
  | _ => Raise TypeError
  end.

Definition assign (a : list float) (idx : list nat) (xs : list float)
  : list float :=
  fold_left (fun acc ix => list_set acc (fst ix) (snd ix)) (combine idx xs) a.

Definition put (a : list float) (idx : list nat) (v : value)
  : outcome (list float) :=
  xs <- put_values (length idx) v ;;
  if forallb (fun i => Nat.ltb i (length a)) idx
  then Ok (assign a idx xs)
  else Raise IndexError.

(** [np.where(col == x)[0]] *)
Fixpoint where_eq (col : list float) (x : float) (i : nat) : list nat :=
  match col with
  | [] => []
  | y :: col' =>
      if y =? x then i :: where_eq col' x (S i) else where_eq col' x (S i)
  end.

End Numpy.

(* ------------------------------------------------------------------------- *)
(** ** The store: module-level objects and files *)

(** [Metallicity_Stack_Commons/__init__.py].  [line_name_short] and [OIII_r]
    are imported from it by ratios.py and attenuation.py. *)
Record package : Type := {
  lambda0 : list float;
  line_type : list string;
  line_name : list string;
  k_dict : list (string * float);
  line_name_short : list (string * string);
  OIII_r : float
}.

(** The objects imported from [column_names]: dictionaries and lists of
    names, and the function [remove_from_list(list0, remove_entries)]. *)
Record column_names : Type := {
  filename_dict : list (string * string);
  npz_filename_dict : list (string * string);
  temp_metal_names0 : list string;
  bin_names0 : list string;
  bin_ratios0 : list string;
  dust0 : list string;
  remove_from_list : list string -> list string -> outcome (list string)
}.

(** Names bound when temp_metallicity_calc.py and attenuation.py are imported. *)
Record constants : Type := {
  k_4363 : float;
  k_5007 : float;
  HB : string;
  HG : string;
  HD : string;
  k_HBETA : float;
  k_HGAMMA : float
}.

(** An ASCII table: named columns of numbers. *)
Definition table : Type := list (string * list float).

(** The interpreter's state: the module-level objects, the files, and the
    installed astropy.  [overwrites] is what [asc.write] and [Table.write]
    do when they are called without [overwrite] on a file that exists:
    replace it with a warning (astropy before 5.0) or raise OSError
    (astropy 5.0 and later). *)
Record world : Type := {
  pkg : package;
  cols : column_names;
  consts : constants;
  tables : list (string * table);
  archives : list (string * list (string * value));
  overwrites : bool
}.

Definition set_dust0 (w : world) (d : list string) : world :=
  {| pkg := pkg w;
     cols := {| filename_dict := filename_dict (cols w);
                npz_filename_dict := npz_filename_dict (cols w);
                temp_metal_names0 := temp_metal_names0 (cols w);
                bin_names0 := bin_names0 (cols w);
                bin_ratios0 := bin_ratios0 (cols w);
                dust0 := d;
                remove_from_list := remove_from_list (cols w) |};
     consts := consts w;
     tables := tables w;
     archives := archives w;
     overwrites := overwrites w |}.

Definition set_tables (w : world) (t : list (string * table)) : world :=
  {| pkg := pkg w; cols := cols w; consts := consts w;
     tables := t; archives := archives w; overwrites := overwrites w |}.

Definition set_archives (w : world) (a : list (string * list (string * value)))
  : world :=
  {| pkg := pkg w; cols := cols w; consts := consts w;
     tables := tables w; archives := a; overwrites := overwrites w |}.

(** Computations that read and write the store and may raise. *)
Definition M (A : Type) : Type := world -> outcome A * world.

Definition mret {A} (a : A) : M A := fun w => (Ok a, w).
Definition mraise {A} (e : exn) : M A := fun w => (Raise e, w).
Definition mbind {A B} (c : M A) (k : A -> M B) : M B :=
  fun w => match c w with
           | (Ok a, w') => k a w'
           | (Raise e, w') => (Raise e, w')
           end.
Definition lift {A} (o : outcome A) : M A := fun w => (o, w).
Definition get : M world := fun w => (Ok w, w).
Definition modify (f : world -> world) : M unit := fun w => (Ok tt, f w).

Declare Scope m_scope.
Delimit Scope m_scope with M.
Notation "x <- c ;; k" := (mbind c (fun x => k))
  (at level 61, c at next level, right associativity) : m_scope.
Notation "' pat <- c ;; k" := (mbind c (fun x => match x with pat => k end))
  (at level 61, pat pattern, c at next level, right associativity) : m_scope.
Notation "c ;;; k" := (mbind c (fun _ => k))
  (at level 61, right associativity) : m_scope.

(* ------------------------------------------------------------------------- *)
(** ** Calls *)

(** A function: its parameters in order, each with its default if it has
    one, and its body on the bound arguments. *)
Record pyfun : Type := {
  params : list (string * option value);
  body : list value -> M value
}.

(** One slot per parameter: name, default, argument bound so far. *)
Definition slot : Type := (string * option value * option value)%type.

Fixpoint bind_pos (ps : list (string * option value)) (pos : list value)
  : option (list slot) :=
  match ps, pos with
  | [], [] => Some []
  | [], _ :: _ => None
  | (n, d) :: ps', [] => option_map (cons (n, d, None)) (bind_pos ps' [])
  | (n, d) :: ps', v :: pos' =>
      option_map (cons (n, d, Some v)) (bind_pos ps' pos')
  end.

Fixpoint bind_kw (ss : list slot) (k : string) (v : value)
  : option (list slot) :=
  match ss with
  | [] => None
  | (n, d, f) :: ss' =>
      if String.eqb n k
      then match f with
           | None => Some ((n, d, Some v) :: ss')
           | Some _ => None
           end
      else option_map (cons (n, d, f)) (bind_kw ss' k v)
  end.

Fixpoint bind_kws (ss : list slot) (kw : list (string * value))
  : option (list slot) :=
  match kw with
  | [] => Some ss
  | (k, v) :: kw' =>
      match bind_kw ss k v with
      | Some ss' => bind_kws ss' kw'
      | None => None
      end
  end.

Fixpoint bound (ss : list slot) : option (list value) :=
  match ss with
  | [] => Some []
  | (_, d, f) :: ss' =>
      match (match f with Some v => Some v | None => d end), bound ss' with
      | Some v, Some vs => Some (v :: vs)
      | _, _ => None
      end
  end.

(** The arguments of [f(pos..., k=v...)] in parameter order; [None] where
    Python raises TypeError: too many positional arguments, an unexpected or
    repeated keyword, a required parameter left without a value. *)
Definition bind_args (ps : list (string * option value)) (pos : list value)
  (kw : list (string * value)) : option (list value) :=
  match bind_pos ps pos with
  | Some ss => match bind_kws ss kw with
               | Some ss' => bound ss'
               | None => None
               end
  | None => None
  end.

Definition py_call (f : pyfun) (pos : list value) (kw : list (string * value))
  : M value :=
  match bind_args (params f) pos kw with
  | Some args => body f args
  | None => mraise TypeError
  end.

(** Truth value of a condition. *)
Definition truthy (v : value) : outcome bool :=
  match v with
  | VNone => Ok false
  | VBool b => Ok b
  | VStr s => Ok (negb (String.eqb s ""))
  | VFloat x => Ok (negb (PrimFloat.eqb x 0%float))
  | VDict d => Ok (negb (Nat.eqb (length d) 0))
  | VArr [] | VArr2 _ [] | VArr2 _ [[]] | VIdx [] => Ok false
  | VArr [x] => Ok (negb (PrimFloat.eqb x 0%float))
  | VArr2 _ [[x]] => Ok (negb (PrimFloat.eqb x 0%float))
  | VIdx [i] => Ok (negb (Nat.eqb i 0))
  | _ => Raise ValueError
  end.

(** [s.replace(old, new)] for a non-empty [old]. *)
Fixpoint replace_from (old new : string) (skip : nat) (s : string) : string :=
  match s with
  | EmptyString => EmptyString
  | String c s' =>
      match skip with
      | S k => replace_from old new k s'
      | O =>
          if String.prefix old s
          then String.append new (replace_from old new (String.length old - 1) s')
          else String c (replace_from old new 0 s')
      end
  end.

Definition replace (s old new : string) : string := replace_from old new 0 s.

(** [os.path.join(a, b)] *)
Definition join (a b : string) : string :=
  if String.prefix "/" b then b
  else if String.eqb a "" then b
  else if String.eqb (String.substring (String.length a - 1) 1 a) "/"
       then String.append a b
       else String.append a (String.append "/" b).

(* ------------------------------------------------------------------------- *)
(** ** The program *)

Section Program.
Local Open Scope float_scope.

(** libm (see [Np.log10], [Np.power]). *)
Variable libm_log10 : float -> float.
Variable libm_pow : float -> float -> float.

Definition np_log10 : value -> outcome value :=
  Numpy.unop (Np.log10 libm_log10).
Definition np_power : value -> value -> outcome value :=
  Numpy.binop (Np.power libm_pow).

(** *** temp_metallicity_calc.py *)

Definition a : float := 13205.
Definition b : float := 0.92506.
Definition c : float := 0.98062.

(** [R_value = OIII4363 / (OIII5007 * (1 + 1 / 3.1))
               * 10 ** (0.4 * EBV * (k_4363 - k_5007))] *)
Definition R_value (k_4363 k_5007 : float) (OIII4363 OIII5007 EBV : value)
  : outcome value :=
  (d <- Numpy.mul OIII5007 (VFloat (1 + 1 / 3.1)) ;;
   q <- Numpy.div OIII4363 d ;;
   e1 <- Numpy.mul (VFloat 0.4) EBV ;;
   e2 <- Numpy.mul e1 (VFloat (k_4363 - k_5007)) ;;
   p <- np_power (VFloat 10) e2 ;;
   Numpy.mul q p)%py.

Definition R_calculation : pyfun :=
  {| params := [("OIII4363", None); ("OIII5007", None); ("EBV", None)];
     body := fun args =>
       match args with
       | [OIII4363; OIII5007; EBV] =>
           (w <- get ;;
            lift (R_value (k_4363 (consts w)) (k_5007 (consts w))
                    OIII4363 OIII5007 EBV))%M
       | _ => mraise TypeError
       end |}.

(** [T_e = a * (-np.log10(R) - b) ** (-1 * c)] *)
Definition T_e (R : value) : outcome value :=
  (l <- np_log10 R ;;
   n <- Numpy.neg l ;;
   s <- Numpy.sub n (VFloat b) ;;
   p <- np_power s (VFloat (-1 * c)) ;;
   Numpy.mul (VFloat a) p)%py.

Definition temp_calculation : pyfun :=
  {| params := [("R", None)];
     body := fun args =>
       match args with
       | [R] => lift (T_e R)
       | _ => mraise TypeError
       end |}.

(** [dict(zip(keys, values))] *)
Definition dict_zip (keys : list string) (values : list value)
  : list (string * value) :=
  dict_update [] (combine keys values).

(** An index array used as a subscript. *)
Definition as_idx (v : value) : outcome (list nat) :=
  match v with
  | VIdx l => Ok l
  | _ => Raise IndexError
  end.

(** The body of [metallicity_calculation]; [remove_from_list] and
    [temp_metal_names0] are the module's imports from [column_names]. *)
Definition metal_dict
  (remove_from_list : list string -> list string -> outcome (list string))
  (temp_metal_names0 : list string)
  (T_e TWO_BETA THREE_BETA det3 : value) : outcome value :=
  (n_sample <- Numpy.len T_e ;;
   let t_3 := Numpy.zeros n_sample in
   let t_2 := Numpy.zeros n_sample in
   let x2 := Numpy.zeros n_sample in
   let det3 := match det3 with
               | VNone => VIdx (Numpy.arange n_sample)
               | _ => det3
               end in
   det3 <- as_idx det3 ;;
   (* t_3[det3] = T_e[det3] * 1e-4 *)
   s <- Numpy.take T_e det3 ;;
   v <- Numpy.mul s (VFloat 1e-4) ;;
   t_3 <- Numpy.put t_3 det3 v ;;
   (* t_2[det3] = 0.7 * t_3[det3] + 0.17 *)
   s <- Numpy.take (VArr t_3) det3 ;;
   m <- Numpy.mul (VFloat 0.7) s ;;
   v <- Numpy.add m (VFloat 0.17) ;;
   t_2 <- Numpy.put t_2 det3 v ;;
   (* x2[det3] = 1e-4 * 1e3 * t_2[det3] ** (-0.5) *)
   s <- Numpy.take (VArr t_2) det3 ;;
   p <- np_power s (VFloat (-0.5)) ;;
   v <- Numpy.mul (VFloat (1e-4 * 1e3)) p ;;
   x2 <- Numpy.put x2 det3 v ;;
   let O_s_ion_log := Numpy.zeros n_sample in
   let O_d_ion_log := Numpy.zeros n_sample in
   (* O_s_ion_log[det3] = np.log10(TWO_BETA[det3]) + 5.961
        + 1.676 / t_2[det3] - 0.4 * np.log10(t_2[det3])
        - 0.034 * t_2[det3] + np.log10(1 + 1.35 * x2[det3])
        - 12 *)
   s <- Numpy.take TWO_BETA det3 ;;
   l <- np_log10 s ;;
   e <- Numpy.add l (VFloat 5.961) ;;
   s <- Numpy.take (VArr t_2) det3 ;;
   q <- Numpy.div (VFloat 1.676) s ;;
   e <- Numpy.add e q ;;
   s <- Numpy.take (VArr t_2) det3 ;;
   l <- np_log10 s ;;
   q <- Numpy.mul (VFloat 0.4) l ;;
   e <- Numpy.sub e q ;;
   s <- Numpy.take (VArr t_2) det3 ;;
   q <- Numpy.mul (VFloat 0.034) s ;;
   e <- Numpy.sub e q ;;
   s <- Numpy.take (VArr x2) det3 ;;
   q <- Numpy.mul (VFloat 1.35) s ;;
   q <- Numpy.add (VFloat 1) q ;;
   l <- np_log10 q ;;
   e <- Numpy.add e l ;;
   v <- Numpy.sub e (VFloat 12) ;;
   O_s_ion_log <- Numpy.put O_s_ion_log det3 v ;;
   (* O_d_ion_log[det3] = np.log10(THREE_BETA[det3]) + 6.200
        + 1.251 / t_3[det3] - 0.55 * np.log10(t_3[det3])
        - 0.014 * (t_3[det3]) - 12 *)
   s <- Numpy.take THREE_BETA det3 ;;
   l <- np_log10 s ;;
   e <- Numpy.add l (VFloat 6.200) ;;
   s <- Numpy.take (VArr t_3) det3 ;;
   q <- Numpy.div (VFloat 1.251) s ;;
   e <- Numpy.add e q ;;
   s <- Numpy.take (VArr t_3) det3 ;;
   l <- np_log10 s ;;
   q <- Numpy.mul (VFloat 0.55) l ;;
   e <- Numpy.sub e q ;;
   s <- Numpy.take (VArr t_3) det3 ;;
   q <- Numpy.mul (VFloat 0.014) s ;;
   e <- Numpy.sub e q ;;
   v <- Numpy.sub e (VFloat 12) ;;
   O_d_ion_log <- Numpy.put O_d_ion_log det3 v ;;
   O_s_ion <- np_power (VFloat 10) (VArr O_s_ion_log) ;;
   O_d_ion <- np_power (VFloat 10) (VArr O_d_ion_log) ;;
   com_O <- Numpy.add O_s_ion O_d_ion ;;
   l <- np_log10 com_O ;;
   com_O_log <- Numpy.add l (VFloat 12) ;;
   key_dict <- remove_from_list temp_metal_names0 ["T_e"%string] ;;
   (* Order matters here *)
   let key_values := [com_O_log; VArr O_s_ion_log;
                      VArr O_d_ion_log; O_s_ion; O_d_ion] in
   Ok (VDict (dict_zip key_dict key_values)))%py.

Definition metallicity_calculation : pyfun :=
  {| params := [("T_e", None); ("TWO_BETA", None); ("THREE_BETA", None);
                ("det3", Some VNone)];
     body := fun args =>
       match args with
       | [T_e; TWO_BETA; THREE_BETA; det3] =>
           (w <- get ;;
            lift (metal_dict (remove_from_list (cols w))
                  (temp_metal_names0 (cols w))
                    T_e TWO_BETA THREE_BETA det3))%M
       | _ => mraise TypeError
       end |}.

(** *** ratios.py *)

(** [v[k]] with a string key. *)
Definition subscript (v : value) (k : string) : outcome value :=
  match v with
  | VDict d => getitem d k
  | VFloat _ | VArr _ | VArr2 _ _ | VIdx _ => Raise IndexError
  | _ => Raise TypeError
  end.

(** [k in v] *)
Definition contains (v : value) (k : string) : outcome bool :=
  match v with
  | VDict d => Ok (dict_in d k)
  | _ => Raise TypeError
  end.

Definition flux_ratios : pyfun :=
  {| params := [("flux_dict", None); ("binned_data", Some (VBool false));
                ("get_R", Some (VBool true))];
     body := fun args =>
       match args with
       | [flux_dict; binned_data; get_R] =>
           (binned <- lift (truthy binned_data) ;;
            w <- get ;;
            bin_ratios <-
              (if negb binned
               then mret (map (fun ratios0 => replace ratios0 "_composite" "")
                              (bin_ratios0 (cols w)))
               else
                 (* dust0[0] += '_composite' *)
                 d0 <- lift (list_item (dust0 (cols w)) 0) ;;
                 modify (fun w => set_dust0 w
                   (list_set (dust0 (cols w)) 0 (String.append d0 "_composite"))) ;;;
                 (* dust0[1] += '_composite' *)
                 w1 <- get ;;
                 d1 <- lift (list_item (dust0 (cols w1)) 1) ;;
                 modify (fun w => set_dust0 w
                   (list_set (dust0 (cols w)) 1 (String.append d1 "_composite"))) ;;;
                 mret (bin_ratios0 (cols w))) ;;
            two_beta_key <- lift (list_item bin_ratios 2) ;;
            three_beta_key <- lift (list_item bin_ratios 3) ;;
            logR23_key <- lift (list_item bin_ratios 0) ;;
            logO32_key <- lift (list_item bin_ratios 1) ;;
            R_key <- lift (list_item bin_ratios 4) ;;
            let short := line_name_short (pkg w) in
            let r := OIII_r (pkg w) in
            (* Retrieve emission-line fluxes *)
            OII <- lift (k <- getitem short "OII" ;; subscript flux_dict k)%py ;;
            OIII <- lift (k <- getitem short "OIII" ;; subscript flux_dict k)%py ;;
            Hb <- lift (k <- getitem short "HB" ;; subscript flux_dict k)%py ;;
            (* Define flux ratios *)
            two_beta <- lift (Numpy.div OII Hb) ;;
            three_beta <- lift (m <- Numpy.mul (VFloat (1 + 1 / r)) OIII ;;
                                Numpy.div m Hb)%py ;;
            logR23 <- lift (s <- Numpy.add two_beta three_beta ;; np_log10 s)%py ;;
            logO32 <- lift (m <- Numpy.mul (VFloat (1 + 1 / r)) OIII ;;
                            q <- Numpy.div m OII ;;
                            np_log10 q)%py ;;
            let flux_ratios_dict := [] in
            let flux_ratios_dict := dict_set flux_ratios_dict two_beta_key two_beta in
            let flux_ratios_dict := dict_set flux_ratios_dict three_beta_key three_beta in
            let flux_ratios_dict := dict_set flux_ratios_dict logR23_key logR23 in
            let flux_ratios_dict := dict_set flux_ratios_dict logO32_key logO32 in
            (* Add Balmer decrement *)
            hg <- lift (k <- getitem short "HG" ;; contains flux_dict k)%py ;;
            flux_ratios_dict <-
              (if hg : bool
               then
                 v <- lift (k <- getitem short "HG" ;;
                            x <- subscript flux_dict k ;;
                            Numpy.div x Hb)%py ;;
                 w2 <- get ;;
                 key <- lift (list_item (dust0 (cols w2)) 0) ;;
                 mret (dict_set flux_ratios_dict key v)
               else mret flux_ratios_dict) ;;
            hd <- lift (k <- getitem short "HD" ;; contains flux_dict k)%py ;;
            flux_ratios_dict <-
              (if hd : bool
               then
                 v <- lift (k <- getitem short "HD" ;;
                            x <- subscript flux_dict k ;;
                            Numpy.div x Hb)%py ;;
                 w2 <- get ;;
                 key <- lift (list_item (dust0 (cols w2)) 1) ;;
                 mret (dict_set flux_ratios_dict key v)
               else mret flux_ratios_dict) ;;
            gr <- lift (truthy get_R) ;;
            flux_ratios_dict <-
              (if gr : bool
               then
                 (* Retrieve OIII4363 *)
                 OIII4363 <- lift (k <- getitem short "4363" ;;
                                   subscript flux_dict k)%py ;;
                 R <- py_call R_calculation [OIII4363; OIII] [] ;;
                 mret (dict_set flux_ratios_dict R_key R)
               else mret flux_ratios_dict) ;;
            mret (VDict flux_ratios_dict))%M
       | _ => mraise TypeError
       end |}.

(** *** Tables and files *)

Definition tbl_col (t : table) (name : string) : outcome (list float) :=
  getitem t name.

(** [t[idx]]: the rows [idx] of every column. *)
Definition tbl_rows (t : table) (idx : list nat) : outcome table :=
  mapM (fun kc => (l <- mapM (list_item (snd kc)) idx ;; Ok (fst kc, l))%py) t.

(** [t[name][idx] = v] *)
Definition tbl_put (t : table) (name : string) (idx : list nat) (v : value)
  : outcome table :=
  (col <- tbl_col t name ;;
   col' <- Numpy.put col idx v ;;
   Ok (dict_set t name col'))%py.

Definition nrows (t : table) : option nat :=
  match t with
  | [] => None
  | (_, col) :: _ => Some (length col)
  end.

(** [t.add_columns([Column(col, name=name)])]: a name already in the table
    or a column of another length raises ValueError. *)
Definition add_column (t : table) (name : string) (col : list float)
  : outcome table :=
  if dict_in t name then Raise ValueError
  else match nrows t with
       | Some n => if Nat.eqb n (length col) then Ok (t ++ [(name, col)])
                   else Raise ValueError
       | None => Ok [(name, col)]
       end.

Definition as_arr1 (v : value) : outcome (list float) :=
  match v with
  | VArr l => Ok l
  | _ => Raise ValueError
  end.

(** The table a dictionary of columns describes. *)
Fixpoint table_of_dict (d : list (string * value)) : outcome table :=
  match d with
  | [] => Ok []
  | (k, v) :: d' =>
      (col <- as_arr1 v ;;
       t <- table_of_dict d' ;;
       match nrows t with
       | Some n => if Nat.eqb n (length col) then Ok ((k, col) :: t)
                   else Raise ValueError
       | None => Ok [(k, col)]
       end)%py
  end.

(** [asc.read(file)] *)
Definition asc_read (file : string) : M table :=
  (w <- get ;; lift (of_option FileNotFoundError (dict_get (tables w) file)))%M.

(** [asc.write(t, file, overwrite=True)] *)
Definition asc_write (t : table) (file : string) : M unit :=
  modify (fun w => set_tables w (dict_set (tables w) file t)).

(** [asc.write(t, file)] and [t.write(file)], called without [overwrite] *)
Definition asc_write_keep (t : table) (file : string) : M unit :=
  (w <- get ;;
   if dict_in (tables w) file && negb (overwrites w)
   then mraise OSError
   else asc_write t file)%M.

(** [exists(file)] *)
Definition file_exists (file : string) : M bool :=
  (w <- get ;; mret (dict_in (tables w) file))%M.

(** *** attenuation.py *)

Definition HgHb_CaseB : float := 0.468.

Definition as_str (v : value) : outcome string :=
  match v with
  | VStr s => Ok s
  | _ => Raise TypeError
  end.

Definition compute_EBV : pyfun :=
  {| params := [("fitspath", None); ("use_revised", Some (VBool false))];
     body := fun args =>
       match args with
       | [fitspath; use_revised] =>
           (rev <- lift (truthy use_revised) ;;
            w <- get ;;
            let k := consts w in
            combine_file <-
              lift (f <- getitem (filename_dict (cols w))
                           (if rev : bool then "bin_fit_rev" else "bin_fit") ;;
                    p <- as_str fitspath ;;
                    Ok (join p f))%py ;;
            combine_asc <- asc_read combine_file ;;
            ID <- lift (tbl_col combine_asc "bin_ID") ;;
            HBETA <- lift (tbl_col combine_asc (String.append (HB k) "_Flux_Observed")) ;;
            HGAMMA <- lift (tbl_col combine_asc (String.append (HG k) "_Flux_Observed")) ;;
            HDELTA <- lift (tbl_col combine_asc (String.append (HD k) "_Flux_Observed")) ;;
            HgHb <- lift (Numpy.div (VArr HGAMMA) (VArr HBETA)) ;;
            HdHb <- lift (Numpy.div (VArr HDELTA) (VArr HBETA)) ;;
            (* EBV = -2.5 * np.log10(HgHb/HgHb_CaseB)/(k_HGAMMA - k_HBETA) *)
            EBV <- lift (q <- Numpy.div HgHb (VFloat HgHb_CaseB) ;;
                         l <- np_log10 q ;;
                         m <- Numpy.mul (VFloat (-2.5)) l ;;
                         Numpy.div m (VFloat (k_HGAMMA k - k_HBETA k)))%py ;;
            n1 <- lift (list_item (dust0 (cols w)) 1) ;;
            n2 <- lift (list_item (dust0 (cols w)) 2) ;;
            n3 <- lift (list_item (dust0 (cols w)) 0) ;;
            out_ascii <-
              lift (f <- getitem (filename_dict (cols w))
                           (if rev : bool then "bin_derived_prop_rev"
                            else "bin_derived_prop") ;;
                    p <- as_str fitspath ;;
                    Ok (join p f))%py ;;
            ex <- file_exists out_ascii ;;
            if ex : bool then
              tab1 <- asc_read out_ascii ;;
              tab1 <- lift (c1 <- as_arr1 HgHb ;;
                            c2 <- as_arr1 HdHb ;;
                            c3 <- as_arr1 EBV ;;
                            t <- add_column tab1 n1 c1 ;;
                            t <- add_column t n2 c2 ;;
                            add_column t n3 c3)%py ;;
              asc_write_keep tab1 out_ascii ;;;
              mret VNone
            else mraise FileNotFoundError)%M
       | _ => mraise TypeError
       end |}.

(** *** error_prop.py *)

(** [chun_codes.random_pdf(x, dx, seed_i=, n_iter=)] and
    [chun_codes.compute_onesig_pdf(arr0, x_val, usepeak=True)], which returns
    [(err, peak)]; [np.int_] on one number. *)
Variable random_pdf : list float -> list float -> nat -> nat -> value.
Variable compute_onesig_pdf : value -> list float -> value * value.
Variable np_int_ : float -> float.

(** [np.savez(file, **d)] where it succeeds: a [file] that ends in [.npz],
    in a directory that exists, and a dictionary whose keys are not parameters
    of [np.savez] itself.  The archive holds the dictionary under that name. *)
Definition savez (file : string) (d : list (string * value)) : M unit :=
  modify (fun w => set_archives w (dict_set (archives w) file d)).

Fixpoint write_npz (path : string) (npz_files : list string)
  (dict_list : list (list (string * value))) : M unit :=
  match npz_files, dict_list with
  | file :: fs, dict_input :: ds =>
      (savez (join path file) dict_input ;;; write_npz path fs ds)%M
  | _, _ => mret tt
  end.

(** A local name that is bound only on some paths. *)
Definition local {A} (x : option A) : M A := lift (of_option NameError x).

(** [enumerate(line_name)]: the loops run over
    [zip(range(len(flux_cols)), flux_cols, flux_rms_cols)] and use
    [line_name[aa]], [flux_cols[aa]], [flux_rms_cols[aa]]. *)
Definition lines (w : world) : list (nat * string) :=
  combine (seq 0 (length (line_name (pkg w)))) (line_name (pkg w)).

(** Lines 91-94: the nominal fluxes by line. *)
Fixpoint raw_fluxes (flux_tab0 : table) (ls : list (nat * string))
  (flux_dict : list (string * value)) : outcome (list (string * value)) :=
  match ls with
  | [] => Ok flux_dict
  | (aa, name) :: ls' =>
      (x <- tbl_col flux_tab0 (String.append name "_Flux_Gaussian") ;;
       raw_fluxes flux_tab0 ls' (dict_set flux_dict name (VArr x)))%py
  end.

Record flux_state : Type := {
  flux_pdf_dict : list (string * value);
  flux_peak_dict : list (string * value);
  flux_error_dict : list (string * value);
  flux_tab0 : table
}.

(** Lines 127-138: randomization for emission-line fluxes. *)
Fixpoint randomize_fluxes (flux_tab : table) (detect_idx : list nat)
  (ls : list (nat * string)) (s : flux_state) : outcome flux_state :=
  match ls with
  | [] => Ok s
  | (aa, name) :: ls' =>
      (x <- tbl_col flux_tab (String.append name "_Flux_Gaussian") ;;
       dx <- tbl_col flux_tab (String.append name "_RMS") ;;
       let flux_pdf := random_pdf x dx aa 1000 in
       let '(err, peak) := compute_onesig_pdf flux_pdf x in
       (* Update values *)
       t <- tbl_put (flux_tab0 s) (String.append name "_Flux_Gaussian")
              detect_idx peak ;;
       randomize_fluxes flux_tab detect_idx ls'
         {| flux_pdf_dict := dict_set (flux_pdf_dict s) name flux_pdf;
            flux_peak_dict :=
              dict_set (flux_peak_dict s) (String.append name "_peak") peak;
            flux_error_dict :=
              dict_set (flux_error_dict s) (String.append name "_error") err;
            flux_tab0 := t |})%py
  end.

Record prop_state : Type := {
  derived_prop_error_dict : list (string * value);
  derived_prop_peak_dict : list (string * value);
  prop_tab0 : table
}.

(** Lines 189-201: loop for each derived property. *)
Fixpoint reduce_properties (prop_tab : table) (detect_idx : list nat)
  (derived_prop_pdf_dict : list (string * value)) (names : list string)
  (s : prop_state) : outcome prop_state :=
  match names with
  | [] => Ok s
  | names0 :: names' =>
      (arr0 <- tbl_col prop_tab names0 ;;
       pdf <- getitem derived_prop_pdf_dict names0 ;;
       let '(err_prop, peak_prop) := compute_onesig_pdf pdf arr0 in
       (* Update values *)
       t <- tbl_put (prop_tab0 s) names0 detect_idx peak_prop ;;
       reduce_properties prop_tab detect_idx derived_prop_pdf_dict names'
         {| derived_prop_error_dict :=
              dict_set (derived_prop_error_dict s)
                       (String.append names0 "_error") err_prop;
            derived_prop_peak_dict :=
              dict_set (derived_prop_peak_dict s)
                       (String.append names0 "_peak") peak_prop;
            prop_tab0 := t |})%py
  end.

Definition as_dict (v : value) : outcome (list (string * value)) :=
  match v with
  | VDict d => Ok d
  | _ => Raise TypeError
  end.

(** Lines 66-80: the detection subset and the detected rows. *)
Definition detect (verify_tab flux_tab0 prop_tab0 : table)
  : outcome (list nat * table * table) :=
  (detection <- tbl_col verify_tab "Detection" ;;
   (* For now we are only considering those with reliable detection and
      excluding those with reliable non-detections (detect = 0.5) *)
   let detect_idx := Numpy.where_eq detection 1 0 in
   ID <- tbl_col verify_tab "bin_ID" ;;
   ID_detect <- mapM (list_item ID) detect_idx ;;
   flux_tab <- tbl_rows flux_tab0 detect_idx ;;
   prop_tab <- tbl_rows prop_tab0 detect_idx ;;
   Ok (detect_idx, flux_tab, prop_tab))%py.

(** Lines 89-118: the [raw] branch. *)
Definition raw_branch (path : string) (flux_tab0 : table) : M unit :=
  (w <- get ;;
   flux_dict <- lift (raw_fluxes flux_tab0 (lines w) []) ;;
   flux_ratios_dict <- py_call flux_ratios [VDict flux_dict] [] ;;
   R <- lift (subscript flux_ratios_dict "R") ;;
   Te <- py_call temp_calculation [R] [] ;;
   key <- lift (list_item (temp_metal_names0 (cols w)) 0) ;;
   let derived_prop_dict := dict_set [] key Te in
   two_beta <- lift (subscript flux_ratios_dict "two_beta") ;;
   three_beta <- lift (subscript flux_ratios_dict "three_beta") ;;
   metal_dict <- py_call metallicity_calculation [Te; two_beta; three_beta] [] ;;
   metal_dict <- lift (as_dict metal_dict) ;;
   let derived_prop_dict := dict_update derived_prop_dict metal_dict in
   (* Write Astropy table *)
   bin0 <- lift (list_item (bin_names0 (cols w)) 0) ;;
   ids <- lift (tbl_col flux_tab0 bin0) ;;
   let tbl_dict := [(bin0, VArr (map np_int_ ids))] in
   ratios <- lift (as_dict flux_ratios_dict) ;;
   let tbl_dict := dict_update tbl_dict ratios in
   let tbl_dict := dict_update tbl_dict derived_prop_dict in
   f <- lift (getitem (filename_dict (cols w)) "bin_derived_prop") ;;
   t <- lift (table_of_dict tbl_dict) ;;
   asc_write t (join path f))%M.

(** Lines 164-167: E(B-V) from the Balmer decrement if [apply_dust]. *)
Definition dust_step (apply_dust : bool) (flux_ratios_dict : value) : M value :=
  (if apply_dust
   then HgHb <- lift (subscript flux_ratios_dict "HgHb") ;;
        py_call compute_EBV [HgHb] [("source", VStr "HgHb")]
   else mret VNone)%M.

(** Lines 173-186: temperature and metallicity distributions. *)
Definition derive_properties (flux_ratios_dict EBV : value)
  : M (list (string * value)) :=
  (w <- get ;;
   R <- lift (subscript flux_ratios_dict "R") ;;
   Te_pdf <- py_call temp_calculation [R] [("EBV", EBV)] ;;
   key <- lift (list_item (temp_metal_names0 (cols w)) 0) ;;
   let derived_prop_pdf_dict := dict_set [] key Te_pdf in
   two_beta <- lift (subscript flux_ratios_dict "two_beta") ;;
   three_beta <- lift (subscript flux_ratios_dict "three_beta") ;;
   metal_dict <- py_call metallicity_calculation
                   [Te_pdf; two_beta; three_beta] [("EBV", EBV)] ;;
   metal_dict <- lift (as_dict metal_dict) ;;
   mret (dict_update derived_prop_pdf_dict metal_dict))%M.

(** Lines 120-221: the randomized branch. *)
Definition randomized_branch (path : string) (apply_dust : bool)
  (tab0 ptab0 : table) (det : option (list nat * table * table)) : M unit :=
  (w <- get ;;
   '(detect_idx, flux_tab, prop_tab) <- local det ;;
   fs <- lift (randomize_fluxes flux_tab detect_idx (lines w)
                 {| flux_pdf_dict := []; flux_peak_dict := [];
                    flux_error_dict := []; flux_tab0 := tab0 |}) ;;
   (* Write revised emission-line fit ASCII table *)
   f <- lift (getitem (filename_dict (cols w)) "bin_fit_rev") ;;
   asc_write (flux_tab0 fs) (join path f) ;;;
   (* Save flux npz files *)
   n1 <- lift (getitem (npz_filename_dict (cols w)) "flux_pdf") ;;
   n2 <- lift (getitem (npz_filename_dict (cols w)) "flux_errors") ;;
   n3 <- lift (getitem (npz_filename_dict (cols w)) "flux_peak") ;;
   write_npz path [n1; n2; n3]
     [flux_pdf_dict fs; flux_error_dict fs; flux_peak_dict fs] ;;;
   (* Obtain line ratio distributions *)
   flux_ratios_dict <- py_call flux_ratios [VDict (flux_pdf_dict fs)] [] ;;
   EBV <- dust_step apply_dust flux_ratios_dict ;;
   derived_prop_pdf_dict <- derive_properties flux_ratios_dict EBV ;;
   ps <- lift (reduce_properties prop_tab detect_idx derived_prop_pdf_dict
                 (temp_metal_names0 (cols w))
                 {| derived_prop_error_dict := [];
                    derived_prop_peak_dict := []; prop_tab0 := ptab0 |}) ;;
   (* Write revised properties ASCII table *)
   f <- lift (getitem (filename_dict (cols w))
                (if negb apply_dust then "bin_derived_prop_rev"
                 else "bin_derived_prop_rev_dust")) ;;
   asc_write (prop_tab0 ps) (join path f) ;;;
   (* Save derived properties npz files *)
   n1 <- lift (getitem (npz_filename_dict (cols w)) "der_prop_pdf") ;;
   n2 <- lift (getitem (npz_filename_dict (cols w)) "der_prop_errors") ;;
   n3 <- lift (getitem (npz_filename_dict (cols w)) "der_prop_peak") ;;
   write_npz path [n1; n2; n3]
     [derived_prop_pdf_dict; derived_prop_error_dict ps;
      derived_prop_peak_dict ps])%M.

Definition fluxes_derived_prop (path : string)
  (raw binned_data apply_dust revised : bool) : M unit :=
  (w <- get ;;
   (* Define files to read in for binned data *)
   '(flux_file, prop_file, verify_file) <-
      (if binned_data
       then f <- lift (getitem (filename_dict (cols w)) "bin_fit") ;;
            if negb raw
            then p <- lift (getitem (filename_dict (cols w)) "bin_derived_prop") ;;
                 v <- lift (getitem (filename_dict (cols w))
                              (if revised then "bin_valid_rev" else "bin_valid")) ;;
                 mret (Some (join path f), Some (join path p), Some (join path v))
            else mret (Some (join path f), None, None)
       else mret (None, None, None)) ;;
   tab0 <- (f <- local flux_file ;; asc_read f) ;;
   ptab0 <- (if negb raw
             then p <- local prop_file ;; t <- asc_read p ;; mret (Some t)
             else mret None) ;;
   det <- (if binned_data && negb raw
           then v <- local verify_file ;;
                verify_tab <- asc_read v ;;
                pt <- local ptab0 ;;
                d <- lift (detect verify_tab tab0 pt) ;;
                mret (Some d)
           else mret None) ;;
   if raw
   then raw_branch path tab0
   else pt <- local ptab0 ;;
        randomized_branch path apply_dust tab0 pt det)%M.

(** *** attenuation.py: [compute_A], [line_ratio_atten] *)

(** The items a [for] loop or [zip] takes: numbers from an
    array of one dimension, rows from two, keys from a dictionary, characters
    from a string; an index array gives its entries (as index arrays of one
    entry: the values have no integer of their own). *)
Definition iterate (v : value) : outcome (list value) :=
  match v with
  | VArr l => Ok (map VFloat l)
  | VArr2 _ rows => Ok (map VArr rows)
  | VIdx l => Ok (map (fun i => VIdx [i]) l)
  | VDict d => Ok (map (fun kv => VStr (fst kv)) d)
  | VStr s =>
      Ok (map (fun ch => VStr (String ch EmptyString)) (list_ascii_of_string s))
  | _ => Raise TypeError
  end.

(** [k_arr = np.array(list(k_dict.values())); A_arr = k_arr * EBV;
     A_dict = dict(zip(list(k_dict.keys()), A_arr))] *)
Definition compute_A : pyfun :=
  {| params := [("EBV", None)];
     body := fun args =>
       match args with
       | [EBV] =>
           (w <- get ;;
            let k_arr := VArr (map snd (k_dict (pkg w))) in
            lift (A_arr <- Numpy.mul k_arr EBV ;;
                  items <- iterate A_arr ;;
                  Ok (VDict (dict_zip (map fst (k_dict (pkg w))) items)))%py)%M
       | _ => mraise TypeError
       end |}.

(** [k_dict[wave]]: a key that is not a string is not in the dictionary; an
    array or a dictionary cannot be a key at all. *)
Definition k_lookup (k_dict : list (string * float)) (wave : value)
  : outcome float :=
  match wave with
  | VStr s => getitem k_dict s
  | VNone | VBool _ | VFloat _ => Raise KeyError
  | _ => Raise TypeError
  end.

(** [ratio_atten = ratio * 10**(0.4*EBV*(k_top - k_bottom))] *)
Definition line_ratio_atten : pyfun :=
  {| params := [("ratio", None); ("EBV", None); ("wave_top", None);
                ("wave_bottom", None)];
     body := fun args =>
       match args with
       | [ratio; EBV; wave_top; wave_bottom] =>
           (w <- get ;;
            lift (k_top <- k_lookup (k_dict (pkg w)) wave_top ;;
                  k_bottom <- k_lookup (k_dict (pkg w)) wave_bottom ;;
                  e1 <- Numpy.mul (VFloat 0.4) EBV ;;
                  e2 <- Numpy.mul e1 (VFloat (k_top - k_bottom)) ;;
                  p <- np_power (VFloat 10) e2 ;;
                  Numpy.mul ratio p)%py)%M
       | _ => mraise TypeError
       end |}.

Definition HaHb_CaseB : float := 2.86.

(** [logSFR = np.log10(4.4e-42 * HaHb_CaseB) + 0.4*EBV*k_HBETA + log_LHb] *)
Definition Hb_SFR : pyfun :=
  {| params := [("log_LHb", None); ("EBV", None)];
     body := fun args =>
       match args with
       | [log_LHb; EBV] =>
           (w <- get ;;
            lift (l <- np_log10 (VFloat (4.4e-42 * HaHb_CaseB)) ;;
                  e1 <- Numpy.mul (VFloat 0.4) EBV ;;
                  e2 <- Numpy.mul e1 (VFloat (k_HBETA (consts w))) ;;
                  s <- Numpy.add l e2 ;;
                  Numpy.add s log_LHb)%py)%M
       | _ => mraise TypeError
       end |}.

(** *** composite_indv_detect.py

    The loop of [main] (lines 38-41).  The rest of [main] calls
    [metallicity_calculation] as imported from [..temp_metallicity_calc], a
    module that is not among the sources. *)

(** Populate composite temperature for individual galaxies (the loop over
    [zip(bin_id, bin_temp)]). *)
Fixpoint adopt (bin_table : table) (bins : list (float * float))
  (adopted_temp : list float) : outcome (list float) :=
  match bins with
  | [] => Ok adopted_temp
  | (comp_bin, comp_temp) :: bins' =>
      (col <- tbl_col bin_table "Bin_number" ;;
       let bin_idx := Numpy.where_eq col comp_bin 0 in
       adopted_temp <- Numpy.put adopted_temp bin_idx (VFloat comp_temp) ;;
       adopt bin_table bins' adopted_temp)%py
  end.

End Program.

(* ------------------------------------------------------------------------- *)
(** ** Start-up and a sample installation *)

Section Startup.
Local Open Scope float_scope.
Local Open Scope py_scope.

(** What the interpreter binds when the package is imported.  [k_values] is
    [cardelli(lambda0 * u.Angstrom)] (chun_codes); [short], [r] and [cn]
    are the objects the other modules import that the package's
    [__init__.py] and [column_names] provide; [files] is the directory and
    [overwrites] the installed astropy (see [world]). *)
Definition startup (k_values : list float) (short : list (string * string))
  (r : float) (cn : column_names) (files : list (string * table))
  (overwrites : bool) : outcome world :=
  let lambda0 := [3726.18; 4101.73; 4340.46; 4363.21; 4861.32; 4958.91; 5006.84] in
  let line_type := ["Oxy2"; "Balmer"; "Balmer"; "Single"; "Balmer"; "Single";
                    "Single"]%string in
  let line_name := ["OII_3727"; "HDELTA"; "HGAMMA"; "OIII_4363"; "HBETA";
                    "OIII_4958"; "OIII_5007"]%string in
  (* Define k values for dust attenuation *)
  let k_dict := dict_update [] (combine line_name k_values) in
  k4363 <- getitem k_dict "OIII_4363" ;;
  k5007 <- getitem k_dict "OIII_5007" ;;
  hb <- getitem short "HB" ;;
  hg <- getitem short "HG" ;;
  hd <- getitem short "HD" ;;
  khb <- getitem k_dict hb ;;
  khg <- getitem k_dict hg ;;
  Ok {| pkg := {| lambda0 := lambda0; line_type := line_type;
                  line_name := line_name; k_dict := k_dict;
                  line_name_short := short; OIII_r := r |};
        cols := cn;
        consts := {| k_4363 := k4363; k_5007 := k5007; HB := hb; HG := hg;
                     HD := hd; k_HBETA := khb; k_HGAMMA := khg |};
        tables := files;
        archives := [];
        overwrites := overwrites |}.
End Startup.

Module Sample.
Local Open Scope float_scope.

(** Modelled from the spec: [line_name_short] and [OIII_r] are not in the
    [__init__.py] at hand.  The short labels are those ratios.py and
    attenuation.py look up, bound to the entries of [line_name]; the doublet
    ratio is the 3.1 of the three_beta formula. *)
Definition short : list (string * string) :=
  [("OII", "OII_3727"); ("4363", "OIII_4363"); ("HB", "HBETA");
   ("OIII", "OIII_5007"); ("HG", "HGAMMA"); ("HD", "HDELTA")]%string.
Definition r : float := 3.1.

(** Modelled from the spec: [column_names] is not among the sources.  The
    ratio names are the spec's, suffixed as ratios.py expects; the
    derived-property names are the six quantities in the order
    metallicity_calculation zips them; the dictionary keys are those the
    sources look up; [remove_from_list] returns the list without the given
    entries. *)
Definition cn : column_names :=
  {| filename_dict :=
       [("bin_fit", "bin_emission_line_fit.tbl");
        ("bin_fit_rev", "bin_emission_line_fit.revised.tbl");
        ("bin_derived_prop", "bin_derived_properties.tbl");
        ("bin_derived_prop_rev", "bin_derived_properties.revised.tbl");
        ("bin_derived_prop_rev_dust", "bin_derived_properties.dustcorr.tbl");
        ("bin_valid", "bin_validation.tbl");
        ("bin_valid_rev", "bin_validation.revised.tbl")]%string;
     npz_filename_dict :=
       [("flux_pdf", "flux_pdf.npz"); ("flux_errors", "flux_errors.npz");
        ("flux_peak", "flux_peak.npz"); ("der_prop_pdf", "derived_properties_pdf.npz");
        ("der_prop_errors", "derived_properties_errors.npz");
        ("der_prop_peak", "derived_properties_peak.npz")]%string;
     temp_metal_names0 :=
       ["T_e"; "12+log(O/H)"; "log(O+/H)"; "log(O++/H)"; "O+/H"; "O++/H"]%string;
     bin_names0 := ["bin_ID"]%string;
     bin_ratios0 :=
       ["logR23_composite"; "logO32_composite"; "two_beta_composite";
        "three_beta_composite"; "R_composite"]%string;
     dust0 := ["HgHb"; "HdHb"; "EBV"]%string;
     remove_from_list := fun list0 remove_entries =>
       Ok (filter (fun s => negb (existsb (String.eqb s) remove_entries))
             list0) |}.

(** Reddening coefficients of the seven lines, as an extinction curve
    gives them (decreasing with wavelength). *)
Definition k_values : list float := [4.77; 4.44; 4.17; 4.15; 3.61; 3.53; 3.47].

(** Two bins: the first reliably detected, the second marginal. *)
Definition flux_table : table :=
  [("bin_ID", [1; 2]);
   ("OII_3727_Flux_Gaussian", [100; 80]); ("OII_3727_RMS", [1; 1]);
   ("HDELTA_Flux_Gaussian", [13; 12]); ("HDELTA_RMS", [1; 1]);
   ("HGAMMA_Flux_Gaussian", [23; 22]); ("HGAMMA_RMS", [1; 1]);
   ("OIII_4363_Flux_Gaussian", [1.5; 0.4]); ("OIII_4363_RMS", [0.1; 0.1]);
   ("HBETA_Flux_Gaussian", [50; 45]); ("HBETA_RMS", [1; 1]);
   ("OIII_4958_Flux_Gaussian", [97; 60]); ("OIII_4958_RMS", [1; 1]);
   ("OIII_5007_Flux_Gaussian", [300; 180]); ("OIII_5007_RMS", [1; 1])]%string.

Definition prop_table : table :=
  [("bin_ID", [1; 2]); ("T_e", [12000; 0]); ("12+log(O/H)", [8.1; 0]);
   ("log(O+/H)", [-4.4; 0]); ("log(O++/H)", [-4.0; 0]);
   ("O+/H", [0.00004; 0]); ("O++/H", [0.0001; 0])]%string.

Definition valid_table : table :=
  [("bin_ID", [1; 2]); ("Detection", [1; 0.5])]%string.

Definition files : list (string * table) :=
  [("/data/bin_emission_line_fit.tbl", flux_table);
   ("/data/bin_derived_properties.tbl", prop_table);
   ("/data/bin_validation.tbl", valid_table);
   ("/data/bin_validation.revised.tbl", valid_table)]%string.

Definition world0 : outcome world :=
  startup k_values short r cn files true.

Definition w0 : world :=
  match world0 with
  | Ok w => w
  | Raise _ =>
      {| pkg := {| lambda0 := []; line_type := []; line_name := []; k_dict := [];
                   line_name_short := []; OIII_r := 0 |};
         cols := cn;
         consts := {| k_4363 := 0; k_5007 := 0; HB := ""; HG := ""; HD := "";
                      k_HBETA := 0; k_HGAMMA := 0 |};
         tables := []; archives := []; overwrites := true |}
  end.

(** The nominal fluxes of the first bin, by line. *)
Definition flux_dict : value :=
  VDict [("OII_3727", VArr [100]); ("OIII_5007", VArr [300]);
         ("HBETA", VArr [50]); ("OIII_4363", VArr [1.5])]%string.
End Sample.

(* ------------------------------------------------------------------------- *)
(** ** Vocabulary of the statements *)

(** A statement about every libm. *)
Definition for_every_libm
  (P : (float -> float) -> (float -> float -> float) -> Prop) : Prop :=
  forall libm_log10 libm_pow, P libm_log10 libm_pow.

(** Every index of [idx] is below [n]. *)
Definition in_range (n : nat) (idx : list nat) : bool :=
  forallb (fun i => Nat.ltb i n) idx.

(** [c] keeps the relation [R] between the store before and after. *)
Definition preserves (R : world -> world -> Prop) {A} (c : M A) : Prop :=
  forall w, R w (snd (c w)).

(** Nothing but [dust0] differs between two stores. *)
Definition same_but_dust0 (w w' : world) : Prop :=
  pkg w' = pkg w /\ consts w' = consts w /\ tables w' = tables w
  /\ archives w' = archives w
  /\ filename_dict (cols w') = filename_dict (cols w)
  /\ npz_filename_dict (cols w') = npz_filename_dict (cols w)
  /\ temp_metal_names0 (cols w') = temp_metal_names0 (cols w)
  /\ remove_from_list (cols w') = remove_from_list (cols w)
  /\ bin_names0 (cols w') = bin_names0 (cols w)
  /\ bin_ratios0 (cols w') = bin_ratios0 (cols w)
  /\ overwrites w' = overwrites w.

(** [t'] has the columns of [t], and every row outside [idx] is as in [t]. *)
Definition same_outside (idx : list nat) (t t' : table) : Prop :=
  map fst t' = map fst t
  /\ forall name col, dict_get t name = Some col ->
       exists col', dict_get t' name = Some col'
                    /\ length col' = length col
                    /\ forall i, ~ In i idx -> nth_error col' i = nth_error col i.

(** What [metallicity_calculation] returns for its five arrays: the
    dictionary that zips them with the names [remove_from_list] gives. *)
Definition metal_result (w : world) (com_O_log O_s_ion_log O_d_ion_log
  O_s_ion O_d_ion : list float) : outcome value :=
  (key_dict <- remove_from_list (cols w) (temp_metal_names0 (cols w))
                 ["T_e"%string] ;;
   Ok (VDict (dict_zip key_dict
                [VArr com_O_log; VArr O_s_ion_log; VArr O_d_ion_log;
                 VArr O_s_ion; VArr O_d_ion])))%py.

(** [r[key][i]] of a returned dictionary of arrays. *)
Definition entry (r : outcome value) (key : string) (i : nat) : option float :=
  match r with
  | Ok (VDict d) =>
      match dict_get d key with
      | Some (VArr l) => nth_error l i
      | _ => None
      end
  | _ => None
  end.

(** The formulas of [metallicity_calculation] at one object. *)
Module At.
Section At.
Local Open Scope float_scope.
Variable libm_log10 : float -> float.
Variable libm_pow : float -> float -> float.
Local Abbreviation log10 := (Np.log10 libm_log10).
Local Abbreviation power := (Np.power libm_pow).

Definition t_3 (T_e : float) : float := T_e * 1e-4.
Definition t_2 (T_e : float) : float := 0.7 * t_3 T_e + 0.17.
Definition x2 (T_e : float) : float := 1e-4 * 1e3 * power (t_2 T_e) (-0.5).
Definition O_s_ion_log (T_e TWO_BETA : float) : float :=
  log10 TWO_BETA + 5.961 + 1.676 / t_2 T_e - 0.4 * log10 (t_2 T_e)
  - 0.034 * t_2 T_e + log10 (1 + 1.35 * x2 T_e) - 12.
Definition O_d_ion_log (T_e THREE_BETA : float) : float :=
  log10 THREE_BETA + 6.200 + 1.251 / t_3 T_e - 0.55 * log10 (t_3 T_e)
  - 0.014 * t_3 T_e - 12.
Definition ion (ion_log : float) : float := power 10 ion_log.
Definition com_O_log (O_s_ion O_d_ion : float) : float :=
  log10 (O_s_ion + O_d_ion) + 12.
(** [temp_calculation] at one object. *)
Definition T_e (R : float) : float := a * power (- log10 R - b) (-1 * c).
End At.
End At.

Module SampleLib.
Local Open Scope float_scope.

(** A sample of chun_codes, a library outside the repository: the sampler
    of spec 4.1 on data without spread (every draw is the nominal value) and
    the reducer of spec 4.2 on such an ensemble (the peak is the common draw,
    both one-sided errors are zero). *)
Definition random_pdf (x dx : list float) (seed_i n_iter : nat) : value :=
  VArr2 n_iter (map (fun v => repeat v n_iter) x).

Definition compute_onesig_pdf (arr0 : value) (x_val : list float)
  : value * value :=
  match arr0 with
  | VArr2 _ rows =>
      (VArr2 2 (map (fun _ => [0; 0]) rows), VArr (map (hd 0) rows))
  | _ => (VArr2 2 (map (fun _ => [0; 0]) x_val), VArr x_val)
  end.
End SampleLib.

(** The quantities of attenuation.py and composite_indv_detect.py at one
    object. *)
Module AtDust.
Local Open Scope float_scope.

(** [EBV = -2.5 * np.log10(HgHb/HgHb_CaseB)/(k_HGAMMA - k_HBETA)] *)
Definition EBV (libm_log10 : float -> float) (k_HGAMMA k_HBETA HgHb : float)
  : float :=
  -2.5 * Np.log10 libm_log10 (HgHb / HgHb_CaseB) / (k_HGAMMA - k_HBETA).

(** [ratio * 10**(0.4*EBV*(k_top - k_bottom))] *)
Definition ratio_atten (libm_pow : float -> float -> float)
  (k_top k_bottom ratio EBV : float) : float :=
  ratio * Np.power libm_pow 10 (0.4 * EBV * (k_top - k_bottom)).

(** [np.log10(4.4e-42 * HaHb_CaseB) + 0.4*EBV*k_HBETA + log_LHb] *)
Definition logSFR (libm_log10 : float -> float) (k_HBETA log_LHb EBV : float)
  : float :=
  Np.log10 libm_log10 (4.4e-42 * HaHb_CaseB) + 0.4 * EBV * k_HBETA + log_LHb.

(** The temperature the loop over the composites leaves for a galaxy of bin
    number [y] that held [t]: that of the last composite whose ID equals
    [y], and [t] when there is none. *)
Definition adopted (bins : list (float * float)) (y t : float) : float :=
  fold_left (fun acc bt => if y =? fst bt then snd bt else acc) bins t.
End AtDust.

(** A sample directory for attenuation.py: the fit table of two bins with
    observed Balmer fluxes, and a table of derived properties. *)
Module SampleDust.
Local Open Scope float_scope.

Definition fit_table : table :=
  [("bin_ID", [1; 2]); ("HBETA_Flux_Observed", [50; 45]);
   ("HGAMMA_Flux_Observed", [23; 22]); ("HDELTA_Flux_Observed", [13; 12])]%string.

Definition w : world :=
  set_tables Sample.w0
    [("/data/bin_emission_line_fit.tbl", fit_table);
     ("/data/bin_derived_properties.tbl", [("bin_ID", [1; 2])])]%string.

(** The same directory where astropy is 5.0 or later. *)
Definition w5 : world :=
  {| pkg := pkg w; cols := cols w; consts := consts w; tables := tables w;
     archives := archives w; overwrites := false |}.
End SampleDust.

(* ------------------------------------------------------------------------- *)
(** ** Computations that cannot return *)

(** [fails c]: from every store, [c] ends in an exception. *)
Definition fails {A} (c : M A) : Prop :=
  forall w, exists e w', c w = (Raise e, w').

(** [aborts c]: from every store, [c] ends in an exception and leaves the
    store as it found it. *)
Definition aborts {A} (c : M A) : Prop :=
  forall w, exists e, c w = (Raise e, w).

(** The sample installation imports without error. *)
Lemma sample_world_starts : Sample.world0 = Ok Sample.w0.
Proof. vm_compute. reflexivity. Qed.

Lemma fails_raise A (e : exn) : fails (@mraise A e).
Proof. intros w. exists e, w. reflexivity. Qed.

Lemma fails_bind_l A B (c : M A) (k : A -> M B) : fails c -> fails (mbind c k).
Proof.
  intros H w. destruct (H w) as (e & w' & E).
  exists e, w'. unfold mbind. rewrite E. reflexivity.
Qed.

Lemma fails_bind_r A B (c : M A) (k : A -> M B) :
  (forall x, fails (k x)) -> fails (mbind c k).
Proof.
  intros H w. unfold mbind. destruct (c w) as [[x|e] w'].
  - apply H.
  - exists e, w'. reflexivity.
Qed.

Lemma fails_bind_ok A B (x : A) (k : A -> M B) :
  fails (k x) -> fails (mbind (lift (Ok x)) k).
Proof. intros H w. apply H. Qed.

Lemma dict_get_set V (d : list (string * V)) k v :
  dict_get (dict_set d k v) k = Some v.
Proof.
  induction d as [|[k' v'] d IH]; simpl.
  - rewrite String.eqb_refl. reflexivity.
  - destruct (String.eqb k' k) eqn:E; simpl.
    + rewrite String.eqb_refl. reflexivity.
    + rewrite E. exact IH.
Qed.

Section CallFacts.
Variable libm_log10 : float -> float.
Variable libm_pow : float -> float -> float.

(** [R_calculation] has three required parameters; ratios.py passes two. *)
Lemma R_calculation_two_arguments (x y : value) :
  py_call (R_calculation libm_pow) [x; y] [] = mraise TypeError.
Proof. reflexivity. Qed.

(** [temp_calculation] takes [R] only. *)
Lemma temp_calculation_keyword_EBV (R EBV : value) :
  py_call (temp_calculation libm_log10 libm_pow) [R] [("EBV", EBV)]
  = mraise TypeError.
Proof. reflexivity. Qed.

Lemma metallicity_calculation_keyword_EBV (T x y EBV : value) :
  py_call (metallicity_calculation libm_log10 libm_pow) [T; x; y] [("EBV", EBV)]
  = mraise TypeError.
Proof. reflexivity. Qed.

(** [compute_EBV] takes a path and [use_revised]. *)
Lemma compute_EBV_keyword_source (x s : value) :
  py_call (compute_EBV libm_log10) [x] [("source", s)] = mraise TypeError.
Proof. reflexivity. Qed.

Lemma flux_ratios_get_R_fails (flux_dict binned_data : value) :
  fails (body (flux_ratios libm_log10 libm_pow)
           [flux_dict; binned_data; VBool true]).
Proof.
  cbn [body flux_ratios].
  do 19 (apply fails_bind_r; intros).
  apply fails_bind_ok. cbv beta iota.
  apply fails_bind_l. apply fails_bind_r; intros.
  apply fails_bind_l. rewrite R_calculation_two_arguments. apply fails_raise.
Qed.

Lemma flux_ratios_default_fails (flux_dict : value) :
  fails (py_call (flux_ratios libm_log10 libm_pow) [flux_dict] []).
Proof. apply (flux_ratios_get_R_fails flux_dict (VBool false)). Qed.

Lemma derive_properties_fails (flux_ratios_dict EBV : value) :
  fails (derive_properties libm_log10 libm_pow flux_ratios_dict EBV).
Proof.
  unfold derive_properties.
  do 2 (apply fails_bind_r; intros).
  apply fails_bind_l. rewrite temp_calculation_keyword_EBV. apply fails_raise.
Qed.

Section Pipeline.
Variable random_pdf : list float -> list float -> nat -> nat -> value.
Variable compute_onesig_pdf : value -> list float -> value * value.
Variable np_int_ : float -> float.

Lemma raw_branch_fails path tab0 :
  fails (raw_branch libm_log10 libm_pow np_int_ path tab0).
Proof.
  unfold raw_branch.
  do 2 (apply fails_bind_r; intros).
  apply fails_bind_l, flux_ratios_default_fails.
Qed.

Lemma randomized_branch_fails path apply_dust tab0 ptab0 det :
  fails (randomized_branch libm_log10 libm_pow random_pdf compute_onesig_pdf
           path apply_dust tab0 ptab0 det).
Proof.
  unfold randomized_branch.
  apply fails_bind_r; intros w.
  apply fails_bind_r; intros [[detect_idx flux_tab] prop_tab].
  do 7 (apply fails_bind_r; intros).
  apply fails_bind_l, flux_ratios_default_fails.
Qed.

Lemma fluxes_derived_prop_fails path raw binned_data apply_dust revised :
  fails (fluxes_derived_prop libm_log10 libm_pow random_pdf
           compute_onesig_pdf np_int_ path raw binned_data apply_dust revised).
Proof.
  unfold fluxes_derived_prop.
  apply fails_bind_r; intros w.
  apply fails_bind_r; intros [[flux_file prop_file] verify_file].
  do 3 (apply fails_bind_r; intros).
  destruct raw.
  - apply raw_branch_fails.
  - apply fails_bind_r; intros. apply randomized_branch_fails.
Qed.
End Pipeline.
End CallFacts.

(* ------------------------------------------------------------------------- *)
(** ** binary64 facts *)

Section FloatFacts.
Local Open Scope float_scope.

Lemma SFcompare_finite_refl s m e :
  SFcompare (S754_finite s m e) (S754_finite s m e) = Some Eq.
Proof.
  simpl. rewrite Z.compare_refl, Pos.compare_cont_refl.
  destruct s; reflexivity.
Qed.

(** What the tests of [Np.power] answer on a base that is [<= 0]. *)
Lemma nonpositive_tests (x : float) :
  (x <=? 0) = true ->
  (x =? 1) = false /\ is_nan x = false /\
  (is_infinity x = false -> is_zero x = false -> (x <? 0) = true).
Proof.
  unfold is_nan, is_infinity, is_zero.
  rewrite FloatAxioms.leb_spec, !FloatAxioms.eqb_spec, FloatAxioms.ltb_spec,
    FloatAxioms.abs_spec.
  replace (Prim2SF 0) with (S754_zero false) by (vm_compute; reflexivity).
  replace (Prim2SF 1) with (S754_finite false 4503599627370496 (-52))
    by (vm_compute; reflexivity).
  replace (Prim2SF infinity) with (S754_infinity false)
    by (vm_compute; reflexivity).
  destruct (Prim2SF x) as [s|s| |s m e] eqn:E.
  - intros _. repeat split; try reflexivity. intros _ H. discriminate H.
  - destruct s; intros H; try discriminate H.
    repeat split; try reflexivity; intros H'; discriminate H'.
  - intros H. discriminate H.
  - destruct s; intros H; try discriminate H.
    unfold SFeqb at 2. rewrite SFcompare_finite_refl.
    repeat split; reflexivity.
Qed.

Lemma add_nan_r (x : float) : x + nan = nan.
Proof.
  apply Prim2SF_inj. rewrite FloatAxioms.add_spec.
  replace (Prim2SF nan) with S754_nan by (vm_compute; reflexivity).
  destruct (Prim2SF x) as [s|s| |s m e]; reflexivity.
Qed.

Section Power.
Variable libm_pow : float -> float -> float.

(** [x ** (-1 * c)] and [x ** (-0.5)]: the exponent is negative, finite
    and not an integer. *)
Lemma power_minus_c (x : float) :
  Np.power libm_pow x (-1 * c) =
  if x =? 1 then 1
  else if is_nan x then nan
  else if is_zero x then infinity
  else if is_infinity x then 0
  else if x <? 0 then nan
  else libm_pow x (-1 * c).
Proof.
  unfold Np.power.
  destruct (x =? 1), (is_nan x), (is_zero x), (is_infinity x), (x <? 0);
    vm_compute; reflexivity.
Qed.

(** [10 ** 0]: the linear abundance of a placeholder. *)
Lemma power_ten_zero : Np.power libm_pow 10 0 = 1.
Proof. vm_compute. reflexivity. Qed.
End Power.
End FloatFacts.

(* ------------------------------------------------------------------------- *)
(** ** Index arrays: selection and assignment *)

Section Arrays.
Local Open Scope float_scope.

Lemma obind_ok A B (x : A) (k : A -> outcome B) : obind (Ok x) k = k x.
Proof. reflexivity. Qed.

Lemma in_range_In n idx : in_range n idx = true -> forall i, In i idx -> i < n.
Proof.
  unfold in_range. rewrite forallb_forall. intros H i Hi.
  apply Nat.ltb_lt, H, Hi.
Qed.

Lemma mapM_list_item A (l : list A) (d : A) idx :
  in_range (length l) idx = true ->
  mapM (list_item l) idx = Ok (map (fun j => nth j l d) idx).
Proof.
  induction idx as [|i idx IH]; simpl; intros H; [reflexivity|].
  apply andb_prop in H. destruct H as [Hi H].
  apply Nat.ltb_lt in Hi. unfold list_item at 1.
  rewrite (nth_error_nth' l d Hi). simpl. rewrite (IH H). reflexivity.
Qed.

Lemma take_arr (l : list float) idx :
  in_range (length l) idx = true ->
  Numpy.take (VArr l) idx = Ok (VArr (map (fun j => nth j l 0) idx)).
Proof. intros H. simpl. rewrite (mapM_list_item l 0 idx H). reflexivity. Qed.

Lemma list_set_length A (l : list A) i x : length (list_set l i x) = length l.
Proof.
  revert i. induction l as [|y l IH]; intros [|i]; simpl; auto.
Qed.

Lemma nth_list_set_other A (l : list A) i j x d :
  j <> i -> nth j (list_set l i x) d = nth j l d.
Proof.
  revert i j. induction l as [|y l IH]; intros [|i] [|j] H; simpl; auto;
    try contradiction.
Qed.

Lemma nth_list_set_same A (l : list A) i x d :
  i < length l -> nth i (list_set l i x) d = x.
Proof.
  revert i. induction l as [|y l IH]; intros [|i] H; simpl in *; try lia; auto.
  apply IH. lia.
Qed.

Lemma assign_length a idx xs : length (Numpy.assign a idx xs) = length a.
Proof.
  unfold Numpy.assign. revert a xs.
  induction idx as [|i idx IH]; intros a [|x xs]; simpl; auto.
  rewrite IH. apply list_set_length.
Qed.

(** Frame: an index that is not assigned keeps its value. *)
Lemma nth_assign_out a idx xs j d :
  ~ In j idx -> nth j (Numpy.assign a idx xs) d = nth j a d.
Proof.
  unfold Numpy.assign. revert a xs.
  induction idx as [|i idx IH]; intros a [|x xs] H; simpl; auto.
  rewrite IH.
  - apply nth_list_set_other. intros E. apply H. left. auto.
  - intros Hj. apply H. right. exact Hj.
Qed.

Lemma nth_assign_in a idx (g : nat -> float) j d :
  in_range (length a) idx = true -> In j idx ->
  nth j (Numpy.assign a idx (map g idx)) d = g j.
Proof.
  revert a. induction idx as [|i idx IH]; intros a H Hj; [destruct Hj|].
  simpl in H. apply andb_prop in H. destruct H as [Hi H].
  apply Nat.ltb_lt in Hi.
  change (Numpy.assign a (i :: idx) (map g (i :: idx)))
    with (Numpy.assign (list_set a i (g i)) idx (map g idx)).
  destruct (in_dec Nat.eq_dec j idx) as [Hin|Hout].
  - apply IH; [|exact Hin]. rewrite list_set_length. exact H.
  - destruct Hj as [E|Hin]; [subst j|contradiction].
    rewrite nth_assign_out by exact Hout.
    apply nth_list_set_same. exact Hi.
Qed.

Lemma put_map a idx (g : nat -> float) :
  in_range (length a) idx = true ->
  Numpy.put a idx (VArr (map g idx)) = Ok (Numpy.assign a idx (map g idx)).
Proof.
  intros H. unfold Numpy.put, Numpy.put_values.
  rewrite length_map, Nat.eqb_refl. simpl.
  unfold in_range in H. rewrite H. reflexivity.
Qed.

Lemma take_assign a idx (g : nat -> float) :
  in_range (length a) idx = true ->
  Numpy.take (VArr (Numpy.assign a idx (map g idx))) idx = Ok (VArr (map g idx)).
Proof.
  intros H. rewrite take_arr by (rewrite assign_length; exact H).
  do 2 f_equal. apply map_ext_in. intros j Hj.
  apply nth_assign_in; assumption.
Qed.

Lemma map2_map A B C D (f : B -> C -> D) (F : A -> B) (G : A -> C) l :
  Numpy.map2 f (map F l) (map G l) = map (fun j => f (F j) (G j)) l.
Proof. induction l; simpl; congruence. Qed.

Lemma binop_arr_arr A f (F G : A -> float) l :
  Numpy.binop f (VArr (map F l)) (VArr (map G l))
  = Ok (VArr (map (fun j => f (F j) (G j)) l)).
Proof.
  unfold Numpy.binop. simpl. unfold Numpy.bc_len, Numpy.bc_zip.
  rewrite !length_map, Nat.eqb_refl. simpl. rewrite map2_map. reflexivity.
Qed.

Lemma binop_arr_sc A f (F : A -> float) l x :
  Numpy.binop f (VArr (map F l)) (VFloat x)
  = Ok (VArr (map (fun j => f (F j) x) l)).
Proof. unfold Numpy.binop. simpl. rewrite map_map. reflexivity. Qed.

Lemma binop_sc_arr A f (F : A -> float) l x :
  Numpy.binop f (VFloat x) (VArr (map F l))
  = Ok (VArr (map (fun j => f x (F j)) l)).
Proof. unfold Numpy.binop. simpl. rewrite map_map. reflexivity. Qed.

Lemma unop_arr A f (F : A -> float) l :
  Numpy.unop f (VArr (map F l)) = Ok (VArr (map (fun j => f (F j)) l)).
Proof. unfold Numpy.unop. simpl. rewrite map_map. reflexivity. Qed.

Lemma zeros_length n : length (Numpy.zeros n) = n.
Proof. apply repeat_length. Qed.

Lemma nth_zeros n j : nth j (Numpy.zeros n) 0 = 0.
Proof.
  unfold Numpy.zeros. revert j. induction n; intros [|j]; simpl; auto.
Qed.
End Arrays.

(* ------------------------------------------------------------------------- *)
(** ** metallicity_calculation, object by object *)

Section Metallicity.
Local Open Scope float_scope.
Variable libm_log10 : float -> float.
Variable libm_pow : float -> float -> float.

Lemma binop_sc_list f x l :
  Numpy.binop f (VFloat x) (VArr l) = Ok (VArr (map (f x) l)).
Proof. reflexivity. Qed.

Lemma binop_list_sc f l x :
  Numpy.binop f (VArr l) (VFloat x) = Ok (VArr (map (fun t => f t x) l)).
Proof. reflexivity. Qed.

Lemma binop_list_list f l1 l2 :
  length l1 = length l2 ->
  Numpy.binop f (VArr l1) (VArr l2) = Ok (VArr (Numpy.map2 f l1 l2)).
Proof.
  intros H. unfold Numpy.binop. simpl. unfold Numpy.bc_len, Numpy.bc_zip.
  rewrite H, Nat.eqb_refl. reflexivity.
Qed.

Lemma map_map2 A B C D (f : A -> B -> C) (g : C -> D) l1 l2 :
  map g (Numpy.map2 f l1 l2) = Numpy.map2 (fun x y => g (f x y)) l1 l2.
Proof.
  revert l2. induction l1 as [|x l1 IH]; intros [|y l2]; simpl; auto.
  now rewrite IH.
Qed.

Lemma obind_step A B (c : outcome A) (k : A -> outcome B) x r :
  c = Ok x -> k x = r -> obind c k = r.
Proof. intros -> <-. reflexivity. Qed.

Ltac np_step :=
  eapply obind_step;
  [ first [ apply take_assign; rewrite ?zeros_length; assumption
          | apply take_arr; assumption
          | apply put_map; rewrite ?zeros_length; assumption
          | apply binop_arr_arr
          | apply binop_arr_sc
          | apply binop_sc_arr
          | apply unop_arr ]
  | cbv beta ].

(** The arrays [metallicity_calculation] returns on one-dimensional input
    and an index subset within range. *)
Lemma metal_dict_arrays rm names te tb thb idx :
  in_range (length te) idx = true ->
  in_range (length tb) idx = true ->
  in_range (length thb) idx = true ->
  let n := length te in
  let osl := Numpy.assign (Numpy.zeros n) idx
               (map (fun j => At.O_s_ion_log libm_log10 libm_pow
                                (nth j te 0) (nth j tb 0)) idx) in
  let odl := Numpy.assign (Numpy.zeros n) idx
               (map (fun j => At.O_d_ion_log libm_log10
                                (nth j te 0) (nth j thb 0)) idx) in
  let os := map (At.ion libm_pow) osl in
  let od := map (At.ion libm_pow) odl in
  metal_dict libm_log10 libm_pow rm names (VArr te) (VArr tb) (VArr thb)
    (VIdx idx)
  = (key_dict <- rm names ["T_e"%string] ;;
     Ok (VDict (dict_zip key_dict
                  [VArr (Numpy.map2 (At.com_O_log libm_log10) os od);
                   VArr osl; VArr odl; VArr os; VArr od])))%py.
Proof.
  intros Hte Htb Hthb n osl odl os od.
  unfold metal_dict.
  change (Numpy.len (VArr te)) with (Ok n).
  rewrite obind_ok. cbv beta zeta iota.
  change (as_idx (VIdx idx)) with (Ok idx).
  rewrite obind_ok. cbv beta.
  unfold Numpy.mul, Numpy.add, Numpy.sub, Numpy.div, np_log10, np_power.
  repeat np_step.
  do 2 (eapply obind_step; [apply binop_sc_list | cbv beta]).
  eapply obind_step;
    [ apply binop_list_list; rewrite !length_map, !assign_length; reflexivity
    | cbv beta ].
  eapply obind_step; [reflexivity | cbv beta].
  eapply obind_step; [apply binop_list_sc | cbv beta].
  rewrite map_map, map_map2.
  reflexivity.
Qed.
End Metallicity.

Section MetallicityAt.
Local Open Scope float_scope.
Variable libm_log10 : float -> float.
Variable libm_pow : float -> float -> float.

Lemma nth_error_nth_lt A (l : list A) i d :
  i < length l -> nth_error l i = Some (nth i l d).
Proof. intros H. apply nth_error_nth'. exact H. Qed.

Lemma map2_length A B C (f : A -> B -> C) l1 l2 :
  length l1 = length l2 -> length (Numpy.map2 f l1 l2) = length l1.
Proof.
  revert l2. induction l1 as [|x l1 IH]; intros [|y l2] H; simpl in *;
    try discriminate; auto.
Qed.

Lemma nth_map2 A B C (f : A -> B -> C) l1 l2 i da db dc :
  i < length l1 -> i < length l2 ->
  nth i (Numpy.map2 f l1 l2) dc = f (nth i l1 da) (nth i l2 db).
Proof.
  revert l2 i. induction l1 as [|x l1 IH]; intros [|y l2] [|i] H1 H2;
    simpl in *; try lia; auto.
  apply IH; lia.
Qed.

(** The call on one-dimensional arrays returns five arrays of the input's
    length: outside [det3] the two logarithms keep the 0 they were created
    with, inside they are the formulas at the object; the linear abundances
    and the total are computed from them at every index. *)
Lemma metallicity_calculation_at w te tb thb det3 :
  in_range (length te) det3 = true ->
  in_range (length tb) det3 = true ->
  in_range (length thb) det3 = true ->
  exists com osl odl os od,
    py_call (metallicity_calculation libm_log10 libm_pow)
      [VArr te; VArr tb; VArr thb; VIdx det3] [] w
    = (metal_result w com osl odl os od, w)
    /\ forall i, i < length te ->
         (In i det3 ->
            nth_error osl i = Some (At.O_s_ion_log libm_log10 libm_pow
                                      (nth i te 0) (nth i tb 0))
            /\ nth_error odl i = Some (At.O_d_ion_log libm_log10
                                         (nth i te 0) (nth i thb 0)))
         /\ (~ In i det3 ->
               nth_error osl i = Some 0 /\ nth_error odl i = Some 0)
         /\ (forall x y, nth_error osl i = Some x -> nth_error odl i = Some y ->
               nth_error os i = Some (At.ion libm_pow x)
               /\ nth_error od i = Some (At.ion libm_pow y)
               /\ nth_error com i
                  = Some (At.com_O_log libm_log10 (At.ion libm_pow x)
                            (At.ion libm_pow y))).
Proof.
  intros Hte Htb Hthb.
  pose proof (metal_dict_arrays libm_log10 libm_pow (remove_from_list (cols w))
                (temp_metal_names0 (cols w)) te tb thb det3 Hte Htb Hthb) as E.
  cbv zeta in E.
  eexists _, _, _, _, _. split.
  - unfold py_call. cbn [bind_args params metallicity_calculation bind_pos
                          bind_kws bound option_map body].
    unfold mbind, get, lift. rewrite E. reflexivity.
  - intros i Hi.
    assert (Ls : forall g, length (Numpy.assign (Numpy.zeros (length te)) det3 g)
                           = length te)
      by (intros g; rewrite assign_length; apply zeros_length).
    repeat split.
    + rewrite (nth_error_nth_lt _ 0) by (rewrite Ls; exact Hi).
      f_equal. apply nth_assign_in; [rewrite zeros_length; exact Hte | exact H].
    + rewrite (nth_error_nth_lt _ 0) by (rewrite Ls; exact Hi).
      f_equal. apply nth_assign_in; [rewrite zeros_length; exact Hte | exact H].
    + rewrite (nth_error_nth_lt _ 0) by (rewrite Ls; exact Hi).
      f_equal. rewrite nth_assign_out by exact H. apply nth_zeros.
    + rewrite (nth_error_nth_lt _ 0) by (rewrite Ls; exact Hi).
      f_equal. rewrite nth_assign_out by exact H. apply nth_zeros.
    + rewrite nth_error_map, H. reflexivity.
    + rewrite nth_error_map, H0. reflexivity.
    + rewrite (nth_error_nth_lt _ 0)
        by (rewrite map2_length; rewrite !length_map, ?Ls; auto).
      f_equal.
      rewrite (nth_map2 _ _ _ 0 0) by (rewrite length_map, Ls; exact Hi).
      apply nth_error_nth with (d := 0) in H.
      apply nth_error_nth with (d := 0) in H0.
      rewrite !(nth_indep _ 0 (At.ion libm_pow 0))
        by (rewrite length_map, Ls; exact Hi).
      rewrite !map_nth, H, H0. reflexivity.
Qed.

(** All five arrays have the length of [T_e]. *)
Lemma metallicity_calculation_five w te tb thb det3 :
  in_range (length te) det3 = true ->
  in_range (length tb) det3 = true ->
  in_range (length thb) det3 = true ->
  exists com osl odl os od,
    py_call (metallicity_calculation libm_log10 libm_pow)
      [VArr te; VArr tb; VArr thb; VIdx det3] [] w
    = (metal_result w com osl odl os od, w)
    /\ (length com = length te /\ length osl = length te
        /\ length odl = length te /\ length os = length te
        /\ length od = length te)
    /\ (forall i, In i det3 ->
          nth_error osl i = Some (At.O_s_ion_log libm_log10 libm_pow
                                    (nth i te 0) (nth i tb 0))
          /\ nth_error odl i = Some (At.O_d_ion_log libm_log10
                                       (nth i te 0) (nth i thb 0)))
    /\ (forall i, i < length te -> ~ In i det3 ->
          nth_error osl i = Some 0 /\ nth_error odl i = Some 0)
    /\ (forall i x y, nth_error osl i = Some x -> nth_error odl i = Some y ->
          nth_error os i = Some (At.ion libm_pow x)
          /\ nth_error od i = Some (At.ion libm_pow y)
          /\ nth_error com i
             = Some (At.com_O_log libm_log10 (At.ion libm_pow x)
                       (At.ion libm_pow y))).
Proof.
  intros Hte Htb Hthb.
  pose proof (metal_dict_arrays libm_log10 libm_pow (remove_from_list (cols w))
                (temp_metal_names0 (cols w)) te tb thb det3 Hte Htb Hthb) as E.
  cbv zeta in E.
  assert (Ls : forall g, length (Numpy.assign (Numpy.zeros (length te)) det3 g)
                         = length te)
    by (intros g; rewrite assign_length; apply zeros_length).
  eexists _, _, _, _, _. split; [|split; [|split; [|split]]].
  - unfold py_call. cbn [bind_args params metallicity_calculation bind_pos
                          bind_kws bound option_map body].
    unfold mbind, get, lift. rewrite E. reflexivity.
  - rewrite map2_length by (rewrite !length_map, !Ls; reflexivity).
    rewrite !length_map, !Ls. auto.
  - intros i Hin.
    assert (Hi : i < length te) by (apply (@in_range_In _ _ Hte), Hin).
    split; rewrite (nth_error_nth_lt _ 0) by (rewrite Ls; exact Hi);
      f_equal; (apply nth_assign_in; [rewrite zeros_length; exact Hte|exact Hin]).
  - intros i Hi Hout.
    split; rewrite (nth_error_nth_lt _ 0) by (rewrite Ls; exact Hi);
      f_equal; rewrite nth_assign_out by exact Hout; apply nth_zeros.
  - intros i x y Hx Hy.
    assert (Hi : i < length te).
    { rewrite <- (Ls (map (fun j => At.O_s_ion_log libm_log10 libm_pow
                                       (nth j te 0) (nth j tb 0)) det3)).
      apply nth_error_Some. rewrite Hx. discriminate. }
    split; [rewrite nth_error_map, Hx; reflexivity|].
    split; [rewrite nth_error_map, Hy; reflexivity|].
    rewrite (nth_error_nth_lt _ 0)
      by (rewrite map2_length; rewrite !length_map, ?Ls; auto).
    f_equal.
    rewrite (nth_map2 _ _ _ 0 0) by (rewrite length_map, Ls; exact Hi).
    apply nth_error_nth with (d := 0) in Hx.
    apply nth_error_nth with (d := 0) in Hy.
    rewrite !(nth_indep _ 0 (At.ion libm_pow 0))
      by (rewrite length_map, Ls; exact Hi).
    rewrite !map_nth, Hx, Hy. reflexivity.
Qed.

(** NaN propagates through every formula. *)
Lemma O_s_ion_log_nan x : At.O_s_ion_log libm_log10 libm_pow nan x = nan.
Proof.
  unfold At.O_s_ion_log.
  replace (At.t_2 nan) with nan by (vm_compute; reflexivity).
  replace (1.676 / nan) with nan by (vm_compute; reflexivity).
  rewrite add_nan_r. vm_compute. reflexivity.
Qed.

Lemma O_d_ion_log_nan x : At.O_d_ion_log libm_log10 nan x = nan.
Proof.
  unfold At.O_d_ion_log.
  replace (At.t_3 nan) with nan by (vm_compute; reflexivity).
  replace (1.251 / nan) with nan by (vm_compute; reflexivity).
  rewrite add_nan_r. vm_compute. reflexivity.
Qed.

Lemma ion_nan : At.ion libm_pow nan = nan.
Proof. vm_compute. reflexivity. Qed.

Lemma com_O_log_nan : At.com_O_log libm_log10 nan nan = nan.
Proof. vm_compute. reflexivity. Qed.
End MetallicityAt.

(* ------------------------------------------------------------------------- *)
(** ** temp_calculation and metallicity_calculation *)

Section Formulas.
Local Open Scope float_scope.
Variable libm_log10 : float -> float.
Variable libm_pow : float -> float -> float.

Lemma temp_calculation_array w (R : list float) :
  py_call (temp_calculation libm_log10 libm_pow) [VArr R] [] w
  = (Ok (VArr (map (At.T_e libm_log10 libm_pow) R)), w).
Proof.
  unfold py_call. cbn [bind_args params temp_calculation bind_pos bind_kws
                       bound option_map body].
  unfold lift, T_e, np_log10, np_power, Numpy.neg, Numpy.sub, Numpy.mul.
  rewrite <- (map_id R) at 1.
  rewrite unop_arr, obind_ok, unop_arr, obind_ok, binop_arr_sc, obind_ok,
    binop_arr_sc, obind_ok, binop_sc_arr.
  reflexivity.
Qed.

Lemma temp_calculation_ensemble w ncols (R : list (list float)) :
  py_call (temp_calculation libm_log10 libm_pow) [VArr2 ncols R] [] w
  = (Ok (VArr2 ncols (map (map (At.T_e libm_log10 libm_pow)) R)), w).
Proof.
  unfold py_call. cbn [bind_args params temp_calculation bind_pos bind_kws
                       bound option_map body].
  unfold lift, T_e, np_log10, np_power, Numpy.neg, Numpy.sub, Numpy.mul.
  unfold Numpy.unop, Numpy.binop.
  cbn [Numpy.as_nd obind Numpy.binop_nd Numpy.of_nd].
  rewrite !map_map. f_equal. f_equal. f_equal.
  apply map_ext. intros row. rewrite !map_map. reflexivity.
Qed.

Lemma T_e_nonpositive_base (r : float) :
  let base := - Np.log10 libm_log10 r - b in
  (base <=? 0) = true ->
  At.T_e libm_log10 libm_pow r
  = if is_zero base then infinity else if is_infinity base then 0 else nan.
Proof.
  intros base H. unfold At.T_e. fold base. rewrite power_minus_c.
  destruct (@nonpositive_tests base H) as (E1 & E2 & E3).
  rewrite E1, E2.
  destruct (is_zero base); [vm_compute; reflexivity|].
  destruct (is_infinity base); [vm_compute; reflexivity|].
  rewrite E3 by reflexivity. vm_compute. reflexivity.
Qed.
End Formulas.

(** C8 (amended).  [temp_calculation] never raises on an array of one or
    two dimensions or on a number: it applies the formula entry by entry.
    At an entry [R] with [-log10(R) - 0.92506 <= 0] the result is NaN when
    that base is negative and finite, [+inf] when it is zero and [0.0] when
    it is [-inf] (the case [R = +inf]).  A NaN temperature of an object in
    [det3] makes all five quantities of [metallicity_calculation] NaN at
    that object. *)
Theorem temp_calculation_nonpositive_base :
  forall (libm_log10 : float -> float) (libm_pow : float -> float -> float),
    (forall w (R : list float),
        py_call (temp_calculation libm_log10 libm_pow) [VArr R] [] w
        = (Ok (VArr (map (At.T_e libm_log10 libm_pow) R)), w))
    /\ (forall w ncols (R : list (list float)),
          py_call (temp_calculation libm_log10 libm_pow) [VArr2 ncols R] [] w
          = (Ok (VArr2 ncols (map (map (At.T_e libm_log10 libm_pow)) R)), w))
    /\ (forall w (R : float),
          py_call (temp_calculation libm_log10 libm_pow) [VFloat R] [] w
          = (Ok (VFloat (At.T_e libm_log10 libm_pow R)), w))
    /\ (forall r : float,
          let base := (- Np.log10 libm_log10 r - b)%float in
          (base <=? 0)%float = true ->
          At.T_e libm_log10 libm_pow r
          = if is_zero base then infinity
            else if is_infinity base then 0%float else nan)
    /\ (forall w te tb thb det3,
          in_range (length te) det3 = true ->
          in_range (length tb) det3 = true ->
          in_range (length thb) det3 = true ->
          exists com osl odl os od,
            py_call (metallicity_calculation libm_log10 libm_pow)
              [VArr te; VArr tb; VArr thb; VIdx det3] [] w
            = (metal_result w com osl odl os od, w)
            /\ forall i, In i det3 -> nth_error te i = Some nan ->
                 nth_error com i = Some nan /\ nth_error osl i = Some nan
                 /\ nth_error odl i = Some nan /\ nth_error os i = Some nan
                 /\ nth_error od i = Some nan).
Proof.
  intros lg pw. split; [|split; [|split; [|split]]].
  - apply temp_calculation_array.
  - apply temp_calculation_ensemble.
  - intros w R. reflexivity.
  - apply T_e_nonpositive_base.
  - intros w te tb thb det3 Hte Htb Hthb.
    destruct (@metallicity_calculation_at lg pw w te tb thb det3 Hte Htb Hthb)
      as (com & osl & odl & os & od & E & H).
    exists com, osl, odl, os, od. split; [exact E|].
    intros i Hi Hnan.
    assert (Hlt : i < length te) by (apply (@in_range_In _ _ Hte), Hi).
    destruct (H i Hlt) as (Hin & _ & Hlin).
    destruct (Hin Hi) as (Hs & Hd).
    apply nth_error_nth with (d := 0%float) in Hnan.
    rewrite Hnan, O_s_ion_log_nan in Hs. rewrite Hnan, O_d_ion_log_nan in Hd.
    destruct (Hlin _ _ Hs Hd) as (H1 & H2 & H3).
    rewrite ion_nan in H1, H2, H3. rewrite com_O_log_nan in H3.
    repeat split; assumption.
Qed.

(** At [R = 1] the base is [-0.92506]: the temperature is NaN. *)
Lemma temp_calculation_nonpositive_base_witness :
  for_every_libm (fun libm_log10 libm_pow =>
    At.T_e libm_log10 libm_pow 1 = nan).
Proof.
  intros lg pw.
  exact (proj1 (proj2 (proj2 (proj2 (temp_calculation_nonpositive_base lg pw))))
           1%float eq_refl).
Defined.

(** C8 as stated fails at [R = +inf]: the base is [-inf <= 0], and the
    temperature is [0.0], not NaN. *)
Lemma temp_calculation_at_infinity :
  for_every_libm (fun libm_log10 libm_pow =>
    ((- Np.log10 libm_log10 infinity - b) <=? 0)%float = true
    /\ fst (py_call (temp_calculation libm_log10 libm_pow)
              [VArr [infinity]] [] Sample.w0)
       = Ok (VArr [0%float])
    /\ is_nan 0 = false).
Proof. intros lg pw. vm_compute. auto. Qed.

(** C3.  On one-dimensional input and an index subset within range,
    [metallicity_calculation] returns five arrays of the length of [T_e].
    The two logarithmic ionic abundances hold the computed abundances at the
    indices of [det3] and the 0 they were created with at every other index.
    The three other quantities are not assigned through [det3]: at every
    index, in [det3] or not, O+/H and O++/H are [10 **] the logarithm held
    there and 12+log(O/H) is [log10] of their sum plus 12, so at an index
    outside [det3] they are [10 ** 0 = 1], 1 and [log10(1 + 1) + 12], not
    the placeholder 0. *)
Theorem metallicity_calculation_placeholders :
  forall (libm_log10 : float -> float) (libm_pow : float -> float -> float)
         w te tb thb det3,
    in_range (length te) det3 = true ->
    in_range (length tb) det3 = true ->
    in_range (length thb) det3 = true ->
    exists com osl odl os od,
      py_call (metallicity_calculation libm_log10 libm_pow)
        [VArr te; VArr tb; VArr thb; VIdx det3] [] w
      = (metal_result w com osl odl os od, w)
      /\ (length com = length te /\ length osl = length te
          /\ length odl = length te /\ length os = length te
          /\ length od = length te)
      /\ (forall i, In i det3 ->
            nth_error osl i
            = Some (At.O_s_ion_log libm_log10 libm_pow
                      (nth i te 0%float) (nth i tb 0%float))
            /\ nth_error odl i
               = Some (At.O_d_ion_log libm_log10
                         (nth i te 0%float) (nth i thb 0%float)))
      /\ (forall i x y,
            nth_error osl i = Some x -> nth_error odl i = Some y ->
            nth_error os i = Some (At.ion libm_pow x)
            /\ nth_error od i = Some (At.ion libm_pow y)
            /\ nth_error com i
               = Some (At.com_O_log libm_log10 (At.ion libm_pow x)
                         (At.ion libm_pow y)))
      /\ (forall i, i < length te -> ~ In i det3 ->
            nth_error osl i = Some 0%float /\ nth_error odl i = Some 0%float
            /\ nth_error os i = Some 1%float /\ nth_error od i = Some 1%float
            /\ nth_error com i = Some (At.com_O_log libm_log10 1 1)).
Proof.
  intros lg pw w te tb thb det3 Hte Htb Hthb.
  destruct (@metallicity_calculation_five lg pw w te tb thb det3 Hte Htb Hthb)
    as (com & osl & odl & os & od & E & Hlen & Hin & Hout & Hlin).
  exists com, osl, odl, os, od.
  split; [exact E|]. split; [exact Hlen|]. split; [exact Hin|].
  split; [exact Hlin|].
  intros i Hi Hno.
  destruct (Hout i Hi Hno) as (Hs & Hd).
  destruct (Hlin i _ _ Hs Hd) as (H1 & H2 & H3).
  repeat split; assumption.
Qed.

(** Two objects, only the first in [det3]: the linear O+/H of the first is
    [10 **] its computed logarithm, that of the second is 1. *)
Lemma metallicity_calculation_placeholders_witness :
  for_every_libm (fun libm_log10 libm_pow =>
    exists com osl odl os od,
      py_call (metallicity_calculation libm_log10 libm_pow)
        [VArr [12000; 13000]%float; VArr [2; 2]%float; VArr [6; 6]%float;
         VIdx [0]] [] Sample.w0
      = (metal_result Sample.w0 com osl odl os od, Sample.w0)
      /\ nth_error os 0
         = Some (At.ion libm_pow
                   (At.O_s_ion_log libm_log10 libm_pow 12000 2))
      /\ nth_error os 1 = Some 1%float
      /\ nth_error com 1 = Some (At.com_O_log libm_log10 1 1)).
Proof.
  intros lg pw.
  destruct (@metallicity_calculation_placeholders lg pw Sample.w0
              [12000; 13000]%float [2; 2]%float [6; 6]%float [0]
              eq_refl eq_refl eq_refl)
    as (com & osl & odl & os & od & E & _ & Hin & Hlin & Hout).
  exists com, osl, odl, os, od. split; [exact E|].
  destruct (Hin 0) as (Hs & Hd); [left; reflexivity|].
  destruct (Hlin 0 _ _ Hs Hd) as (H0 & _).
  destruct (Hout 1) as (_ & _ & H1 & _ & H3).
  - simpl. lia.
  - simpl. intros [H|[]]. discriminate H.
  - split; [exact H0|]. split; [exact H1|exact H3].
Defined.

(** With two objects and [det3 = [0]], the returned O+/H and O++/H of the
    second object are 1, not 0, and its log(O+/H) is 0. *)
Lemma metallicity_calculation_linear_placeholder :
  for_every_libm (fun libm_log10 libm_pow =>
    let r := fst (py_call (metallicity_calculation libm_log10 libm_pow)
                    [VArr [12000; 13000]%float; VArr [2; 2]%float;
                     VArr [6; 6]%float; VIdx [0]] [] Sample.w0) in
    entry r "O+/H" 1 = Some 1%float /\ entry r "O++/H" 1 = Some 1%float
    /\ entry r "log(O+/H)" 1 = Some 0%float
    /\ (1 =? 0)%float = false).
Proof. intros lg pw. vm_compute. auto. Qed.

Lemma in_range_iff n idx : in_range n idx = true <-> forall i, In i idx -> i < n.
Proof.
  unfold in_range. rewrite forallb_forall. split; intros H i Hi.
  - apply Nat.ltb_lt, H, Hi.
  - apply Nat.ltb_lt, H, Hi.
Qed.

Lemma in_range_arange n m : n <= m -> in_range m (Numpy.arange n) = true.
Proof.
  intros H. apply in_range_iff. intros i Hi. apply in_seq in Hi. lia.
Qed.

(** C10.  With [det3] omitted (or [None]) the call is the call with the
    index array [0 .. len(T_e) - 1], and where [len(T_e)] raises, so does the
    call.  On one-dimensional arrays, the ratios at least as long as [T_e],
    it computes every index: at each index below [len(T_e)] the two
    logarithms are the computed abundances and the three other quantities
    are computed from them. *)
Theorem metallicity_calculation_default_det3 :
  forall (libm_log10 : float -> float) (libm_pow : float -> float -> float) w,
    let f := metallicity_calculation libm_log10 libm_pow in
    (forall T_e TWO_BETA THREE_BETA,
        py_call f [T_e; TWO_BETA; THREE_BETA] []
        = py_call f [T_e; TWO_BETA; THREE_BETA] [("det3", VNone)]
        /\ match Numpy.len T_e with
           | Ok n =>
               py_call f [T_e; TWO_BETA; THREE_BETA] [] w
               = py_call f [T_e; TWO_BETA; THREE_BETA; VIdx (seq 0 n)] [] w
           | Raise e => py_call f [T_e; TWO_BETA; THREE_BETA] [] w = (Raise e, w)
           end)
    /\ (forall te tb thb,
          length te <= length tb -> length te <= length thb ->
          exists com osl odl os od,
            py_call f [VArr te; VArr tb; VArr thb] [] w
            = (metal_result w com osl odl os od, w)
            /\ py_call f [VArr te; VArr tb; VArr thb;
                          VIdx (seq 0 (length te))] [] w
               = (metal_result w com osl odl os od, w)
            /\ (length com = length te /\ length osl = length te
                /\ length odl = length te /\ length os = length te
                /\ length od = length te)
            /\ forall i, i < length te ->
                 let O_s := At.O_s_ion_log libm_log10 libm_pow
                              (nth i te 0%float) (nth i tb 0%float) in
                 let O_d := At.O_d_ion_log libm_log10
                              (nth i te 0%float) (nth i thb 0%float) in
                 nth_error osl i = Some O_s /\ nth_error odl i = Some O_d
                 /\ nth_error os i = Some (At.ion libm_pow O_s)
                 /\ nth_error od i = Some (At.ion libm_pow O_d)
                 /\ nth_error com i
                    = Some (At.com_O_log libm_log10 (At.ion libm_pow O_s)
                              (At.ion libm_pow O_d))).
Proof.
  intros lg pw w f. split.
  - intros T_e tb thb. split; [reflexivity|].
    destruct T_e; reflexivity.
  - intros te tb thb Ltb Lthb.
    destruct (@metallicity_calculation_five lg pw w te tb thb
                (Numpy.arange (length te))
                (in_range_arange (le_n _)) (in_range_arange Ltb)
                (in_range_arange Lthb))
      as (com & osl & odl & os & od & E & Hlen & Hin & _ & Hlin).
    exists com, osl, odl, os, od.
    split; [exact E|]. split; [exact E|]. split; [exact Hlen|].
    intros i Hi O_s O_d.
    destruct (Hin i) as (Hs & Hd); [apply in_seq; lia|].
    destruct (Hlin i _ _ Hs Hd) as (H1 & H2 & H3).
    repeat split; assumption.
Qed.

(** Two objects, [det3] omitted: the second is computed as well. *)
Lemma metallicity_calculation_default_det3_witness :
  for_every_libm (fun libm_log10 libm_pow =>
    exists com osl odl os od,
      py_call (metallicity_calculation libm_log10 libm_pow)
        [VArr [12000; 13000]%float; VArr [2; 2]%float; VArr [6; 6]%float] []
        Sample.w0
      = (metal_result Sample.w0 com osl odl os od, Sample.w0)
      /\ nth_error osl 1
         = Some (At.O_s_ion_log libm_log10 libm_pow 13000 2)
      /\ nth_error od 1
         = Some (At.ion libm_pow (At.O_d_ion_log libm_log10 13000 6))).
Proof.
  intros lg pw.
  destruct (proj2 (metallicity_calculation_default_det3 lg pw Sample.w0)
              [12000; 13000]%float [2; 2]%float [6; 6]%float
              (le_n 2) (le_n 2))
    as (com & osl & odl & os & od & E & _ & _ & H).
  exists com, osl, odl, os, od. split; [exact E|].
  destruct (H 1 (le_n 2)) as (Hs & _ & _ & Hd & _).
  split; [exact Hs|exact Hd].
Defined.

(* ------------------------------------------------------------------------- *)
(** ** Calls that do not match their callee *)

(** C4.  [flux_ratios] with [get_R] true (the default) never returns a
    mapping: it calls [R_calculation(OIII4363, OIII)], and [R_calculation]
    requires [EBV].  On every mapping of the four lines to one-object arrays
    the exception is TypeError.
    [R_calculation] itself, given the three arguments, computes the ratio of
    the claim, and with [EBV = 0] the uncorrected ratio. *)
Theorem flux_ratios_get_R_raises :
  forall (libm_log10 : float -> float) (libm_pow : float -> float -> float),
    (forall flux_dict binned_data,
        fails (py_call (flux_ratios libm_log10 libm_pow)
                 [flux_dict; binned_data; VBool true] []))
    /\ (forall flux_dict,
          fails (py_call (flux_ratios libm_log10 libm_pow) [flux_dict] []))
    /\ (forall OII OIII Hb OIII4363 : float,
          fst (py_call (flux_ratios libm_log10 libm_pow)
                 [VDict [("OII_3727", VArr [OII]); ("OIII_5007", VArr [OIII]);
                         ("HBETA", VArr [Hb]); ("OIII_4363", VArr [OIII4363])]]
                 [] Sample.w0) = Raise TypeError)
    /\ (forall k1 k2 x y e,
          R_value libm_pow k1 k2 (VFloat x) (VFloat y) (VFloat e)
          = Ok (VFloat (x / (y * (1 + 1 / 3.1))
                        * Np.power libm_pow 10 (0.4 * e * (k1 - k2)))%float))
    /\ fst (py_call (R_calculation libm_pow)
              [VArr [1.5%float]; VArr [300%float]; VFloat 0%float] [] Sample.w0)
       = Ok (VArr [(1.5 / (300 * (1 + 1 / 3.1)))%float]).
Proof.
  intros lg pw. split; [|split; [|split; [|split]]].
  - intros flux_dict binned_data. apply flux_ratios_get_R_fails.
  - apply flux_ratios_default_fails.
  - intros. vm_compute. reflexivity.
  - intros. reflexivity.
  - vm_compute. reflexivity.
Qed.

(** [metallicity_calculation] creates one-dimensional arrays of length
    [len(T_e)] and assigns [T_e[det3] * 1e-4] into them: on an ensemble (one
    object, three draws here) the assignment raises ValueError. *)
Lemma metallicity_calculation_on_ensemble :
  for_every_libm (fun libm_log10 libm_pow =>
    fst (py_call (metallicity_calculation libm_log10 libm_pow)
           [VArr2 3 [[12000; 12100; 11900]%float]; VArr2 3 [[2; 2; 2]%float];
            VArr2 3 [[6; 6; 6]%float]] [] Sample.w0)
    = Raise ValueError).
Proof. intros lg pw. vm_compute. reflexivity. Qed.

(** C1.  The derived-property stage of the randomized branch never
    completes: it calls [temp_calculation(R, EBV=EBV)], and
    [temp_calculation] takes [R] only (so does not reach its call of
    [metallicity_calculation], which passes [EBV=] as well).  The raw
    branch's call [temp_calculation(R)] returns on every array. *)
Theorem derive_properties_raises :
  forall (libm_log10 : float -> float) (libm_pow : float -> float -> float),
    (forall flux_ratios_dict EBV,
        fails (derive_properties libm_log10 libm_pow flux_ratios_dict EBV))
    /\ (forall d R EBV w,
          derive_properties libm_log10 libm_pow (VDict (dict_set d "R" R)) EBV w
          = (Raise TypeError, w))
    /\ (forall T x y EBV,
          py_call (metallicity_calculation libm_log10 libm_pow) [T; x; y]
            [("EBV", EBV)] = mraise TypeError)
    /\ (forall w R,
          py_call (temp_calculation libm_log10 libm_pow) [VArr R] [] w
          = (Ok (VArr (map (At.T_e libm_log10 libm_pow) R)), w)).
Proof.
  intros lg pw. split; [|split; [|split]].
  - apply derive_properties_fails.
  - intros d R EBV w. unfold derive_properties, mbind, get, lift, subscript, getitem.
    rewrite dict_get_set. reflexivity.
  - intros. reflexivity.
  - apply temp_calculation_array.
Qed.

(** C5.  With [apply_dust] the dust step never yields an E(B-V): it calls
    [compute_EBV(flux_ratios_dict['HgHb'], source='HgHb')], and [compute_EBV]
    takes a path and [use_revised].  Without [apply_dust], [EBV] is [None]. *)
Theorem dust_step_raises :
  forall (libm_log10 : float -> float),
    (forall flux_ratios_dict, fails (dust_step libm_log10 true flux_ratios_dict))
    /\ (forall d v w,
          dust_step libm_log10 true (VDict (dict_set d "HgHb" v)) w
          = (Raise TypeError, w))
    /\ (forall flux_ratios_dict w,
          dust_step libm_log10 false flux_ratios_dict w = (Ok VNone, w)).
Proof.
  intros lg. split; [|split].
  - intros frd. unfold dust_step.
    apply fails_bind_r; intros x. rewrite compute_EBV_keyword_source.
    apply fails_raise.
  - intros d v w. unfold dust_step, mbind, lift, subscript, getitem.
    rewrite dict_get_set. reflexivity.
  - intros. reflexivity.
Qed.

(** C2.  Neither mode produces ratios, temperatures or metallicities: every
    run of [fluxes_derived_prop], raw or randomized, ends in an exception;
    on the sample installation both end in the TypeError of [flux_ratios]. *)
Theorem fluxes_derived_prop_never_completes :
  forall (libm_log10 : float -> float) (libm_pow : float -> float -> float),
    (forall random_pdf compute_onesig_pdf np_int_ path raw binned_data
            apply_dust revised,
        fails (fluxes_derived_prop libm_log10 libm_pow random_pdf
                 compute_onesig_pdf np_int_ path raw binned_data apply_dust
                 revised))
    /\ (forall np_int_ raw,
          fst (fluxes_derived_prop libm_log10 libm_pow SampleLib.random_pdf
                 SampleLib.compute_onesig_pdf np_int_ "/data" raw true false
                 true Sample.w0) = Raise TypeError).
Proof.
  intros lg pw. split.
  - intros. apply fluxes_derived_prop_fails.
  - intros ni [|]; vm_compute; reflexivity.
Qed.

(* ------------------------------------------------------------------------- *)
(** ** What a call leaves in the store *)

Section Preserves.
Variable R : world -> world -> Prop.
Hypothesis R_refl : forall w, R w w.
Hypothesis R_trans : forall w1 w2 w3, R w1 w2 -> R w2 w3 -> R w1 w3.

Lemma preserves_ret A (x : A) : preserves R (mret x).
Proof. intros w. apply R_refl. Qed.

Lemma preserves_raise A e : preserves R (@mraise A e).
Proof. intros w. apply R_refl. Qed.

Lemma preserves_lift A (o : outcome A) : preserves R (lift o).
Proof. intros w. apply R_refl. Qed.

Lemma preserves_get : preserves R get.
Proof. intros w. apply R_refl. Qed.

Lemma preserves_bind A B (c : M A) (k : A -> M B) :
  preserves R c -> (forall x, preserves R (k x)) -> preserves R (mbind c k).
Proof.
  intros Hc Hk w. unfold mbind. specialize (Hc w).
  destruct (c w) as [[x|e] w']; simpl in *.
  - eapply R_trans; [exact Hc | apply Hk].
  - exact Hc.
Qed.

Lemma preserves_modify (f : world -> world) :
  (forall w, R w (f w)) -> preserves R (modify f).
Proof. intros H w. apply H. Qed.

Lemma preserves_if A (b0 : bool) (c1 c2 : M A) :
  preserves R c1 -> preserves R c2 -> preserves R (if b0 then c1 else c2).
Proof. destruct b0; auto. Qed.
End Preserves.

Lemma same_but_dust0_refl w : same_but_dust0 w w.
Proof. repeat split. Qed.

Lemma same_but_dust0_trans w1 w2 w3 :
  same_but_dust0 w1 w2 -> same_but_dust0 w2 w3 -> same_but_dust0 w1 w3.
Proof.
  unfold same_but_dust0.
  intros (a1 & a2 & a3 & a4 & a5 & a6 & a7 & a8 & a9 & a10 & a11)
         (b1 & b2 & b3 & b4 & b5 & b6 & b7 & b8 & b9 & b10 & b11).
  repeat split; congruence.
Qed.

Lemma same_but_dust0_bind A B (c : M A) (k : A -> M B) :
  preserves same_but_dust0 c -> (forall x, preserves same_but_dust0 (k x)) ->
  preserves same_but_dust0 (mbind c k).
Proof.
  apply preserves_bind. intros w1 w2 w3. apply same_but_dust0_trans.
Qed.

Lemma eq_bind A B (c : M A) (k : A -> M B) :
  preserves eq c -> (forall x, preserves eq (k x)) -> preserves eq (mbind c k).
Proof. apply preserves_bind. intros w1 w2 w3. apply eq_trans. Qed.

Lemma same_but_dust0_set w d : same_but_dust0 w (set_dust0 w d).
Proof. repeat split. Qed.

Create HintDb store.

#[local] Hint Resolve preserves_ret preserves_raise preserves_lift preserves_get
  preserves_modify preserves_if same_but_dust0_refl same_but_dust0_trans
  same_but_dust0_set : store.

Section StoreFacts.
Variable libm_log10 : float -> float.
Variable libm_pow : float -> float -> float.

Ltac by_args args :=
  repeat (destruct args as [|? args];
          try solve [intros w; reflexivity | auto with store]).

(** The three formula functions do not touch the store. *)
Lemma R_calculation_pure args kw :
  preserves eq (py_call (R_calculation libm_pow) args kw).
Proof.
  unfold py_call. destruct (bind_args _ args kw) as [l|];
    [|intros w; reflexivity].
  cbn [body R_calculation]. by_args l.
Qed.

Lemma temp_calculation_pure args kw :
  preserves eq (py_call (temp_calculation libm_log10 libm_pow) args kw).
Proof.
  unfold py_call. destruct (bind_args _ args kw) as [l|];
    [|intros w; reflexivity].
  cbn [body temp_calculation]. by_args l.
Qed.

Lemma metallicity_calculation_pure args kw :
  preserves eq (py_call (metallicity_calculation libm_log10 libm_pow) args kw).
Proof.
  unfold py_call. destruct (bind_args _ args kw) as [l|];
    [|intros w; reflexivity].
  cbn [body metallicity_calculation]. by_args l.
Qed.

Lemma R_calculation_same_but_dust0 args kw :
  preserves same_but_dust0 (py_call (R_calculation libm_pow) args kw).
Proof.
  intros w. rewrite <- (R_calculation_pure args kw w).
  apply same_but_dust0_refl.
Qed.

(** [flux_ratios] changes nothing but [dust0]. *)
Lemma flux_ratios_same_but_dust0 args kw :
  preserves same_but_dust0 (py_call (flux_ratios libm_log10 libm_pow) args kw).
Proof.
  unfold py_call. destruct (bind_args _ args kw) as [l|]; [|auto with store].
  cbn [body flux_ratios].
  destruct l as [|flux_dict [|binned_data [|get_R [|? ?]]]]; auto with store.
  repeat first
    [ solve [auto using R_calculation_same_but_dust0 with store]
    | apply same_but_dust0_bind; [|intros]
    | apply preserves_if ].
Qed.
End StoreFacts.

Section Dust0.
Variable libm_log10 : float -> float.
Variable libm_pow : float -> float -> float.

Lemma eq_bind_ok A B (x : A) (k : A -> M B) :
  preserves eq (k x) -> preserves eq (mbind (lift (Ok x)) k).
Proof. intros H w. apply H. Qed.

(** Without [binned_data] the call leaves the whole store as it was. *)
Lemma flux_ratios_unbinned_pure flux_dict get_R :
  preserves eq (body (flux_ratios libm_log10 libm_pow)
                  [flux_dict; VBool false; get_R]).
Proof.
  cbn [body flux_ratios].
  apply eq_bind_ok. apply eq_bind; [auto with store|intros w0].
  cbn [negb].
  repeat first
    [ solve [auto using R_calculation_pure with store]
    | apply eq_bind; [|intros]
    | apply preserves_if ].
Qed.
End Dust0.

(** C9.  [flux_ratios] with [binned_data] true appends ['_composite'] to the
    first two entries of the module-level list [dust0], again on every call.
    Nothing else in the store changes in any call of [flux_ratios]; without
    [binned_data] the store is left as it was, as it is by [R_calculation],
    [temp_calculation] and [metallicity_calculation]. *)
Theorem flux_ratios_rewrites_dust0 :
  forall (libm_log10 : float -> float) (libm_pow : float -> float -> float),
    let f := flux_ratios libm_log10 libm_pow in
    let w1 := snd (py_call f [Sample.flux_dict; VBool true; VBool false] []
                     Sample.w0) in
    let w2 := snd (py_call f [Sample.flux_dict; VBool true; VBool false] [] w1) in
    (dust0 (cols Sample.w0) = ["HgHb"; "HdHb"; "EBV"]
     /\ dust0 (cols w1) = ["HgHb_composite"; "HdHb_composite"; "EBV"]
     /\ dust0 (cols w2)
        = ["HgHb_composite_composite"; "HdHb_composite_composite"; "EBV"])
    /\ (forall args kw, preserves same_but_dust0 (py_call f args kw))
    /\ (forall flux_dict get_R,
          preserves eq (py_call f [flux_dict; VBool false; get_R] []))
    /\ (forall flux_dict, preserves eq (py_call f [flux_dict] []))
    /\ (forall args kw,
          preserves eq (py_call (R_calculation libm_pow) args kw)
          /\ preserves eq (py_call (temp_calculation libm_log10 libm_pow) args kw)
          /\ preserves eq
               (py_call (metallicity_calculation libm_log10 libm_pow) args kw)).
Proof.
  intros lg pw f w1 w2. split; [|split; [|split; [|split]]].
  - vm_compute. auto.
  - intros args kw. apply flux_ratios_same_but_dust0.
  - intros flux_dict get_R. apply flux_ratios_unbinned_pure.
  - intros flux_dict.
    apply (flux_ratios_unbinned_pure lg pw flux_dict (VBool true)).
  - intros args kw. split; [|split].
    + apply R_calculation_pure.
    + apply temp_calculation_pure.
    + apply metallicity_calculation_pure.
Qed.

(* ------------------------------------------------------------------------- *)
(** ** The detection subset *)

Lemma where_eq_spec col x k i :
  In i (Numpy.where_eq col x k) <->
  exists d, k <= i /\ nth_error col (i - k) = Some d /\ PrimFloat.eqb d x = true.
Proof.
  revert k. induction col as [|y col IH]; intros k; simpl.
  - split; [intros []|]. intros (d & _ & H & _).
    destruct (i - k); discriminate H.
  - assert (Hrec : In i (Numpy.where_eq col x (S k)) <->
                   exists d, k < i /\ nth_error col (i - S k) = Some d
                             /\ PrimFloat.eqb d x = true)
      by (rewrite IH; reflexivity).
    destruct (PrimFloat.eqb y x) eqn:E; simpl; rewrite Hrec; split.
    + intros [->|(d & Hk & Hn & Hd)].
      * exists y. rewrite Nat.sub_diag. auto.
      * exists d. replace (i - k) with (S (i - S k)) by lia. auto with arith.
    + intros (d & Hk & Hn & Hd).
      destruct (Nat.eq_dec k i) as [->|Hne]; [left; reflexivity|right].
      exists d. replace (i - k) with (S (i - S k)) in Hn by lia.
      split; [lia|auto].
    + intros (d & Hk & Hn & Hd).
      exists d. replace (i - k) with (S (i - S k)) by lia. auto with arith.
    + intros (d & Hk & Hn & Hd).
      destruct (Nat.eq_dec k i) as [->|Hne].
      * rewrite Nat.sub_diag in Hn. simpl in Hn. congruence.
      * exists d. replace (i - k) with (S (i - S k)) in Hn by lia.
        split; [lia|auto].
Qed.


(* ------------------------------------------------------------------------- *)
(** ** Rows outside the detection subset *)

Lemma same_outside_refl idx t : same_outside idx t t.
Proof.
  split; [reflexivity|]. intros name col H. exists col. auto.
Qed.

Lemma same_outside_trans idx t1 t2 t3 :
  same_outside idx t1 t2 -> same_outside idx t2 t3 -> same_outside idx t1 t3.
Proof.
  intros (K1 & H1) (K2 & H2). split; [congruence|].
  intros name col H. destruct (H1 _ _ H) as (col' & G1 & L1 & F1).
  destruct (H2 _ _ G1) as (col'' & G2 & L2 & F2).
  exists col''. repeat split; [assumption|congruence|].
  intros i Hi. rewrite F2, F1 by assumption. reflexivity.
Qed.

Lemma nth_error_list_set_other A (l : list A) i j x :
  j <> i -> nth_error (list_set l i x) j = nth_error l j.
Proof.
  revert i j. induction l as [|y l IH]; intros [|i] [|j] H; simpl; auto;
    try contradiction.
Qed.

Lemma nth_error_assign_out a idx xs j :
  ~ In j idx -> nth_error (Numpy.assign a idx xs) j = nth_error a j.
Proof.
  unfold Numpy.assign. revert a xs.
  induction idx as [|i idx IH]; intros a [|x xs] H; simpl; auto.
  rewrite IH.
  - apply nth_error_list_set_other. intros E. apply H. left. auto.
  - intros Hj. apply H. right. exact Hj.
Qed.

Lemma put_frame a idx v a' :
  Numpy.put a idx v = Ok a' ->
  length a' = length a
  /\ forall i, ~ In i idx -> nth_error a' i = nth_error a i.
Proof.
  unfold Numpy.put. destruct (Numpy.put_values _ v) as [xs|e]; [|discriminate].
  rewrite obind_ok. destruct (forallb _ idx); [|discriminate].
  intros H. injection H as <-. split.
  - apply assign_length.
  - intros i Hi. apply nth_error_assign_out, Hi.
Qed.

Lemma dict_set_keys V (d : list (string * V)) k v v' :
  dict_get d k = Some v -> map fst (dict_set d k v') = map fst d.
Proof.
  induction d as [|[k0 v0] d IH]; simpl; [discriminate|].
  destruct (String.eqb k0 k) eqn:E; simpl.
  - apply String.eqb_eq in E. subst. reflexivity.
  - intros H. rewrite (IH H). reflexivity.
Qed.

Lemma dict_get_set_other V (d : list (string * V)) k k' v :
  k' <> k -> dict_get (dict_set d k v) k' = dict_get d k'.
Proof.
  intros H. induction d as [|[k0 v0] d IH]; simpl.
  - destruct (String.eqb k k') eqn:E; [|reflexivity].
    apply String.eqb_eq in E. congruence.
  - destruct (String.eqb k0 k) eqn:E; simpl.
    + apply String.eqb_eq in E. subst k0.
      destruct (String.eqb k k') eqn:E'; [|reflexivity].
      apply String.eqb_eq in E'. congruence.
    + destruct (String.eqb k0 k'); [reflexivity|exact IH].
Qed.

(** [t[name][idx] = v] changes rows of [idx] only (lines 138 and 201). *)
Lemma tbl_put_same_outside t name idx v t' :
  tbl_put t name idx v = Ok t' -> same_outside idx t t'.
Proof.
  unfold tbl_put, tbl_col, getitem.
  destruct (dict_get t name) as [col|] eqn:Ecol; [|discriminate].
  simpl of_option. rewrite obind_ok.
  destruct (Numpy.put col idx v) as [col'|e] eqn:Eput; [|discriminate].
  rewrite obind_ok. intros H. injection H as <-.
  destruct (put_frame _ _ _ Eput) as (L & F).
  split; [apply (dict_set_keys _ _ _ Ecol)|].
  intros name' c Hc.
  destruct (String.eqb name' name) eqn:E.
  - apply String.eqb_eq in E. subst name'.
    rewrite dict_get_set. exists col'.
    assert (c = col) by congruence. subst c. auto.
  - apply String.eqb_neq in E. rewrite dict_get_set_other by exact E.
    exists c. auto.
Qed.

Section Frame.
Variable random_pdf : list float -> list float -> nat -> nat -> value.
Variable compute_onesig_pdf : value -> list float -> value * value.

Lemma randomize_fluxes_frame flux_tab detect_idx ls s s' :
  randomize_fluxes random_pdf compute_onesig_pdf flux_tab detect_idx ls s
  = Ok s' ->
  same_outside detect_idx (flux_tab0 s) (flux_tab0 s').
Proof.
  revert s. induction ls as [|[aa name] ls IH]; intros s; simpl.
  - intros H. injection H as <-. apply same_outside_refl.
  - destruct (tbl_col flux_tab _) as [x|e]; [|discriminate].
    rewrite obind_ok.
    destruct (tbl_col flux_tab _) as [dx|e]; [|discriminate].
    rewrite obind_ok.
    destruct (compute_onesig_pdf _ x) as [err peak].
    destruct (tbl_put _ _ _ peak) as [t|e] eqn:Eput; [|discriminate].
    rewrite obind_ok. intros H.
    eapply same_outside_trans.
    + apply (tbl_put_same_outside _ _ _ _ Eput).
    + apply (IH _ H).
Qed.

Lemma reduce_properties_frame prop_tab detect_idx pdf names s s' :
  reduce_properties compute_onesig_pdf prop_tab detect_idx pdf names s
  = Ok s' ->
  same_outside detect_idx (prop_tab0 s) (prop_tab0 s').
Proof.
  revert s. induction names as [|names0 names IH]; intros s; simpl.
  - intros H. injection H as <-. apply same_outside_refl.
  - destruct (tbl_col prop_tab _) as [arr0|e]; [|discriminate].
    rewrite obind_ok.
    destruct (getitem pdf names0) as [p|e]; [|discriminate].
    rewrite obind_ok.
    destruct (compute_onesig_pdf p arr0) as [err peak].
    destruct (tbl_put _ _ _ peak) as [t|e] eqn:Eput; [|discriminate].
    rewrite obind_ok. intros H.
    eapply same_outside_trans.
    + apply (tbl_put_same_outside _ _ _ _ Eput).
    + apply (IH _ H).
Qed.
End Frame.

Section RunFrame.
Variable libm_log10 : float -> float.
Variable libm_pow : float -> float -> float.
Variable random_pdf : list float -> list float -> nat -> nat -> value.
Variable compute_onesig_pdf : value -> list float -> value * value.
Variable np_int_ : float -> float.

(** After [flux_ratios] has raised, the tables are those before its call. *)
Lemma flux_ratios_default_raises_keeping_tables flux_dict w :
  exists e w',
    py_call (flux_ratios libm_log10 libm_pow) [flux_dict] [] w = (Raise e, w')
    /\ tables w' = tables w.
Proof.
  destruct (flux_ratios_default_fails libm_log10 libm_pow flux_dict w)
    as (e & w' & E).
  exists e, w'. split; [exact E|].
  pose proof (flux_ratios_same_but_dust0 libm_log10 libm_pow [flux_dict] [] w)
    as H.
  rewrite E in H. simpl in H. apply H.
Qed.

(** The randomized branch writes at most one table: the flux table with
    the rows outside the detection subset as they were read. *)
Lemma randomized_branch_tables path apply_dust tab0 ptab0 det w :
  let w' := snd (randomized_branch libm_log10 libm_pow random_pdf
                   compute_onesig_pdf path apply_dust tab0 ptab0 det w) in
  tables w' = tables w
  \/ exists detect_idx flux_tab prop_tab file t',
       det = Some (detect_idx, flux_tab, prop_tab)
       /\ tables w' = dict_set (tables w) file t'
       /\ same_outside detect_idx tab0 t'.
Proof.
  unfold randomized_branch.
  cbv [mbind get local lift of_option].
  destruct det as [[[detect_idx flux_tab] prop_tab]|]; [|left; reflexivity].
  destruct (randomize_fluxes _ _ _ _ _ _) as [fs|e] eqn:Efs;
    [|left; reflexivity].
  destruct (getitem _ "bin_fit_rev") as [f|e]; [|left; reflexivity].
  right. exists detect_idx, flux_tab, prop_tab, (join path f), (flux_tab0 fs).
  split; [reflexivity|].
  split; [|apply (randomize_fluxes_frame _ _ _ _ _ _ Efs)].
  cbv [asc_write modify].
  destruct (getitem _ "flux_pdf") as [n1|e]; [|reflexivity].
  destruct (getitem _ "flux_errors") as [n2|e]; [|reflexivity].
  destruct (getitem _ "flux_peak") as [n3|e]; [|reflexivity].
  cbv [write_npz savez modify mbind mret].
  match goal with
  | |- context [py_call _ [?d] [] ?w1] =>
      destruct (flux_ratios_default_raises_keeping_tables d w1)
        as (e & w2 & E & T)
  end.
  rewrite E. simpl. rewrite T. reflexivity.
Qed.
End RunFrame.

Section RunFrame2.
Variable libm_log10 : float -> float.
Variable libm_pow : float -> float -> float.
Variable random_pdf : list float -> list float -> nat -> nat -> value.
Variable compute_onesig_pdf : value -> list float -> value * value.
Variable np_int_ : float -> float.

(** A randomized run writes at most one table, and that table is the flux
    table it read with the rows outside the detection subset unchanged;
    every other table, the derived properties among them, stays as it was. *)
Lemma fluxes_derived_prop_tables path binned_data apply_dust revised w :
  let w' := snd (fluxes_derived_prop libm_log10 libm_pow random_pdf
                   compute_onesig_pdf np_int_ path false binned_data
                   apply_dust revised w) in
  tables w' = tables w
  \/ exists flux_file prop_file verify_file tab0 ptab0 verify_tab
            detect_idx flux_tab prop_tab file t',
       dict_get (tables w) flux_file = Some tab0
       /\ dict_get (tables w) prop_file = Some ptab0
       /\ dict_get (tables w) verify_file = Some verify_tab
       /\ detect verify_tab tab0 ptab0 = Ok (detect_idx, flux_tab, prop_tab)
       /\ tables w' = dict_set (tables w) file t'
       /\ same_outside detect_idx tab0 t'.
Proof.
  unfold fluxes_derived_prop.
  cbv [mbind get local lift of_option asc_read mret negb andb].
  destruct binned_data; [|left; reflexivity].
  destruct (getitem _ "bin_fit") as [f|e]; [|left; reflexivity].
  destruct (getitem _ "bin_derived_prop") as [p|e]; [|left; reflexivity].
  destruct (getitem _ (if revised then _ else _)) as [v|e];
    [|left; reflexivity].
  destruct (dict_get (tables w) (join path f)) as [tab0|] eqn:Ef;
    [|left; reflexivity].
  destruct (dict_get (tables w) (join path p)) as [ptab0|] eqn:Ep;
    [|left; reflexivity].
  destruct (dict_get (tables w) (join path v)) as [verify_tab|] eqn:Ev;
    [|left; reflexivity].
  destruct (detect verify_tab tab0 ptab0) as [[[idx ft] pt]|e] eqn:Ed;
    [|left; reflexivity].
  pose proof (randomized_branch_tables libm_log10 libm_pow random_pdf
                compute_onesig_pdf path apply_dust tab0 ptab0
                (Some (idx, ft, pt)) w) as H.
  cbv zeta in H.
  destruct H as [H|(idx' & ft' & pt' & file & t' & Hd & Ht & Hs)];
    [left; exact H|right].
  injection Hd as <- <- <-.
  exists (join path f), (join path p), (join path v), tab0, ptab0, verify_tab,
    idx, ft, pt, file, t'.
  auto 10.
Qed.
End RunFrame2.

(** C6.  The assignments of peaks to the flux table (line 138) and to the
    derived-property table (line 201) change rows of the detection subset
    only: every row outside it is as before.  In every randomized run, however
    it ends, at most one table is written, and it is the flux table that was
    read with its rows outside the detection subset unchanged. *)
Theorem rows_outside_detection_unchanged :
  forall (random_pdf : list float -> list float -> nat -> nat -> value)
         (compute_onesig_pdf : value -> list float -> value * value),
    (forall flux_tab detect_idx ls s s',
        randomize_fluxes random_pdf compute_onesig_pdf flux_tab detect_idx ls s
        = Ok s' ->
        same_outside detect_idx (flux_tab0 s) (flux_tab0 s'))
    /\ (forall prop_tab detect_idx pdf names s s',
          reduce_properties compute_onesig_pdf prop_tab detect_idx pdf names s
          = Ok s' ->
          same_outside detect_idx (prop_tab0 s) (prop_tab0 s'))
    /\ (forall libm_log10 libm_pow np_int_ path binned_data apply_dust revised w,
          let w' := snd (fluxes_derived_prop libm_log10 libm_pow random_pdf
                           compute_onesig_pdf np_int_ path false binned_data
                           apply_dust revised w) in
          tables w' = tables w
          \/ exists flux_file prop_file verify_file tab0 ptab0 verify_tab
                    detect_idx flux_tab prop_tab file t',
               dict_get (tables w) flux_file = Some tab0
               /\ dict_get (tables w) prop_file = Some ptab0
               /\ dict_get (tables w) verify_file = Some verify_tab
               /\ detect verify_tab tab0 ptab0
                  = Ok (detect_idx, flux_tab, prop_tab)
               /\ tables w' = dict_set (tables w) file t'
               /\ same_outside detect_idx tab0 t').
Proof.
  intros rp co. split; [|split].
  - apply randomize_fluxes_frame.
  - apply reduce_properties_frame.
  - intros lg pw ni. apply fluxes_derived_prop_tables.
Qed.

(** One line of a two-bin table, the first bin detected: its peak is
    written, the second bin keeps its flux. *)
Lemma rows_outside_detection_unchanged_witness :
  exists s',
    randomize_fluxes SampleLib.random_pdf SampleLib.compute_onesig_pdf
      [("OII_3727_Flux_Gaussian", [100%float]); ("OII_3727_RMS", [1%float])]
      [0] [(0, "OII_3727")]
      {| flux_pdf_dict := []; flux_peak_dict := []; flux_error_dict := [];
         flux_tab0 := [("OII_3727_Flux_Gaussian", [99; 80]%float);
                       ("OII_3727_RMS", [1; 1]%float)] |}
    = Ok s'
    /\ flux_tab0 s' = [("OII_3727_Flux_Gaussian", [100; 80]%float);
                       ("OII_3727_RMS", [1; 1]%float)]
    /\ same_outside [0]
         [("OII_3727_Flux_Gaussian", [99; 80]%float);
          ("OII_3727_RMS", [1; 1]%float)]
         (flux_tab0 s').
Proof.
  eexists. split; [vm_compute; reflexivity|]. split; [reflexivity|].
  apply (proj1 (rows_outside_detection_unchanged
                  SampleLib.random_pdf SampleLib.compute_onesig_pdf)
           [("OII_3727_Flux_Gaussian", [100%float]); ("OII_3727_RMS", [1%float])]
           [0] [(0, "OII_3727")]
           {| flux_pdf_dict := []; flux_peak_dict := []; flux_error_dict := [];
              flux_tab0 := [("OII_3727_Flux_Gaussian", [99; 80]%float);
                            ("OII_3727_RMS", [1; 1]%float)] |}).
  vm_compute. reflexivity.
Defined.

(* ------------------------------------------------------------------------- *)
(** ** error_prop.py: runs that write nothing *)

Section Runs.
Variable libm_log10 : float -> float.
Variable libm_pow : float -> float -> float.
Variable random_pdf : list float -> list float -> nat -> nat -> value.
Variable compute_onesig_pdf : value -> list float -> value * value.
Variable np_int_ : float -> float.

Lemma aborts_bind A B (c : M A) (k : A -> M B) :
  preserves eq c -> (forall x, aborts (k x)) -> aborts (mbind c k).
Proof.
  intros Hc Hk w. unfold mbind. specialize (Hc w).
  destruct (c w) as [[x|e] w1]; simpl in Hc; subst w1.
  - apply Hk.
  - exists e. reflexivity.
Qed.

Lemma aborts_of_fails A (c : M A) : preserves eq c -> fails c -> aborts c.
Proof.
  intros Hp Hf w. destruct (Hf w) as (e & w' & E). specialize (Hp w).
  rewrite E in Hp. simpl in Hp. subst w'. exists e. exact E.
Qed.

Lemma asc_read_pure file : preserves eq (asc_read file).
Proof. intros w. unfold asc_read, mbind, get, lift. reflexivity. Qed.

Lemma local_pure A (x : option A) : preserves eq (local x).
Proof. intros w. reflexivity. Qed.

Lemma flux_ratios_default_aborts flux_dict :
  aborts (py_call (flux_ratios libm_log10 libm_pow) [flux_dict] []).
Proof.
  apply aborts_of_fails.
  - apply (flux_ratios_unbinned_pure libm_log10 libm_pow flux_dict (VBool true)).
  - apply flux_ratios_default_fails.
Qed.

Lemma raw_branch_aborts path tab0 :
  aborts (raw_branch libm_log10 libm_pow np_int_ path tab0).
Proof.
  unfold raw_branch.
  apply aborts_bind; [auto with store|intros w0].
  apply aborts_bind; [auto with store|intros flux_dict].
  intros w. unfold mbind.
  destruct (flux_ratios_default_aborts (VDict flux_dict) w) as (e & E).
  rewrite E. exists e. reflexivity.
Qed.
End Runs.

(** X1.  A raw run ([raw=True]) never writes the derived-properties table:
    whatever the directory holds, the run ends in an exception and every
    table, archive and module-level object is exactly as before the call.
    With [binned_data=False] no input file name is ever bound (lines 51-62):
    the call raises NameError before it reads anything, for every other
    argument. *)
Theorem fluxes_derived_prop_writes_nothing :
  forall (libm_log10 : float -> float) (libm_pow : float -> float -> float)
         random_pdf compute_onesig_pdf np_int_ path,
    (forall binned_data apply_dust revised,
        aborts (fluxes_derived_prop libm_log10 libm_pow random_pdf
                  compute_onesig_pdf np_int_ path true binned_data apply_dust
                  revised))
    /\ (forall raw apply_dust revised w,
          fluxes_derived_prop libm_log10 libm_pow random_pdf compute_onesig_pdf
            np_int_ path raw false apply_dust revised w
          = (Raise NameError, w)).
Proof.
  intros lg pw rp co ni path. split; [|reflexivity].
  intros binned_data apply_dust revised.
  unfold fluxes_derived_prop.
  apply aborts_bind; [auto with store|intros w0].
  apply aborts_bind.
  { destruct binned_data; [|auto with store].
    apply eq_bind; [auto with store|intros f]. cbn [negb]. auto with store. }
  intros [[flux_file prop_file] verify_file].
  apply aborts_bind.
  { apply eq_bind; [apply local_pure|intros; apply asc_read_pure]. }
  intros tab0. cbn [negb andb].
  apply aborts_bind; [auto with store|intros ptab0].
  apply aborts_bind.
  { rewrite Bool.andb_false_r. auto with store. }
  intros det. apply raw_branch_aborts.
Qed.

(* ------------------------------------------------------------------------- *)
(** ** attenuation.py *)

Section Tables.

Lemma dict_get_app V (d e : list (string * V)) k :
  dict_get (d ++ e) k
  = match dict_get d k with Some v => Some v | None => dict_get e k end.
Proof.
  induction d as [|[k' v'] d IH]; simpl; [reflexivity|].
  destruct (String.eqb k' k); [reflexivity|exact IH].
Qed.

Lemma nrows_app (t : table) e n : nrows t = Some n -> nrows (t ++ e) = Some n.
Proof. destruct t as [|[k col] t]; [discriminate|intros H; exact H]. Qed.

(** The table [add_columns] builds from a column under a new name. *)
Lemma add_column_new (t : table) name col :
  dict_in t name = false -> nrows t = Some (length col) ->
  add_column t name col = Ok (t ++ [(name, col)]).
Proof.
  intros Hin Hn. unfold add_column. rewrite Hin, Hn, Nat.eqb_refl. reflexivity.
Qed.

Lemma dict_in_app_one (t : table) n col name :
  dict_in t name = false -> n <> name ->
  dict_in (t ++ [(n, col)]) name = false.
Proof.
  unfold dict_in. intros Hin Hne. rewrite dict_get_app.
  destruct (dict_get t name); [discriminate|].
  simpl. destruct (String.eqb_spec n name); [contradiction|reflexivity].
Qed.

Lemma add_column_dup (t : table) name col v :
  dict_get t name = Some v -> add_column t name col = Raise ValueError.
Proof. intros H. unfold add_column, dict_in. rewrite H. reflexivity. Qed.

Lemma unop_list f l : Numpy.unop f (VArr l) = Ok (VArr (map f l)).
Proof. reflexivity. Qed.
End Tables.

Section ComputeEBV.
Local Open Scope float_scope.
Variable libm_log10 : float -> float.

(** E(B-V) of every row, from the column of Hg/Hb. *)
Lemma EBV_column kg kb (HgHb : list float) :
  (q <- Numpy.div (VArr HgHb) (VFloat HgHb_CaseB) ;;
   l <- np_log10 libm_log10 q ;;
   m <- Numpy.mul (VFloat (-2.5)) l ;;
   Numpy.div m (VFloat (kg - kb)))%py
  = Ok (VArr (map (AtDust.EBV libm_log10 kg kb) HgHb)).
Proof.
  unfold Numpy.div, Numpy.mul, np_log10.
  rewrite binop_list_sc, obind_ok, unop_list, obind_ok.
  rewrite binop_sc_list, obind_ok, binop_list_sc.
  rewrite !map_map. reflexivity.
Qed.

Lemma dict_get_set_eq V (d : list (string * V)) k k' v :
  dict_get (dict_set d k v) k'
  = if String.eqb k k' then Some v else dict_get d k'.
Proof.
  destruct (String.eqb_spec k k') as [<-|Hne].
  - apply dict_get_set.
  - apply dict_get_set_other. congruence.
Qed.
End ComputeEBV.

Section ComputeEBVRun.
Variable libm_log10 : float -> float.

(** A call of [compute_EBV] whose input is in place comes down to the three
    [add_columns] and to what [asc.write] does with the file that exists. *)
Lemma compute_EBV_reads (p : string) (rev : bool) (w : world)
  f1 f2 combine_asc tab1 ID hb hg hd n0 n1 n2 rest :
  getitem (filename_dict (cols w))
    (if rev then "bin_fit_rev" else "bin_fit")%string = Ok f1 ->
  getitem (filename_dict (cols w))
    (if rev then "bin_derived_prop_rev" else "bin_derived_prop")%string
  = Ok f2 ->
  dict_get (tables w) (join p f1) = Some combine_asc ->
  dict_get combine_asc "bin_ID" = Some ID ->
  dict_get combine_asc (String.append (HB (consts w)) "_Flux_Observed")
  = Some hb ->
  dict_get combine_asc (String.append (HG (consts w)) "_Flux_Observed")
  = Some hg ->
  dict_get combine_asc (String.append (HD (consts w)) "_Flux_Observed")
  = Some hd ->
  length hg = length hb -> length hd = length hb ->
  dust0 (cols w) = n0 :: n1 :: n2 :: rest ->
  dict_get (tables w) (join p f2) = Some tab1 ->
  let HgHb := Numpy.map2 PrimFloat.div hg hb in
  py_call (compute_EBV libm_log10) [VStr p; VBool rev] [] w
  = match (t <- add_column tab1 n1 HgHb ;;
           t <- add_column t n2 (Numpy.map2 PrimFloat.div hd hb) ;;
           add_column t n0
             (map (AtDust.EBV libm_log10 (k_HGAMMA (consts w))
                     (k_HBETA (consts w))) HgHb))%py with
    | Ok t =>
        if overwrites w
        then (Ok VNone, set_tables w (dict_set (tables w) (join p f2) t))
        else (Raise OSError, w)
    | Raise e => (Raise e, w)
    end.
Proof.
  intros Hf1 Hf2 Hc HID Hhb Hhg Hhd Lg Ld Hdust Ht1 HgHb.
  change (py_call (compute_EBV libm_log10) [VStr p; VBool rev] [])
    with (body (compute_EBV libm_log10) [VStr p; VBool rev]).
  cbn [body compute_EBV].
  cbv beta iota zeta delta [mbind lift get asc_read file_exists asc_write
                             asc_write_keep modify mret mraise truthy].
  rewrite Hf1, Hf2. cbv beta iota delta [obind as_str].
  rewrite Hc. cbv beta iota delta [of_option].
  unfold tbl_col, getitem. rewrite HID, Hhb, Hhg, Hhd.
  cbv beta iota delta [of_option].
  unfold Numpy.div at 1 2.
  rewrite (binop_list_list PrimFloat.div hg hb Lg).
  rewrite (binop_list_list PrimFloat.div hd hb Ld).
  cbv beta iota.
  pose proof (EBV_column libm_log10 (k_HGAMMA (consts w)) (k_HBETA (consts w))
                (Numpy.map2 PrimFloat.div hg hb)) as HE.
  unfold obind in HE. rewrite HE. clear HE.
  rewrite Hdust. cbv beta iota delta [list_item nth_error of_option].
  unfold dict_in. rewrite Ht1. cbv beta iota delta [as_arr1 of_option].
  rewrite Ht1. cbv beta iota. subst HgHb.
  destruct (add_column tab1 n1 _) as [t1|e]; [|reflexivity].
  destruct (add_column t1 n2 _) as [t2|e]; [|reflexivity].
  destruct (add_column t2 n0 _) as [t3|e]; [|reflexivity].
  destruct (overwrites w); reflexivity.
Qed.
End ComputeEBVRun.

(** X3.  Where the fit table has the three observed Balmer columns, [dust0]
    has three distinct names that are not yet columns of the table of
    derived properties, and both tables have the same number of rows,
    [compute_EBV] gets as far as [asc.write], which it calls without
    [overwrite] on the file it has just read.  Under an astropy that
    replaces the file, it returns None and has appended three columns to the
    table of derived properties, leaving all else as it was: Hg/Hb under
    [dust0[1]], Hd/Hb under [dust0[2]] and E(B-V) under [dust0[0]]; a second
    call on the same directory then raises ValueError (the columns exist)
    and leaves the file as the first call wrote it.  Under an astropy that
    refuses to overwrite, the call raises OSError and appends nothing. *)
Theorem compute_EBV_appends_columns_once :
  forall (libm_log10 : float -> float) (p : string) (rev : bool) (w : world)
         f1 f2 combine_asc tab1 ID hb hg hd n0 n1 n2 rest,
    getitem (filename_dict (cols w))
      (if rev then "bin_fit_rev" else "bin_fit")%string = Ok f1 ->
    getitem (filename_dict (cols w))
      (if rev then "bin_derived_prop_rev" else "bin_derived_prop")%string
    = Ok f2 ->
    dict_get (tables w) (join p f1) = Some combine_asc ->
    dict_get combine_asc "bin_ID" = Some ID ->
    dict_get combine_asc (String.append (HB (consts w)) "_Flux_Observed")
    = Some hb ->
    dict_get combine_asc (String.append (HG (consts w)) "_Flux_Observed")
    = Some hg ->
    dict_get combine_asc (String.append (HD (consts w)) "_Flux_Observed")
    = Some hd ->
    length hg = length hb -> length hd = length hb ->
    dust0 (cols w) = n0 :: n1 :: n2 :: rest ->
    NoDup [n0; n1; n2] ->
    dict_get (tables w) (join p f2) = Some tab1 ->
    nrows tab1 = Some (length hb) ->
    (forall n, In n [n0; n1; n2] -> dict_get tab1 n = None) ->
    let HgHb := Numpy.map2 PrimFloat.div hg hb in
    let tab1' :=
      tab1 ++ [(n1, HgHb); (n2, Numpy.map2 PrimFloat.div hd hb);
               (n0, map (AtDust.EBV libm_log10 (k_HGAMMA (consts w))
                           (k_HBETA (consts w))) HgHb)] in
    let w1 := set_tables w (dict_set (tables w) (join p f2) tab1') in
    (overwrites w = true ->
     py_call (compute_EBV libm_log10) [VStr p; VBool rev] [] w = (Ok VNone, w1)
     /\ py_call (compute_EBV libm_log10) [VStr p; VBool rev] [] w1
        = (Raise ValueError, w1))
    /\ (overwrites w = false ->
        py_call (compute_EBV libm_log10) [VStr p; VBool rev] [] w
        = (Raise OSError, w)).
Proof.
  intros lg p rev w f1 f2 combine_asc tab1 ID hb hg hd n0 n1 n2 rest
    Hf1 Hf2 Hc HID Hhb Hhg Hhd Lg Ld Hdust Hnd Ht1 Hrows Hnew HgHb tab1' w1.
  assert (Hn1 : dict_in tab1 n1 = false).
  { unfold dict_in. rewrite (Hnew n1); simpl; auto. }
  assert (Hn2 : dict_in tab1 n2 = false).
  { unfold dict_in. rewrite (Hnew n2); simpl; auto. }
  assert (Hn0 : dict_in tab1 n0 = false).
  { unfold dict_in. rewrite (Hnew n0); simpl; auto. }
  assert (D01 : n0 <> n1 /\ n0 <> n2 /\ n1 <> n2).
  { inversion Hnd as [|? ? Ha Hb]; subst. inversion Hb as [|? ? Hc' Hd]; subst.
    simpl in Ha, Hc'. intuition congruence. }
  destruct D01 as (D01 & D02 & D12).
  assert (LH : length HgHb = length hb).
  { unfold HgHb. rewrite map2_length; assumption. }
  subst HgHb.
  assert (Hfirst :
            py_call (compute_EBV lg) [VStr p; VBool rev] [] w
            = if overwrites w then (Ok VNone, w1) else (Raise OSError, w)).
  { rewrite (compute_EBV_reads lg p rev w Hf1 Hf2 Hc HID Hhb Hhg Hhd
               Lg Ld Hdust Ht1).
    rewrite (add_column_new tab1 n1) by (rewrite ?LH; assumption).
    cbv zeta.
    rewrite obind_ok.
    rewrite add_column_new.
    + rewrite obind_ok. rewrite add_column_new.
      * rewrite <- !app_assoc. reflexivity.
      * apply dict_in_app_one; [apply dict_in_app_one|]; congruence.
      * rewrite length_map, LH. do 2 apply nrows_app. exact Hrows.
    + apply dict_in_app_one; assumption.
    + rewrite map2_length by assumption. rewrite Ld.
      apply nrows_app. exact Hrows. }
  split; [|intros Hov; rewrite Hfirst, Hov; reflexivity].
  intros Hov. split; [rewrite Hfirst, Hov; reflexivity|].
  - assert (Hin1 : dict_get tab1' n1 = Some (Numpy.map2 PrimFloat.div hg hb)).
    { unfold tab1'. rewrite dict_get_app, (Hnew n1) by (simpl; auto).
      simpl. rewrite String.eqb_refl. reflexivity. }
    assert (Hkeep : forall k v, dict_get tab1 k = Some v ->
                                dict_get tab1' k = Some v).
    { intros k v Hk. unfold tab1'. rewrite dict_get_app, Hk. reflexivity. }
    assert (Hc1 : exists c1, dict_get (tables w1) (join p f1) = Some c1
                   /\ forall k v, dict_get combine_asc k = Some v ->
                                  dict_get c1 k = Some v).
    { unfold w1. cbn [tables set_tables]. rewrite dict_get_set_eq.
      destruct (String.eqb_spec (join p f2) (join p f1)) as [E|E].
      - exists tab1'. split; [reflexivity|]. intros k v Hk.
        apply Hkeep. rewrite E in Ht1. congruence.
      - exists combine_asc. auto. }
    destruct Hc1 as (c1 & Hc1 & Hcols).
    assert (Ht1' : dict_get (tables w1) (join p f2) = Some tab1').
    { unfold w1. cbn [tables set_tables]. apply dict_get_set. }
    rewrite (compute_EBV_reads lg p rev w1 (f1:=f1) (f2:=f2)
               (combine_asc:=c1) (tab1:=tab1') (ID:=ID) (hb:=hb) (hg:=hg)
               (hd:=hd) (n0:=n0) (n1:=n1) (n2:=n2) (rest:=rest));
      try assumption; try (apply Hcols; assumption).
    rewrite (add_column_dup tab1' n1 _ Hin1). reflexivity.
Qed.

Lemma compute_EBV_appends_columns_once_witness :
  for_every_libm (fun libm_log10 _ =>
    (exists w1,
       py_call (compute_EBV libm_log10) [VStr "/data"; VBool false] []
         SampleDust.w = (Ok VNone, w1)
       /\ py_call (compute_EBV libm_log10) [VStr "/data"; VBool false] [] w1
          = (Raise ValueError, w1)
       /\ option_map (map fst)
            (dict_get (tables w1) "/data/bin_derived_properties.tbl")
          = Some ["bin_ID"; "HdHb"; "EBV"; "HgHb"]%string)
    /\ py_call (compute_EBV libm_log10) [VStr "/data"; VBool false] []
         SampleDust.w5 = (Raise OSError, SampleDust.w5)).
Proof.
  intros lg pw.
  assert (Hnd : NoDup ["HgHb"; "HdHb"; "EBV"]%string).
  { repeat constructor; simpl; intuition discriminate. }
  assert (Hnew : forall n, In n ["HgHb"; "HdHb"; "EBV"]%string ->
                           dict_get [("bin_ID", [1; 2]%float)] n = None).
  { intros n [<-|[<-|[<-|[]]]]; reflexivity. }
  split.
  - eexists.
    pose proof (@compute_EBV_appends_columns_once lg "/data" false SampleDust.w
                  "bin_emission_line_fit.tbl" "bin_derived_properties.tbl"
                  SampleDust.fit_table [("bin_ID", [1; 2]%float)]
                  [1; 2]%float [50; 45]%float [23; 22]%float [13; 12]%float
                  "HgHb" "HdHb" "EBV" []
                  eq_refl eq_refl eq_refl eq_refl eq_refl eq_refl eq_refl
                  eq_refl eq_refl eq_refl Hnd eq_refl eq_refl Hnew) as H.
    cbv zeta in H. destruct H as [H _]. destruct (H eq_refl) as [H1 H2].
    split; [exact H1|]. split; [exact H2|]. reflexivity.
  - pose proof (@compute_EBV_appends_columns_once lg "/data" false SampleDust.w5
                  "bin_emission_line_fit.tbl" "bin_derived_properties.tbl"
                  SampleDust.fit_table [("bin_ID", [1; 2]%float)]
                  [1; 2]%float [50; 45]%float [23; 22]%float [13; 12]%float
                  "HgHb" "HdHb" "EBV" []
                  eq_refl eq_refl eq_refl eq_refl eq_refl eq_refl eq_refl
                  eq_refl eq_refl eq_refl Hnd eq_refl eq_refl Hnew) as H.
    cbv zeta in H. destruct H as [_ H]. exact (H eq_refl).
Defined.

Section ComputeEBVFrame.
Variable libm_log10 : float -> float.

Lemma add_column_ok t name col t' :
  add_column t name col = Ok t' -> t' = t ++ [(name, col)].
Proof.
  unfold add_column. destruct (dict_in t name); [discriminate|].
  destruct t as [|[k c0] t]; simpl.
  - intros H. injection H as <-. reflexivity.
  - destruct (Nat.eqb _ _); [|discriminate].
    intros H. injection H as <-. reflexivity.
Qed.
End ComputeEBVFrame.

(** X4.  Whatever its arguments and whatever the directory holds,
    [compute_EBV] either raises and leaves the store exactly as it was, or
    returns None after appending three columns at the end of one table that
    was already there: it creates no file and never changes, removes or
    reorders an existing column. *)
Theorem compute_EBV_only_appends :
  forall (libm_log10 : float -> float) args kw w,
    let r := py_call (compute_EBV libm_log10) args kw w in
    (exists e, r = (Raise e, w))
    \/ (exists out tab1 n1 c1 n2 c2 n3 c3,
          dict_get (tables w) out = Some tab1
          /\ r = (Ok VNone,
                  set_tables w
                    (dict_set (tables w) out
                       (tab1 ++ [(n1, c1); (n2, c2); (n3, c3)])))).
Proof.
  intros lg args kw w r. subst r. unfold py_call.
  destruct (bind_args _ args kw) as [l|]; [|left; eexists; reflexivity].
  cbn [body compute_EBV].
  destruct l as [|fitspath [|use_revised [|? ?]]];
    try (left; eexists; reflexivity).
  cbv beta iota zeta delta [mbind lift get asc_read file_exists asc_write
                             asc_write_keep modify mret mraise].
  destruct (truthy use_revised) as [rev|e]; [|left; eexists; reflexivity].
  destruct (obind (getitem _ (if rev then "bin_fit_rev" else "bin_fit")%string) _)
    as [combine_file|e]; [|left; eexists; reflexivity].
  destruct (of_option _ (dict_get (tables w) combine_file)) as [combine_asc|e];
    [|left; eexists; reflexivity].
  do 4 (destruct (tbl_col combine_asc _) as [?|e];
        [|left; eexists; reflexivity]).
  do 2 (destruct (Numpy.div _ _) as [?|e]; [|left; eexists; reflexivity]).
  destruct (obind (Numpy.div _ _) _) as [EBV|e]; [|left; eexists; reflexivity].
  do 3 (destruct (list_item _ _) as [?|e]; [|left; eexists; reflexivity]).
  destruct (obind (getitem _ _) _) as [out|e]; [|left; eexists; reflexivity].
  unfold dict_in.
  destruct (dict_get (tables w) out) as [tab1|] eqn:Ht1;
    [|left; eexists; reflexivity].
  cbv beta iota delta [of_option]. rewrite Ht1. cbv beta iota.
  destruct (as_arr1 _) as [c1|e]; [|left; eexists; reflexivity].
  cbv beta iota delta [obind].
  destruct (as_arr1 _) as [c2|e]; [|left; eexists; reflexivity].
  destruct (as_arr1 _) as [c3|e]; [|left; eexists; reflexivity].
  destruct (add_column tab1 _ c1) as [t1|e] eqn:E1;
    [|left; eexists; reflexivity].
  destruct (add_column t1 _ c2) as [t2|e] eqn:E2;
    [|left; eexists; reflexivity].
  destruct (add_column t2 _ c3) as [t3|e] eqn:E3;
    [|left; eexists; reflexivity].
  cbn [andb].
  destruct (overwrites w); cbn [negb]; [|left; eexists; reflexivity].
  right.
  apply add_column_ok in E1, E2, E3. subst t1 t2 t3.
  rewrite <- !app_assoc. cbn [app].
  do 8 eexists. split; [exact Ht1|reflexivity].
Qed.

(* ------------------------------------------------------------------------- *)
(** ** The package at import, [line_ratio_atten], [compute_A] *)

Section AtImport.
Local Open Scope float_scope.

(** What a successful import has bound. *)
Lemma startup_inv kv short r cn files ov w :
  startup kv short r cn files ov = Ok w ->
  exists k1 k2 k3 k4 k5 k6 k7 rest,
    kv = k1 :: k2 :: k3 :: k4 :: k5 :: k6 :: k7 :: rest
    /\ k_dict (pkg w)
       = [("OII_3727", k1); ("HDELTA", k2); ("HGAMMA", k3); ("OIII_4363", k4);
          ("HBETA", k5); ("OIII_4958", k6); ("OIII_5007", k7)]%string
    /\ k_4363 (consts w) = k4 /\ k_5007 (consts w) = k7
    /\ getitem short "HB" = Ok (HB (consts w))
    /\ getitem short "HG" = Ok (HG (consts w))
    /\ getitem short "HD" = Ok (HD (consts w))
    /\ getitem (k_dict (pkg w)) (HB (consts w)) = Ok (k_HBETA (consts w))
    /\ getitem (k_dict (pkg w)) (HG (consts w)) = Ok (k_HGAMMA (consts w))
    /\ line_name (pkg w) = map fst (k_dict (pkg w))
    /\ line_name_short (pkg w) = short /\ OIII_r (pkg w) = r
    /\ cols w = cn /\ tables w = files /\ archives w = []
    /\ overwrites w = ov.
Proof.
  unfold startup.
  destruct kv as [|k1 [|k2 [|k3 [|k4 [|k5 [|k6 [|k7 rest]]]]]]];
    try (intros H; discriminate H).
  set (kd := dict_update [] (combine _ _)).
  assert (Ekd : kd = [("OII_3727", k1); ("HDELTA", k2); ("HGAMMA", k3);
                      ("OIII_4363", k4); ("HBETA", k5); ("OIII_4958", k6);
                      ("OIII_5007", k7)]%string) by reflexivity.
  change (getitem kd "OIII_4363") with (Ok k4).
  change (getitem kd "OIII_5007") with (Ok k7).
  rewrite !obind_ok.
  destruct (getitem short "HB") as [hb|e]; [|intros H; discriminate H].
  destruct (getitem short "HG") as [hg|e]; [|intros H; discriminate H].
  destruct (getitem short "HD") as [hd|e]; [|intros H; discriminate H].
  rewrite !obind_ok.
  destruct (getitem kd hb) as [khb|e] eqn:Ehb; [|intros H; discriminate H].
  destruct (getitem kd hg) as [khg|e] eqn:Ehg; [|intros H; discriminate H].
  rewrite !obind_ok.
  intros H. injection H as <-. cbn [pkg consts cols tables archives k_dict
    k_4363 k_5007 HB HG HD k_HBETA k_HGAMMA line_name line_name_short OIII_r
    overwrites].
  exists k1, k2, k3, k4, k5, k6, k7, rest.
  rewrite Ekd in *. auto 20.
Qed.
End AtImport.

(** X5.  Importing the package binds [k_dict] to the seven line names
    paired in order with the first seven values of the extinction curve
    (further values are dropped by [zip]); [k_4363], [k_5007], [k_HBETA] and
    [k_HGAMMA] are its entries.  With fewer than seven values the import
    raises KeyError. *)
Theorem import_binds_k_dict :
  forall kv short r cn files overwrites,
    (forall w, startup kv short r cn files overwrites = Ok w ->
       7 <= length kv
       /\ k_dict (pkg w) = combine (line_name (pkg w)) (firstn 7 kv)
       /\ line_name (pkg w)
          = ["OII_3727"; "HDELTA"; "HGAMMA"; "OIII_4363"; "HBETA";
             "OIII_4958"; "OIII_5007"]%string
       /\ getitem (k_dict (pkg w)) "OIII_4363" = Ok (k_4363 (consts w))
       /\ getitem (k_dict (pkg w)) "OIII_5007" = Ok (k_5007 (consts w))
       /\ getitem (k_dict (pkg w)) (HB (consts w)) = Ok (k_HBETA (consts w))
       /\ getitem (k_dict (pkg w)) (HG (consts w)) = Ok (k_HGAMMA (consts w)))
    /\ (length kv < 7 ->
        startup kv short r cn files overwrites = Raise KeyError).
Proof.
  intros kv short r cn files ov. split.
  - intros w H.
    destruct (startup_inv _ _ _ _ _ _ H)
      as (k1 & k2 & k3 & k4 & k5 & k6 & k7 & rest & -> & Hk & H4 & H7 & _ & _
          & _ & Hb & Hg & Hl & _).
    rewrite Hk in Hb, Hg. rewrite Hl, Hk. subst k4 k7.
    simpl. repeat split; try assumption. lia.
  - intros Hlen.
    destruct kv as [|k1 [|k2 [|k3 [|k4 [|k5 [|k6 [|k7 rest]]]]]]];
      try reflexivity.
    simpl in Hlen. lia.
Qed.

Lemma import_binds_k_dict_witness :
  k_dict (pkg Sample.w0)
  = combine (line_name (pkg Sample.w0)) (firstn 7 Sample.k_values)
  /\ getitem (k_dict (pkg Sample.w0)) "HBETA" = Ok (k_HBETA (consts Sample.w0))
  /\ startup [4.77; 4.44; 4.17; 4.15]%float Sample.short Sample.r Sample.cn
       Sample.files true = Raise KeyError.
Proof.
  destruct (import_binds_k_dict Sample.k_values Sample.short Sample.r Sample.cn
              Sample.files true) as [H1 _].
  destruct (H1 Sample.w0 sample_world_starts)
    as (_ & Hk & _ & _ & _ & Hb & _).
  split; [exact Hk|]. split; [exact Hb|].
  apply (proj2 (import_binds_k_dict [4.77; 4.44; 4.17; 4.15]%float Sample.short
                  Sample.r Sample.cn Sample.files true)).
  simpl. lia.
Defined.

Section Atten.
Local Open Scope float_scope.
Variable libm_pow : float -> float -> float.

Lemma line_ratio_atten_known ratio EBV top bottom k_top k_bottom w :
  dict_get (k_dict (pkg w)) top = Some k_top ->
  dict_get (k_dict (pkg w)) bottom = Some k_bottom ->
  py_call (line_ratio_atten libm_pow) [ratio; EBV; VStr top; VStr bottom] [] w
  = ((e1 <- Numpy.mul (VFloat 0.4) EBV ;;
      e2 <- Numpy.mul e1 (VFloat (k_top - k_bottom)) ;;
      p <- np_power libm_pow (VFloat 10) e2 ;;
      Numpy.mul ratio p)%py, w).
Proof.
  intros Ht Hb.
  change (py_call (line_ratio_atten libm_pow)
            [ratio; EBV; VStr top; VStr bottom] [])
    with (body (line_ratio_atten libm_pow) [ratio; EBV; VStr top; VStr bottom]).
  cbn [body line_ratio_atten].
  cbv beta iota delta [mbind get lift k_lookup getitem].
  rewrite Ht, Hb. reflexivity.
Qed.
End Atten.

(** X6.  [line_ratio_atten] corrects a ratio by
    [10**(0.4*EBV*(k_top - k_bottom))] with the two lines' entries of
    [k_dict]; a line name that is not in [k_dict] raises KeyError.  In a
    package as imported, [R_calculation(OIII4363, OIII5007, EBV)] is
    [line_ratio_atten] applied to the uncorrected ratio
    [OIII4363 / (OIII5007 * (1 + 1/3.1))] for the lines ['OIII_4363'] and
    ['OIII_5007']. *)
Theorem R_calculation_as_line_ratio_atten :
  forall (libm_pow : float -> float -> float) kv short r cn files overwrites w,
    startup kv short r cn files overwrites = Ok w ->
    (forall OIII4363 OIII5007 EBV,
        py_call (R_calculation libm_pow) [OIII4363; OIII5007; EBV] [] w
        = match (d <- Numpy.mul OIII5007 (VFloat (1 + 1 / 3.1)) ;;
                 Numpy.div OIII4363 d)%py with
          | Ok ratio =>
              py_call (line_ratio_atten libm_pow)
                [ratio; EBV; VStr "OIII_4363"; VStr "OIII_5007"] [] w
          | Raise e => (Raise e, w)
          end)
    /\ (forall ratio EBV top bottom k_top k_bottom,
          dict_get (k_dict (pkg w)) top = Some k_top ->
          dict_get (k_dict (pkg w)) bottom = Some k_bottom ->
          py_call (line_ratio_atten libm_pow)
            [VFloat ratio; VFloat EBV; VStr top; VStr bottom] [] w
          = (Ok (VFloat (AtDust.ratio_atten libm_pow k_top k_bottom ratio EBV)),
             w))
    /\ (forall ratio EBV top bottom,
          dict_get (k_dict (pkg w)) top = None
          \/ dict_get (k_dict (pkg w)) bottom = None ->
          py_call (line_ratio_atten libm_pow)
            [ratio; EBV; VStr top; VStr bottom] [] w
          = (Raise KeyError, w)).
Proof.
  intros pw kv short r cn files ov w H.
  destruct (startup_inv _ _ _ _ _ _ H)
    as (k1 & k2 & k3 & k4 & k5 & k6 & k7 & rest & _ & Hk & H4 & H7 & _).
  split; [|split].
  - intros o1 o2 EBV.
    change (py_call (R_calculation pw) [o1; o2; EBV] [])
      with (body (R_calculation pw) [o1; o2; EBV]).
    cbn [body R_calculation]. cbv beta iota delta [mbind get lift R_value].
    destruct (Numpy.mul o2 _) as [d|e]; [|reflexivity].
    rewrite !obind_ok.
    destruct (Numpy.div o1 d) as [q|e]; [|reflexivity].
    rewrite !obind_ok.
    rewrite (@line_ratio_atten_known pw q EBV "OIII_4363" "OIII_5007" k4 k7 w)
      by (rewrite Hk; reflexivity).
    rewrite H4, H7. reflexivity.
  - intros ratio EBV top bottom k_top k_bottom Ht Hb.
    rewrite (@line_ratio_atten_known pw (VFloat ratio) (VFloat EBV) _ _ _ _ _ Ht Hb).
    reflexivity.
  - intros ratio EBV top bottom Hm.
    change (py_call (line_ratio_atten pw) [ratio; EBV; VStr top; VStr bottom] [])
      with (body (line_ratio_atten pw) [ratio; EBV; VStr top; VStr bottom]).
    cbn [body line_ratio_atten].
    cbv beta iota delta [mbind get lift k_lookup getitem].
    destruct (dict_get (k_dict (pkg w)) top) as [kt|].
    + destruct Hm as [Hm|Hm]; [discriminate|]. rewrite Hm. reflexivity.
    + reflexivity.
Qed.

Lemma R_calculation_as_line_ratio_atten_witness :
  for_every_libm (fun _ libm_pow =>
    py_call (R_calculation libm_pow)
      [VArr [1.5%float]; VArr [300%float]; VFloat 0.1%float] [] Sample.w0
    = py_call (line_ratio_atten libm_pow)
        [VArr [(1.5 / (300 * (1 + 1 / 3.1)))%float]; VFloat 0.1%float;
         VStr "OIII_4363"; VStr "OIII_5007"] [] Sample.w0).
Proof.
  intros lg pw.
  exact (proj1 (@R_calculation_as_line_ratio_atten pw Sample.k_values
                  Sample.short Sample.r Sample.cn Sample.files true Sample.w0
                  sample_world_starts)
           (VArr [1.5%float]) (VArr [300%float]) (VFloat 0.1%float)).
Defined.

Section Zip.
Variable V : Type.

Lemma dict_get_None (d : list (string * V)) k :
  ~ In k (map fst d) -> dict_get d k = None.
Proof.
  induction d as [|[k' v'] d IH]; simpl; [reflexivity|].
  intros H. destruct (String.eqb_spec k' k) as [E|E].
  - exfalso. apply H. left. exact E.
  - apply IH. intros Hin. apply H. right. exact Hin.
Qed.

Lemma dict_set_fresh (d : list (string * V)) k v :
  dict_get d k = None -> dict_set d k v = d ++ [(k, v)].
Proof.
  induction d as [|[k' v'] d IH]; simpl; [reflexivity|].
  destruct (String.eqb k' k); [discriminate|].
  intros H. rewrite (IH H). reflexivity.
Qed.

Lemma dict_update_fresh (keys : list string) :
  forall (vals : list V) (acc : list (string * V)),
    NoDup (map fst acc ++ keys) ->
    dict_update acc (combine keys vals) = acc ++ combine keys vals.
Proof.
  unfold dict_update.
  induction keys as [|k keys IH]; intros vals acc Hnd.
  - simpl. rewrite app_nil_r. reflexivity.
  - destruct vals as [|v vals]; [simpl; rewrite app_nil_r; reflexivity|].
    cbn [combine fold_left fst snd].
    rewrite dict_set_fresh.
    + rewrite IH.
      * rewrite <- app_assoc. reflexivity.
      * rewrite map_app, <- app_assoc. exact Hnd.
    + apply dict_get_None. apply NoDup_remove_2 in Hnd.
      intros Hin. apply Hnd. apply in_or_app. left. exact Hin.
Qed.

(** [dict(zip(keys, values))] on distinct keys pairs them in order. *)
Lemma dict_update_nil_nodup (keys : list string) (vals : list V) :
  NoDup keys -> dict_update [] (combine keys vals) = combine keys vals.
Proof. intros H. apply (dict_update_fresh keys vals []). exact H. Qed.
End Zip.

Lemma combine_fst_map A B C (f : B -> C) (l : list (A * B)) :
  combine (map fst l) (map (fun kv => f (snd kv)) l)
  = map (fun kv => (fst kv, f (snd kv))) l.
Proof. induction l as [|[k v] l IH]; simpl; congruence. Qed.

(** X7.  On distinct line names, [compute_A] of a number [EBV] is the
    dictionary of [k * EBV] over the lines of [k_dict], in its order.  An
    array with one E(B-V) per line is multiplied line by line (entry [i] of
    the array goes to line [i]); an array of any other length than 1 raises
    ValueError when there are several lines.  The store is not touched. *)
Theorem compute_A_scales_k_dict :
  forall w,
    NoDup (map fst (k_dict (pkg w))) ->
    (forall EBV : float,
        py_call compute_A [VFloat EBV] [] w
        = (Ok (VDict (map (fun kv => (fst kv, VFloat (snd kv * EBV)%float))
                        (k_dict (pkg w)))), w))
    /\ (forall EBV : list float,
          length EBV = length (k_dict (pkg w)) ->
          py_call compute_A [VArr EBV] [] w
          = (Ok (VDict (combine (map fst (k_dict (pkg w)))
                          (map VFloat
                             (Numpy.map2 PrimFloat.mul
                                (map snd (k_dict (pkg w))) EBV)))), w))
    /\ (forall EBV : list float,
          length EBV <> length (k_dict (pkg w)) -> length EBV <> 1 ->
          length (k_dict (pkg w)) <> 1 ->
          py_call compute_A [VArr EBV] [] w = (Raise ValueError, w)).
Proof.
  intros w Hnd.
  assert (Hbody : forall v, py_call compute_A [v] [] w
                            = body compute_A [v] w) by reflexivity.
  split; [|split].
  - intros x. rewrite Hbody. cbn [body compute_A].
    cbv beta iota zeta delta [mbind get lift].
    unfold Numpy.mul. rewrite binop_list_sc, obind_ok.
    cbn [iterate]. rewrite obind_ok. unfold dict_zip.
    rewrite dict_update_nil_nodup by exact Hnd.
    rewrite !map_map.
    rewrite (combine_fst_map (fun t => VFloat (t * x)%float)).
    reflexivity.
  - intros e Hl. rewrite Hbody. cbn [body compute_A].
    cbv beta iota zeta delta [mbind get lift].
    unfold Numpy.mul. rewrite binop_list_list by (rewrite length_map; auto).
    rewrite obind_ok. cbn [iterate]. rewrite obind_ok. unfold dict_zip.
    rewrite dict_update_nil_nodup by exact Hnd. reflexivity.
  - intros e Hl H1 Hk. rewrite Hbody. cbn [body compute_A].
    cbv beta iota zeta delta [mbind get lift].
    unfold Numpy.mul, Numpy.binop. cbn [Numpy.as_nd obind Numpy.binop_nd].
    unfold Numpy.bc_len. rewrite length_map.
    destruct (Nat.eqb_spec (length (k_dict (pkg w))) (length e));
      [congruence|].
    destruct (Nat.eqb_spec (length (k_dict (pkg w))) 1); [contradiction|].
    destruct (Nat.eqb_spec (length e) 1); [contradiction|].
    reflexivity.
Qed.

Lemma compute_A_scales_k_dict_witness :
  fst (py_call compute_A [VFloat 0.5%float] [] Sample.w0)
  = Ok (VDict (map (fun kv => (fst kv, VFloat (snd kv * 0.5)%float))
                 (k_dict (pkg Sample.w0))))
  /\ fst (py_call compute_A [VArr [0.1; 0.2]%float] [] Sample.w0)
     = Raise ValueError.
Proof.
  assert (Hnd : NoDup (map fst (k_dict (pkg Sample.w0)))).
  { repeat constructor; simpl; intuition discriminate. }
  destruct (compute_A_scales_k_dict Sample.w0 Hnd) as (H1 & _ & H3).
  split.
  - rewrite (H1 0.5%float). reflexivity.
  - rewrite (H3 [0.1; 0.2]%float); [reflexivity| | |]; simpl; lia.
Defined.

(* ------------------------------------------------------------------------- *)
(** ** composite_indv_detect.py *)

Section Adopt.
Local Open Scope float_scope.

Lemma where_eq_in_range col x n :
  length col <= n -> in_range n (Numpy.where_eq col x 0) = true.
Proof.
  intros Hn. unfold in_range. apply forallb_forall. intros i Hi.
  apply where_eq_spec in Hi. destruct Hi as (d & _ & Hd & _).
  rewrite Nat.sub_0_r in Hd.
  apply Nat.ltb_lt. apply Nat.lt_le_trans with (length col); [|exact Hn].
  apply nth_error_Some. congruence.
Qed.

Lemma map_const_repeat A B (x : B) (l : list A) :
  map (fun _ => x) l = repeat x (length l).
Proof. induction l; simpl; congruence. Qed.

(** [a[idx] = x] with a number [x]. *)
Lemma put_scalar a idx x :
  in_range (length a) idx = true ->
  exists a', Numpy.put a idx (VFloat x) = Ok a'
             /\ length a' = length a
             /\ forall i, nth_error a' i
                          = if existsb (Nat.eqb i) idx
                            then option_map (fun _ => x) (nth_error a i)
                            else nth_error a i.
Proof.
  intros Hr. exists (Numpy.assign a idx (map (fun _ => x) idx)).
  split; [|split].
  - unfold Numpy.put. cbn [Numpy.put_values]. rewrite obind_ok.
    change (forallb (fun i => Nat.ltb i (length a)) idx)
      with (in_range (length a) idx).
    rewrite Hr, map_const_repeat. reflexivity.
  - apply assign_length.
  - intros i. destruct (existsb (Nat.eqb i) idx) eqn:E.
    + apply existsb_exists in E. destruct E as (j & Hj & Hij).
      apply Nat.eqb_eq in Hij. subst j.
      assert (Hlt : i < length a) by (apply (in_range_In _ _ Hr); exact Hj).
      rewrite (nth_error_nth_lt a 0 Hlt). cbn [option_map].
      rewrite (@nth_error_nth_lt _ _ i 0)
        by (rewrite assign_length; exact Hlt).
      f_equal. apply (@nth_assign_in a idx (fun _ => x) i 0 Hr Hj).
    + apply nth_error_assign_out. intros Hin.
      assert (existsb (Nat.eqb i) idx = true) as E'.
      { apply existsb_exists. exists i. split; [exact Hin|apply Nat.eqb_refl]. }
      congruence.
Qed.

Lemma where_eq_mem col x i :
  existsb (Nat.eqb i) (Numpy.where_eq col x 0)
  = match nth_error col i with
    | Some d => PrimFloat.eqb d x
    | None => false
    end.
Proof.
  destruct (existsb _ _) eqn:E.
  - apply existsb_exists in E. destruct E as (j & Hj & Hij).
    apply Nat.eqb_eq in Hij. subst j.
    apply where_eq_spec in Hj. destruct Hj as (d & _ & Hd & He).
    rewrite Nat.sub_0_r in Hd. rewrite Hd, He. reflexivity.
  - destruct (nth_error col i) as [d|] eqn:Hd; [|reflexivity].
    destruct (PrimFloat.eqb d x) eqn:He; [|reflexivity].
    assert (In i (Numpy.where_eq col x 0)) as Hin.
    { apply where_eq_spec. exists d. rewrite Nat.sub_0_r. auto with arith. }
    assert (existsb (Nat.eqb i) (Numpy.where_eq col x 0) = true) as E'.
    { apply existsb_exists. exists i. split; [exact Hin|apply Nat.eqb_refl]. }
    congruence.
Qed.
End Adopt.

(** X8.  The loop over the composites (lines 38-41): when the bin table
    has no more rows than the table of galaxies, it ends, and a galaxy whose
    bin number equals the ID of some composite holds the temperature of the
    last such composite; every other galaxy keeps what it held (zero in
    [main]). *)
Theorem adopt_assigns_last_match :
  forall bin_table bins adopted_temp col,
    tbl_col bin_table "Bin_number" = Ok col ->
    length col <= length adopted_temp ->
    exists r,
      adopt bin_table bins adopted_temp = Ok r
      /\ length r = length adopted_temp
      /\ forall i,
           nth_error r i
           = match nth_error col i with
             | Some y => option_map (AtDust.adopted bins y)
                           (nth_error adopted_temp i)
             | None => nth_error adopted_temp i
             end.
Proof.
  intros bin_table bins a col Hcol. revert a.
  induction bins as [|[b t] bins IH]; intros a Hlen.
  - exists a. split; [reflexivity|]. split; [reflexivity|].
    intros i. destruct (nth_error col i); [|reflexivity].
    destruct (nth_error a i); reflexivity.
  - cbn [adopt]. rewrite Hcol, obind_ok.
    destruct (put_scalar a (Numpy.where_eq col b 0) t
                (where_eq_in_range col b Hlen)) as (a1 & Hput & Hl1 & Hn1).
    rewrite Hput, obind_ok.
    destruct (IH a1) as (r & Hr & Hlr & Hnr); [rewrite Hl1; exact Hlen|].
    exists r. split; [exact Hr|]. split; [congruence|].
    intros i. rewrite Hnr, Hn1, where_eq_mem.
    destruct (nth_error col i) as [y|] eqn:Hy; [|reflexivity].
    destruct (PrimFloat.eqb y b) eqn:E; destruct (nth_error a i);
      cbn [option_map]; unfold AtDust.adopted; cbn [fold_left fst snd];
      rewrite ?E; reflexivity.
Qed.

Lemma adopt_assigns_last_match_witness :
  adopt [("Bin_number", [1; 2; 1; 3]%float)]
    [(1, 11000); (2, 12500); (1, 11500)]%float (Numpy.zeros 4)
  = Ok [11500; 12500; 11500; 0]%float.
Proof.
  destruct (@adopt_assigns_last_match [("Bin_number", [1; 2; 1; 3]%float)]
              [(1, 11000); (2, 12500); (1, 11500)]%float (Numpy.zeros 4)
              [1; 2; 1; 3]%float eq_refl (le_n 4)) as (r & Hr & _).
  rewrite Hr. f_equal. vm_compute in Hr. injection Hr as <-. reflexivity.
Defined.

(* ------------------------------------------------------------------------- *)
(** ** temp_metallicity_calc.py: index subsets, lengths, flux ratios without
       a detection *)

Section Det3.
Local Open Scope float_scope.
Variable libm_log10 : float -> float.
Variable libm_pow : float -> float -> float.

(** Assignment through an index array depends on the set of its indices
    only. *)
Lemma assign_as_set a d1 d2 (g : nat -> float) :
  in_range (length a) d1 = true -> in_range (length a) d2 = true ->
  (forall i, In i d1 <-> In i d2) ->
  Numpy.assign a d1 (map g d1) = Numpy.assign a d2 (map g d2).
Proof.
  intros H1 H2 Hset.
  apply (nth_ext _ _ 0 0); [rewrite !assign_length; reflexivity|].
  intros i _.
  destruct (in_dec Nat.eq_dec i d1) as [Hin|Hout].
  - rewrite (@nth_assign_in a d1 g i 0 H1 Hin).
    rewrite (@nth_assign_in a d2 g i 0 H2 (proj1 (Hset i) Hin)). reflexivity.
  - rewrite (@nth_assign_out a d1 (map g d1) i 0 Hout).
    rewrite (@nth_assign_out a d2 (map g d2) i 0); [reflexivity|].
    intros Hin. apply Hout, Hset, Hin.
Qed.

Lemma in_range_arange_short n m : m < n -> in_range m (Numpy.arange n) = false.
Proof.
  intros H. destruct (in_range m (Numpy.arange n)) eqn:E; [|reflexivity].
  exfalso. assert (m < m); [|lia].
  apply (proj1 (in_range_iff m (Numpy.arange n)) E). apply in_seq. lia.
Qed.

Lemma mapM_list_item_out A (l : list A) idx :
  in_range (length l) idx = false ->
  mapM (list_item l) idx = Raise IndexError.
Proof.
  induction idx as [|i idx IH]; [discriminate|].
  cbn [in_range forallb]. fold (in_range (length l) idx).
  unfold mapM; fold (mapM (list_item l) idx). unfold list_item at 1.
  destruct (Nat.ltb_spec i (length l)) as [Hlt|Hge].
  - destruct (nth_error l i) eqn:E;
      [|apply nth_error_None in E; lia].
    cbn [andb of_option]. intros H. rewrite (IH H). reflexivity.
  - intros _. apply nth_error_None in Hge. rewrite Hge. reflexivity.
Qed.

Lemma take_arr_out (l : list float) idx :
  in_range (length l) idx = false ->
  Numpy.take (VArr l) idx = Raise IndexError.
Proof.
  intros H. cbn [Numpy.take]. rewrite (mapM_list_item_out l idx H).
  reflexivity.
Qed.
End Det3.

Section Det3Calls.
Local Open Scope float_scope.
Variable libm_log10 : float -> float.
Variable libm_pow : float -> float -> float.

Lemma metallicity_calculation_body T x y d3 w :
  py_call (metallicity_calculation libm_log10 libm_pow) [T; x; y; d3] [] w
  = (metal_dict libm_log10 libm_pow (remove_from_list (cols w))
       (temp_metal_names0 (cols w)) T x y d3, w).
Proof. reflexivity. Qed.

Lemma metallicity_calculation_body_default T x y w :
  py_call (metallicity_calculation libm_log10 libm_pow) [T; x; y] [] w
  = (metal_dict libm_log10 libm_pow (remove_from_list (cols w))
       (temp_metal_names0 (cols w)) T x y VNone, w).
Proof. reflexivity. Qed.

Lemma metal_dict_default rm names te x y :
  metal_dict libm_log10 libm_pow rm names (VArr te) x y VNone
  = metal_dict libm_log10 libm_pow rm names (VArr te) x y
      (VIdx (Numpy.arange (length te))).
Proof. reflexivity. Qed.

Ltac arr_step :=
  eapply obind_step;
  [ first [ apply take_assign; rewrite ?zeros_length; assumption
          | apply take_arr; assumption
          | apply put_map; rewrite ?zeros_length; assumption
          | apply binop_arr_arr
          | apply binop_arr_sc
          | apply binop_sc_arr
          | apply unop_arr ]
  | cbv beta ].

(** A ratio array that is shorter than [T_e] stops the default call. *)
Lemma metal_dict_short rm names te tb thb :
  length tb < length te \/ length thb < length te ->
  metal_dict libm_log10 libm_pow rm names (VArr te) (VArr tb) (VArr thb) VNone
  = Raise IndexError.
Proof.
  intros Hshort.
  assert (Hte : in_range (length te) (Numpy.arange (length te)) = true)
    by (apply in_range_arange; lia).
  unfold metal_dict.
  change (Numpy.len (VArr te)) with (Ok (length te)).
  rewrite obind_ok. cbv beta zeta iota.
  change (as_idx (VIdx (Numpy.arange (length te))))
    with (Ok (Numpy.arange (length te))).
  rewrite obind_ok. cbv beta.
  unfold Numpy.mul, Numpy.add, Numpy.sub, Numpy.div, np_log10, np_power.
  repeat arr_step.
  destruct (Nat.lt_ge_cases (length tb) (length te)) as [Htb|Htb].
  - rewrite (take_arr_out tb _ (in_range_arange_short Htb)). reflexivity.
  - assert (Htb' : in_range (length tb) (Numpy.arange (length te)) = true)
      by (apply in_range_arange; exact Htb).
    assert (Hthb : length thb < length te) by (destruct Hshort; [lia|auto]).
    repeat arr_step.
    rewrite (take_arr_out thb _ (in_range_arange_short Hthb)). reflexivity.
Qed.
End Det3Calls.

(** X10.  On one-dimensional arrays, [metallicity_calculation] depends on
    the set of indices in [det3] only: two index arrays within range that
    hold the same indices, in any order and with any repetitions, give the
    same dictionary. *)
Theorem metallicity_calculation_det3_as_set :
  forall (libm_log10 : float -> float) (libm_pow : float -> float -> float)
         w te tb thb d1 d2,
    in_range (length te) d1 = true ->
    in_range (length tb) d1 = true ->
    in_range (length thb) d1 = true ->
    (forall i, In i d1 <-> In i d2) ->
    py_call (metallicity_calculation libm_log10 libm_pow)
      [VArr te; VArr tb; VArr thb; VIdx d1] [] w
    = py_call (metallicity_calculation libm_log10 libm_pow)
        [VArr te; VArr tb; VArr thb; VIdx d2] [] w.
Proof.
  intros lg pw w te tb thb d1 d2 H1 H2 H3 Hset.
  assert (Hto : forall n, in_range n d1 = true -> in_range n d2 = true).
  { intros n Hn. apply in_range_iff. intros i Hi.
    apply (proj1 (in_range_iff n d1) Hn). apply Hset, Hi. }
  rewrite !metallicity_calculation_body.
  pose proof (@metal_dict_arrays lg pw (remove_from_list (cols w))
                (temp_metal_names0 (cols w)) te tb thb d1 H1 H2 H3) as E1.
  pose proof (@metal_dict_arrays lg pw (remove_from_list (cols w))
                (temp_metal_names0 (cols w)) te tb thb d2
                (Hto _ H1) (Hto _ H2) (Hto _ H3)) as E2.
  cbv zeta in E1, E2. rewrite E1, E2.
  rewrite (@assign_as_set (Numpy.zeros (length te)) d1 d2
             (fun j => At.O_s_ion_log lg pw (nth j te 0%float) (nth j tb 0%float)))
    by (rewrite ?zeros_length; auto).
  rewrite (@assign_as_set (Numpy.zeros (length te)) d1 d2
             (fun j => At.O_d_ion_log lg (nth j te 0%float) (nth j thb 0%float)))
    by (rewrite ?zeros_length; auto).
  reflexivity.
Qed.

Lemma metallicity_calculation_det3_as_set_witness :
  for_every_libm (fun libm_log10 libm_pow =>
    py_call (metallicity_calculation libm_log10 libm_pow)
      [VArr [12000; 13000; 9000]%float; VArr [2; 2; 3]%float;
       VArr [6; 6; 5]%float; VIdx [0; 2]] [] Sample.w0
    = py_call (metallicity_calculation libm_log10 libm_pow)
        [VArr [12000; 13000; 9000]%float; VArr [2; 2; 3]%float;
         VArr [6; 6; 5]%float; VIdx [2; 0; 2]] [] Sample.w0).
Proof.
  intros lg pw.
  apply metallicity_calculation_det3_as_set; try reflexivity.
  intros i. simpl. intuition.
Defined.

(** X11.  With [det3] left out, a ratio array that is shorter than [T_e]
    makes [metallicity_calculation] raise IndexError; entries of the ratio
    arrays past the length of [T_e] are never read: arrays that agree on
    their first [len(T_e)] entries give the same dictionary.  A [T_e] that is
    a single number raises TypeError. *)
Theorem metallicity_calculation_lengths :
  forall (libm_log10 : float -> float) (libm_pow : float -> float -> float)
         w te,
    (forall tb thb,
        length tb < length te \/ length thb < length te ->
        py_call (metallicity_calculation libm_log10 libm_pow)
          [VArr te; VArr tb; VArr thb] [] w = (Raise IndexError, w))
    /\ (forall tb thb tb' thb',
          length te <= length tb -> length te <= length thb ->
          firstn (length te) tb' = firstn (length te) tb ->
          firstn (length te) thb' = firstn (length te) thb ->
          py_call (metallicity_calculation libm_log10 libm_pow)
            [VArr te; VArr tb'; VArr thb'] [] w
          = py_call (metallicity_calculation libm_log10 libm_pow)
              [VArr te; VArr tb; VArr thb] [] w)
    /\ (forall (x : float) tb thb det3,
          py_call (metallicity_calculation libm_log10 libm_pow)
            [VFloat x; tb; thb; det3] [] w = (Raise TypeError, w)).
Proof.
  intros lg pw w te. split; [|split].
  - intros tb thb Hshort.
    rewrite metallicity_calculation_body_default.
    rewrite (metal_dict_short lg pw _ _ te tb thb Hshort). reflexivity.
  - intros tb thb tb' thb' Ltb Lthb Etb Ethb.
    assert (Hlen : forall l l' : list float,
               length te <= length l ->
               firstn (length te) l' = firstn (length te) l ->
               length te <= length l').
    { intros l l' Hl E.
      assert (H : length (firstn (length te) l') = length te)
        by (rewrite E, length_firstn; lia).
      rewrite length_firstn in H. lia. }
    assert (Hnth : forall (l l' : list float) j,
               firstn (length te) l' = firstn (length te) l ->
               In j (Numpy.arange (length te)) ->
               nth j l' 0%float = nth j l 0%float).
    { intros l l' j E Hj. apply in_seq in Hj.
      assert (Hlt : Nat.ltb j (length te) = true) by (apply Nat.ltb_lt; lia).
      pose proof (nth_firstn (length te) l' j 0%float) as H1.
      pose proof (nth_firstn (length te) l j 0%float) as H2.
      rewrite Hlt in H1, H2. rewrite <- H1, <- H2, E. reflexivity. }
    rewrite !metallicity_calculation_body_default.
    rewrite !(metal_dict_default lg pw).
    pose proof (@metal_dict_arrays lg pw (remove_from_list (cols w))
                  (temp_metal_names0 (cols w)) te tb thb
                  (Numpy.arange (length te))
                  (in_range_arange (le_n _)) (in_range_arange Ltb)
                  (in_range_arange Lthb)) as E1.
    pose proof (@metal_dict_arrays lg pw (remove_from_list (cols w))
                  (temp_metal_names0 (cols w)) te tb' thb'
                  (Numpy.arange (length te))
                  (in_range_arange (le_n _))
                  (in_range_arange (Hlen _ _ Ltb Etb))
                  (in_range_arange (Hlen _ _ Lthb Ethb))) as E2.
    cbv zeta in E1, E2. rewrite E1, E2.
    rewrite (map_ext_in
               (fun j => At.O_s_ion_log lg pw (nth j te 0%float)
                           (nth j tb' 0%float))
               (fun j => At.O_s_ion_log lg pw (nth j te 0%float)
                           (nth j tb 0%float)))
      by (intros j Hj; rewrite (Hnth tb tb' j Etb Hj); reflexivity).
    rewrite (map_ext_in
               (fun j => At.O_d_ion_log lg (nth j te 0%float)
                           (nth j thb' 0%float))
               (fun j => At.O_d_ion_log lg (nth j te 0%float)
                           (nth j thb 0%float)))
      by (intros j Hj; rewrite (Hnth thb thb' j Ethb Hj); reflexivity).
    reflexivity.
  - intros x tb thb det3. reflexivity.
Qed.

Lemma metallicity_calculation_lengths_witness :
  for_every_libm (fun libm_log10 libm_pow =>
    py_call (metallicity_calculation libm_log10 libm_pow)
      [VArr [12000; 13000]%float; VArr [2]%float; VArr [6; 6]%float] []
      Sample.w0 = (Raise IndexError, Sample.w0)
    /\ py_call (metallicity_calculation libm_log10 libm_pow)
         [VArr [12000; 13000]%float; VArr [2; 2; 7]%float;
          VArr [6; 6; 8; 9]%float] [] Sample.w0
       = py_call (metallicity_calculation libm_log10 libm_pow)
           [VArr [12000; 13000]%float; VArr [2; 2]%float;
            VArr [6; 6]%float] [] Sample.w0).
Proof.
  intros lg pw.
  destruct (@metallicity_calculation_lengths lg pw Sample.w0
              [12000; 13000]%float) as (H1 & H2 & _).
  split.
  - apply H1. left. simpl. lia.
  - apply H2; try reflexivity; simpl; lia.
Defined.

Section NoDetection.
Local Open Scope float_scope.
Variable libm_log10 : float -> float.
Variable libm_pow : float -> float -> float.

Lemma negative_tests (x : float) :
  (x <? 0) = true -> is_nan x = false /\ is_zero x = false.
Proof.
  unfold is_nan, is_zero.
  rewrite FloatAxioms.ltb_spec, !FloatAxioms.eqb_spec.
  replace (Prim2SF 0) with (S754_zero false) by (vm_compute; reflexivity).
  destruct (Prim2SF x) as [s|s| |s m e] eqn:E.
  - intros H. discriminate H.
  - destruct s; intros H; try discriminate H. split; reflexivity.
  - intros H. discriminate H.
  - destruct s; intros H; try discriminate H.
    unfold SFeqb at 1. rewrite SFcompare_finite_refl. split; reflexivity.
Qed.

Lemma zero_tests (x : float) : is_zero x = true -> is_nan x = false.
Proof.
  unfold is_nan, is_zero. rewrite !FloatAxioms.eqb_spec.
  replace (Prim2SF 0) with (S754_zero false) by (vm_compute; reflexivity).
  destruct (Prim2SF x) as [s|s| |s m e] eqn:E.
  - intros _. reflexivity.
  - destruct s; intros H; discriminate H.
  - intros H; discriminate H.
  - destruct s; intros H; discriminate H.
Qed.

Lemma log10_negative r :
  (r <? 0) = true \/ is_nan r = true -> Np.log10 libm_log10 r = nan.
Proof.
  unfold Np.log10. intros [H|H].
  - destruct (@negative_tests r H) as [-> ->]. rewrite H. reflexivity.
  - rewrite H. reflexivity.
Qed.

Lemma log10_zero r : is_zero r = true -> Np.log10 libm_log10 r = neg_infinity.
Proof.
  unfold Np.log10. intros H. rewrite (@zero_tests r H), H. reflexivity.
Qed.
End NoDetection.

(** X12.  [temp_calculation] on a flux ratio without a detection: where [R]
    is negative or NaN the temperature is NaN ([np.log10] gives NaN, no
    exception is raised); where [R] is zero the temperature is 0.0
    ([-log10(0)] is +inf and [inf ** -0.98062] is 0).  The array returned has
    the length of [R]. *)
Theorem temp_calculation_without_detection :
  forall (libm_log10 : float -> float) (libm_pow : float -> float -> float)
         w (R : list float),
  exists T,
    py_call (temp_calculation libm_log10 libm_pow) [VArr R] [] w
    = (Ok (VArr T), w)
    /\ length T = length R
    /\ forall i r, nth_error R i = Some r ->
         ((r <? 0)%float = true \/ is_nan r = true -> nth_error T i = Some nan)
         /\ (is_zero r = true -> nth_error T i = Some 0%float).
Proof.
  intros lg pw w R. exists (map (At.T_e lg pw) R).
  split; [apply temp_calculation_array|]. split; [apply length_map|].
  intros i r Hr.
  rewrite nth_error_map, Hr. cbn [option_map]. unfold At.T_e. split; intros H.
  - rewrite (@log10_negative lg r H). vm_compute. reflexivity.
  - rewrite (@log10_zero lg r H). vm_compute. reflexivity.
Qed.

(* ------------------------------------------------------------------------- *)
(** ** ratios.py without the excitation ratio *)

Section Ratios.
Local Open Scope float_scope.
Variable libm_log10 : float -> float.
Variable libm_pow : float -> float -> float.

Lemma dict_update_nil_fresh V (kvs : list (string * V)) :
  NoDup (map fst kvs) -> dict_update [] kvs = kvs.
Proof.
  intros H.
  assert (E : kvs = combine (map fst kvs) (map snd kvs)).
  { clear H. induction kvs as [|[k v] kvs IH]; simpl; congruence. }
  rewrite E. apply dict_update_nil_nodup. exact H.
Qed.
End Ratios.

(** X13.  [flux_ratios] without the excitation ratio ([get_R=False], not
    binned) on one-dimensional arrays of one length returns, in this order,
    [OII/Hb], [(1+1/OIII_r)*OIII/Hb], the logarithm of their sum and the
    logarithm of [(1+1/OIII_r)*OIII/OII] under the names of [bin_ratios0]
    without ['_composite'], then [Hg/Hb] under [dust0[0]] and [Hd/Hb] under
    [dust0[1]] for each of the two Balmer lines that the dictionary of
    fluxes holds.  The store is left as it was. *)
Theorem flux_ratios_without_R :
  forall (libm_log10 : float -> float) (libm_pow : float -> float -> float)
         (w : world) (d : list (string * value)) (o2 o3 hb : list float)
         (hg hd : option (list float))
         lOII lOIII lHB lHG lHD k0 k1 k2 k3 k4 rest n0 n1 rest',
    bin_ratios0 (cols w) = k0 :: k1 :: k2 :: k3 :: k4 :: rest ->
    dust0 (cols w) = n0 :: n1 :: rest' ->
    getitem (line_name_short (pkg w)) "OII" = Ok lOII ->
    getitem (line_name_short (pkg w)) "OIII" = Ok lOIII ->
    getitem (line_name_short (pkg w)) "HB" = Ok lHB ->
    getitem (line_name_short (pkg w)) "HG" = Ok lHG ->
    getitem (line_name_short (pkg w)) "HD" = Ok lHD ->
    dict_get d lOII = Some (VArr o2) ->
    dict_get d lOIII = Some (VArr o3) ->
    dict_get d lHB = Some (VArr hb) ->
    dict_get d lHG = option_map VArr hg ->
    dict_get d lHD = option_map VArr hd ->
    length o2 = length hb -> length o3 = length hb ->
    (forall l, hg = Some l -> length l = length hb) ->
    (forall l, hd = Some l -> length l = length hb) ->
    let strip := fun s => replace s "_composite" "" in
    NoDup [strip k2; strip k3; strip k0; strip k1; n0; n1] ->
    let scaled := map (PrimFloat.mul (1 + 1 / OIII_r (pkg w))) o3 in
    let two_beta := Numpy.map2 PrimFloat.div o2 hb in
    let three_beta := Numpy.map2 PrimFloat.div scaled hb in
    let balmer := fun (name : string) (line : option (list float)) =>
      match line with
      | Some l => [(name, VArr (Numpy.map2 PrimFloat.div l hb))]
      | None => []
      end in
    py_call (flux_ratios libm_log10 libm_pow)
      [VDict d; VBool false; VBool false] [] w
    = (Ok (VDict
             ([(strip k2, VArr two_beta);
               (strip k3, VArr three_beta);
               (strip k0,
                VArr (map (Np.log10 libm_log10)
                        (Numpy.map2 PrimFloat.add two_beta three_beta)));
               (strip k1,
                VArr (map (Np.log10 libm_log10)
                        (Numpy.map2 PrimFloat.div scaled o2)))]
              ++ balmer n0 hg ++ balmer n1 hd)), w).
Proof.
  intros lg pw w d o2 o3 hb hg hd lOII lOIII lHB lHG lHD k0 k1 k2 k3 k4 rest
    n0 n1 rest' Hbin Hdust HOII HOIII HHB HHG HHD Ho2 Ho3 Hhb Hhg Hhd L2 L3
    Lg Ld strip Hnd scaled two_beta three_beta balmer.
  change (py_call (flux_ratios lg pw) [VDict d; VBool false; VBool false] [])
    with (body (flux_ratios lg pw) [VDict d; VBool false; VBool false]).
  cbn [body flux_ratios].
  cbv beta iota zeta delta [mbind lift get mret truthy negb].
  rewrite Hbin. cbn [map list_item nth_error of_option].
  rewrite HOII, HOIII, HHB, HHG, HHD. cbv beta iota delta [obind].
  cbn [subscript contains]. unfold getitem, dict_in.
  rewrite Ho2, Ho3, Hhb, Hhg, Hhd. cbn [of_option].
  assert (Ls : length scaled = length hb)
    by (unfold scaled; rewrite length_map; exact L3).
  assert (Nd5 : NoDup [strip k2; strip k3; strip k0; strip k1; n1])
    by exact (NoDup_remove_1 [strip k2; strip k3; strip k0; strip k1] [n1] n0
                Hnd).
  assert (Nd5' : NoDup [strip k2; strip k3; strip k0; strip k1; n0])
    by exact (NoDup_remove_1 [strip k2; strip k3; strip k0; strip k1; n0] []
                n1 Hnd).
  assert (Nd4 : NoDup [strip k2; strip k3; strip k0; strip k1])
    by exact (NoDup_remove_1 [strip k2; strip k3; strip k0; strip k1] [] n0
                Nd5').
  unfold Numpy.div, Numpy.mul, Numpy.add, np_log10.
  rewrite (binop_list_list PrimFloat.div o2 hb L2).
  rewrite !binop_sc_list. fold scaled.
  rewrite (binop_list_list PrimFloat.div scaled hb Ls).
  fold two_beta three_beta.
  rewrite (binop_list_list PrimFloat.add two_beta three_beta)
    by (unfold two_beta, three_beta; rewrite !map2_length; congruence).
  rewrite (binop_list_list PrimFloat.div scaled o2) by congruence.
  rewrite !unop_list. cbv beta iota.
  subst balmer.
  destruct hg as [g|]; destruct hd as [h|]; cbn [option_map of_option];
    cbv beta iota;
    rewrite ?(binop_list_list PrimFloat.div g hb (Lg g eq_refl)),
            ?(binop_list_list PrimFloat.div h hb (Ld h eq_refl));
    do 3 (cbv beta iota; rewrite ?Hdust;
          cbn [list_item nth_error of_option app]);
    match goal with
    | |- _ = (Ok (VDict ?L), _) =>
        rewrite <- (dict_update_nil_fresh L) by assumption
    end; reflexivity.
Qed.

Lemma flux_ratios_without_R_witness :
  for_every_libm (fun libm_log10 libm_pow =>
    let r := fst (py_call (flux_ratios libm_log10 libm_pow)
                    [VDict [("OII_3727", VArr [100; 80]%float);
                            ("OIII_5007", VArr [300; 180]%float);
                            ("HBETA", VArr [50; 45]%float);
                            ("HGAMMA", VArr [23; 22]%float)];
                     VBool false; VBool false] [] Sample.w0) in
    entry r "two_beta" 1 = Some (80 / 45)%float
    /\ entry r "HgHb" 0 = Some (23 / 50)%float
    /\ entry r "HdHb" 0 = None /\ entry r "R" 0 = None).
Proof.
  intros lg pw.
  assert (Hnd : NoDup [replace "two_beta_composite" "_composite" "";
                       replace "three_beta_composite" "_composite" "";
                       replace "logR23_composite" "_composite" "";
                       replace "logO32_composite" "_composite" "";
                       "HgHb"; "HdHb"]%string).
  { vm_compute. repeat constructor; simpl; intuition discriminate. }
  assert (Lg : forall l, Some [23; 22]%float = Some l -> length l = 2).
  { intros l H. injection H as <-. reflexivity. }
  assert (Ld : forall l : list float, None = Some l -> length l = 2).
  { intros l H. discriminate H. }
  pose proof (@flux_ratios_without_R lg pw Sample.w0
                [("OII_3727", VArr [100; 80]%float);
                 ("OIII_5007", VArr [300; 180]%float);
                 ("HBETA", VArr [50; 45]%float);
                 ("HGAMMA", VArr [23; 22]%float)]
                [100; 80]%float [300; 180]%float [50; 45]%float
                (Some [23; 22]%float) None
                "OII_3727" "OIII_5007" "HBETA" "HGAMMA" "HDELTA"
                "logR23_composite" "logO32_composite" "two_beta_composite"
                "three_beta_composite" "R_composite" [] "HgHb" "HdHb" ["EBV"%string]
                eq_refl eq_refl eq_refl eq_refl eq_refl eq_refl eq_refl
                eq_refl eq_refl eq_refl eq_refl eq_refl eq_refl eq_refl
                Lg Ld Hnd) as H.
  cbv zeta in H. cbv zeta. rewrite H.
  vm_compute. auto.
Defined.

(* ------------------------------------------------------------------------- *)
(** ** attenuation.py: zero reddening, [Hb_SFR] *)

(** X14.  At the Case B ratio, Hg/Hb = 0.468, the E(B-V) of [compute_EBV]
    is zero whatever the two reddening coefficients are, as long as they
    differ and their difference is a number; where [k_HGAMMA] and [k_HBETA]
    are equal it is NaN (0/0), not an exception. *)
Theorem EBV_zero_at_case_B :
  forall (libm_log10 : float -> float) (k_HGAMMA k_HBETA : float),
    let dk := (k_HGAMMA - k_HBETA)%float in
    let EBV := AtDust.EBV libm_log10 k_HGAMMA k_HBETA HgHb_CaseB in
    is_nan dk = false ->
    (is_zero dk = false -> is_zero EBV = true)
    /\ (is_zero dk = true -> is_nan EBV = true).
Proof.
  intros lg kg kb dk EBV. subst EBV.
  assert (E : AtDust.EBV lg kg kb HgHb_CaseB = (-0 / dk)%float)
    by (vm_compute; reflexivity).
  rewrite E. clear E. generalize dk. clear dk. intros dk.
  unfold is_nan, is_zero.
  rewrite !FloatAxioms.eqb_spec, !FloatAxioms.div_spec.
  replace (Prim2SF 0) with (S754_zero false) by (vm_compute; reflexivity).
  replace (Prim2SF (-0)) with (S754_zero true) by (vm_compute; reflexivity).
  destruct (Prim2SF dk) as [s|s| |s m e] eqn:Ed.
  - intros _. split; intros H; [discriminate H|reflexivity].
  - intros _. split; intros H; [reflexivity|destruct s; discriminate H].
  - intros H. discriminate H.
  - intros _. split; intros H; [reflexivity|destruct s; discriminate H].
Qed.

Lemma EBV_zero_at_case_B_witness :
  for_every_libm (fun libm_log10 _ =>
    is_zero (AtDust.EBV libm_log10 4.17 3.61 HgHb_CaseB) = true).
Proof.
  intros lg pw.
  apply (@EBV_zero_at_case_B lg 4.17%float 3.61%float); reflexivity.
Defined.

Section SFR.
Local Open Scope float_scope.

Lemma add_nan_l (x : float) : nan + x = nan.
Proof.
  apply Prim2SF_inj. rewrite FloatAxioms.add_spec.
  replace (Prim2SF nan) with S754_nan by (vm_compute; reflexivity).
  reflexivity.
Qed.

Lemma mul_nan_l (x : float) : nan * x = nan.
Proof.
  apply Prim2SF_inj. rewrite FloatAxioms.mul_spec.
  replace (Prim2SF nan) with S754_nan by (vm_compute; reflexivity).
  reflexivity.
Qed.

Lemma is_nan_eq (x : float) : is_nan x = true -> x = nan.
Proof.
  unfold is_nan. rewrite FloatAxioms.eqb_spec. intros H.
  apply Prim2SF_inj.
  replace (Prim2SF nan) with S754_nan by (vm_compute; reflexivity).
  destruct (Prim2SF x) as [s|s| |s m e]; try reflexivity.
  - destruct s; discriminate H.
  - destruct s; discriminate H.
  - unfold SFeqb in H. rewrite SFcompare_finite_refl in H. discriminate H.
Qed.
End SFR.

(** X15.  [Hb_SFR] on arrays of one length gives, object by object,
    [log10(4.4e-42 * 2.86) + 0.4*EBV*k_HBETA + log_LHb]; an object whose
    E(B-V) or luminosity is NaN gets a NaN star-formation rate.  Arrays of
    different lengths, neither of them 1, raise ValueError.  The store is
    not touched. *)
Theorem Hb_SFR_by_object :
  forall (libm_log10 : float -> float) w (log_LHb EBV : list float),
    (length log_LHb = length EBV ->
     py_call (Hb_SFR libm_log10) [VArr log_LHb; VArr EBV] [] w
     = (Ok (VArr (Numpy.map2 (AtDust.logSFR libm_log10 (k_HBETA (consts w)))
                    log_LHb EBV)), w))
    /\ (length log_LHb <> length EBV -> length log_LHb <> 1 ->
        length EBV <> 1 ->
        py_call (Hb_SFR libm_log10) [VArr log_LHb; VArr EBV] [] w
        = (Raise ValueError, w))
    /\ (forall k l e : float,
          is_nan l = true \/ is_nan e = true ->
          AtDust.logSFR libm_log10 k l e = nan).
Proof.
  intros lg w L E.
  assert (Hbody : py_call (Hb_SFR lg) [VArr L; VArr E] [] w
                  = body (Hb_SFR lg) [VArr L; VArr E] w) by reflexivity.
  rewrite Hbody. clear Hbody. cbn [body Hb_SFR].
  cbv beta iota delta [mbind get lift].
  unfold np_log10, Numpy.mul, Numpy.add.
  change (Numpy.unop (Np.log10 lg) (VFloat (4.4e-42 * HaHb_CaseB)))
    with (Ok (VFloat (Np.log10 lg (4.4e-42 * HaHb_CaseB)))).
  rewrite obind_ok, binop_sc_list, obind_ok, binop_list_sc, obind_ok.
  rewrite binop_sc_list, obind_ok, !map_map.
  split; [|split].
  - intros Hl.
    rewrite binop_list_list by (rewrite length_map; congruence).
    f_equal. f_equal. f_equal.
    revert L Hl. induction E as [|e E IH]; intros [|l L] Hl;
      try discriminate Hl; [reflexivity|].
    simpl. f_equal. apply IH. simpl in Hl. congruence.
  - intros Hl HL HE. unfold Numpy.binop.
    cbn [Numpy.as_nd obind Numpy.binop_nd]. unfold Numpy.bc_len.
    rewrite length_map.
    destruct (Nat.eqb_spec (length E) (length L)); [congruence|].
    destruct (Nat.eqb_spec (length E) 1); [contradiction|].
    destruct (Nat.eqb_spec (length L) 1); [contradiction|].
    reflexivity.
  - intros k l e [H|H]; apply is_nan_eq in H; subst; unfold AtDust.logSFR.
    + apply add_nan_r.
    + replace (0.4 * nan)%float with nan by (vm_compute; reflexivity).
      rewrite mul_nan_l, add_nan_r, add_nan_l. reflexivity.
Qed.

Lemma Hb_SFR_by_object_witness :
  for_every_libm (fun libm_log10 _ =>
    py_call (Hb_SFR libm_log10) [VArr [41; 40.5]%float; VArr [0.1; nan]%float]
      [] Sample.w0
    = (Ok (VArr [AtDust.logSFR libm_log10 3.61 41 0.1; nan]%float),
       Sample.w0)).
Proof.
  intros lg pw.
  destruct (@Hb_SFR_by_object lg Sample.w0 [41; 40.5]%float [0.1; nan]%float)
    as (H1 & _ & H3).
  rewrite (H1 eq_refl). cbn [Numpy.map2].
  rewrite (H3 (k_HBETA (consts Sample.w0)) 40.5%float nan)
    by (right; reflexivity).
  reflexivity.
Defined.

(* ------------------------------------------------------------------------- *)
(** ** error_prop.py: what a randomized run leaves behind *)

Section RunArchives.
Variable libm_log10 : float -> float.
Variable libm_pow : float -> float -> float.
Variable random_pdf : list float -> list float -> nat -> nat -> value.
Variable compute_onesig_pdf : value -> list float -> value * value.
Variable np_int_ : float -> float.

Lemma flux_ratios_default_raises_keeping_archives flux_dict w :
  exists e w',
    py_call (flux_ratios libm_log10 libm_pow) [flux_dict] [] w = (Raise e, w')
    /\ archives w' = archives w.
Proof.
  destruct (flux_ratios_default_fails libm_log10 libm_pow flux_dict w)
    as (e & w' & E).
  exists e, w'. split; [exact E|].
  pose proof (flux_ratios_same_but_dust0 libm_log10 libm_pow [flux_dict] [] w)
    as H.
  rewrite E in H. simpl in H. apply H.
Qed.

Lemma randomized_branch_archives path apply_dust tab0 ptab0 det w :
  let w' := snd (randomized_branch libm_log10 libm_pow random_pdf
                   compute_onesig_pdf path apply_dust tab0 ptab0 det w) in
  archives w' = archives w
  \/ exists n1 n2 n3 d1 d2 d3,
       getitem (npz_filename_dict (cols w)) "flux_pdf" = Ok n1
       /\ getitem (npz_filename_dict (cols w)) "flux_errors" = Ok n2
       /\ getitem (npz_filename_dict (cols w)) "flux_peak" = Ok n3
       /\ archives w'
          = dict_set (dict_set (dict_set (archives w) (join path n1) d1)
                        (join path n2) d2) (join path n3) d3.
Proof.
  unfold randomized_branch.
  cbv [mbind get local lift of_option].
  destruct det as [[[detect_idx flux_tab] prop_tab]|]; [|left; reflexivity].
  destruct (randomize_fluxes _ _ _ _ _ _) as [fs|e]; [|left; reflexivity].
  destruct (getitem _ "bin_fit_rev") as [f|e]; [|left; reflexivity].
  cbv [asc_write modify].
  destruct (getitem _ "flux_pdf") as [n1|e] eqn:E1; [|left; reflexivity].
  destruct (getitem _ "flux_errors") as [n2|e] eqn:E2; [|left; reflexivity].
  destruct (getitem _ "flux_peak") as [n3|e] eqn:E3; [|left; reflexivity].
  right. exists n1, n2, n3, (flux_pdf_dict fs), (flux_error_dict fs),
    (flux_peak_dict fs).
  split; [reflexivity|]. split; [reflexivity|]. split; [reflexivity|].
  cbv [write_npz savez modify mbind mret].
  match goal with
  | |- context [py_call _ [?d] [] ?w1] =>
      destruct (flux_ratios_default_raises_keeping_archives d w1)
        as (e & w2 & E & T)
  end.
  rewrite E. simpl. rewrite T. reflexivity.
Qed.
End RunArchives.

(** X16.  A randomized run saves at most the three archives of the flux
    distributions ([flux_pdf], [flux_errors], [flux_peak]), in this order and
    under the given path; every other archive, those of the derived
    properties among them, is as it was before the call.  On the sample
    directory the run leaves exactly these three archives behind. *)
Theorem randomized_run_archives :
  forall (libm_log10 : float -> float) (libm_pow : float -> float -> float)
         np_int_,
    (forall random_pdf compute_onesig_pdf path binned_data apply_dust revised w,
        let w' := snd (fluxes_derived_prop libm_log10 libm_pow random_pdf
                         compute_onesig_pdf np_int_ path false binned_data
                         apply_dust revised w) in
        archives w' = archives w
        \/ exists n1 n2 n3 d1 d2 d3,
             getitem (npz_filename_dict (cols w)) "flux_pdf" = Ok n1
             /\ getitem (npz_filename_dict (cols w)) "flux_errors" = Ok n2
             /\ getitem (npz_filename_dict (cols w)) "flux_peak" = Ok n3
             /\ archives w'
                = dict_set (dict_set (dict_set (archives w) (join path n1) d1)
                              (join path n2) d2) (join path n3) d3)
    /\ map fst
         (archives
            (snd (fluxes_derived_prop libm_log10 libm_pow SampleLib.random_pdf
                    SampleLib.compute_onesig_pdf np_int_ "/data" false true
                    false true Sample.w0)))
       = ["/data/flux_pdf.npz"; "/data/flux_errors.npz";
          "/data/flux_peak.npz"]%string.
Proof.
  intros lg pw ni. split; [|vm_compute; reflexivity].
  intros rp co path binned_data apply_dust revised w.
  unfold fluxes_derived_prop.
  cbv [mbind get local lift of_option asc_read mret negb andb].
  destruct binned_data; [|left; reflexivity].
  destruct (getitem _ "bin_fit") as [f|e]; [|left; reflexivity].
  destruct (getitem _ "bin_derived_prop") as [p|e]; [|left; reflexivity].
  destruct (getitem _ (if revised then _ else _)) as [v|e];
    [|left; reflexivity].
  destruct (dict_get (tables w) (join path f)) as [tab0|];
    [|left; reflexivity].
  destruct (dict_get (tables w) (join path p)) as [ptab0|];
    [|left; reflexivity].
  destruct (dict_get (tables w) (join path v)) as [verify_tab|];
    [|left; reflexivity].
  destruct (detect verify_tab tab0 ptab0) as [[[idx ft] pt]|e];
    [|left; reflexivity].
  exact (randomized_branch_archives lg pw rp co path apply_dust tab0 ptab0
           (Some (idx, ft, pt)) w).
Qed.

(* ------------------------------------------------------------------------- *)
(** ** Detection: the objects that take part in a randomized run *)

Section Rows.

Lemma mapM_list_item_inv A (l : list A) (d : A) idx l' :
  mapM (list_item l) idx = Ok l' ->
  in_range (length l) idx = true /\ l' = map (fun j => nth j l d) idx.
Proof.
  intros H. destruct (in_range (length l) idx) eqn:E.
  - rewrite (mapM_list_item l d idx E) in H. injection H as <-. auto.
  - rewrite (mapM_list_item_out l idx E) in H. discriminate H.
Qed.

(** [t[idx]] holds, for every column of [t], its entries at [idx]. *)
Lemma tbl_rows_inv (t : table) idx t' :
  tbl_rows t idx = Ok t' ->
  t' = map (fun kc => (fst kc, map (fun j => nth j (snd kc) 0%float) idx)) t.
Proof.
  unfold tbl_rows. revert t'.
  induction t as [|[k col] t IH]; intros t' H.
  - injection H as <-. reflexivity.
  - cbn [mapM fst snd] in H.
    destruct (mapM (list_item col) idx) as [l|e] eqn:El; [|discriminate H].
    cbn [obind] in H.
    destruct (mapM _ t) as [t1|e]; [|discriminate H].
    injection H as <-.
    destruct (mapM_list_item_inv col 0%float idx El) as [_ ->].
    cbn [map fst snd]. rewrite (IH t1 eq_refl). reflexivity.
Qed.

Lemma string_length_append (s t : string) :
  String.length (s ++ t) = String.length s + String.length t.
Proof. induction s as [|c s IH]; simpl; [reflexivity|]. rewrite IH. reflexivity. Qed.

(** Two names with the same suffix are equal only if they are equal
    without it. *)
Lemma append_suffix_inj (t s s' : string) :
  (s ++ t)%string = (s' ++ t)%string -> s = s'.
Proof.
  revert s'. induction s as [|c s IH]; intros [|c' s'] H.
  - reflexivity.
  - apply (f_equal String.length) in H. simpl in H.
    rewrite string_length_append in H. lia.
  - apply (f_equal String.length) in H. simpl in H.
    rewrite string_length_append in H. lia.
  - simpl in H. injection H as -> H. f_equal. apply IH, H.
Qed.
End Rows.

Section Randomization.
Variable random_pdf : list float -> list float -> nat -> nat -> value.
Variable compute_onesig_pdf : value -> list float -> value * value.

Lemma randomize_fluxes_other flux_tab detect_idx ls s s' name :
  randomize_fluxes random_pdf compute_onesig_pdf flux_tab detect_idx ls s
  = Ok s' ->
  ~ In name (map snd ls) ->
  dict_get (flux_pdf_dict s') name = dict_get (flux_pdf_dict s) name
  /\ dict_get (flux_tab0 s') (name ++ "_Flux_Gaussian")
     = dict_get (flux_tab0 s) (name ++ "_Flux_Gaussian").
Proof.
  revert s. induction ls as [|[aa n0] ls IH]; intros s; simpl.
  - intros H _. injection H as <-. auto.
  - destruct (tbl_col flux_tab _) as [x|e]; [|discriminate].
    rewrite obind_ok.
    destruct (tbl_col flux_tab _) as [dx|e]; [|discriminate].
    rewrite obind_ok.
    destruct (compute_onesig_pdf _ x) as [err peak].
    unfold tbl_put.
    destruct (tbl_col (flux_tab0 s) _) as [col|e]; [|discriminate].
    rewrite obind_ok.
    destruct (Numpy.put col detect_idx peak) as [col'|e]; [|discriminate].
    rewrite !obind_ok. intros H Hnot.
    destruct (IH _ H) as [H1 H2]; [tauto|].
    rewrite H1, H2. cbn [flux_pdf_dict flux_tab0].
    assert (Hne : name <> n0) by (intros ->; apply Hnot; left; reflexivity).
    split; apply dict_get_set_other.
    + exact Hne.
    + intros E. apply Hne. apply (append_suffix_inj _ _ _ E).
Qed.

(** What the loop does for each line: it draws from the detected rows and
    assigns the peaks to the rows of the detection subset. *)
Lemma randomize_fluxes_line flux_tab detect_idx ls s s' :
  randomize_fluxes random_pdf compute_onesig_pdf flux_tab detect_idx ls s
  = Ok s' ->
  NoDup (map snd ls) ->
  forall aa name, In (aa, name) ls ->
  exists x dx col col',
    tbl_col flux_tab (name ++ "_Flux_Gaussian") = Ok x
    /\ tbl_col flux_tab (name ++ "_RMS") = Ok dx
    /\ dict_get (flux_pdf_dict s') name = Some (random_pdf x dx aa 1000)
    /\ dict_get (flux_tab0 s) (name ++ "_Flux_Gaussian") = Some col
    /\ Numpy.put col detect_idx
         (snd (compute_onesig_pdf (random_pdf x dx aa 1000) x)) = Ok col'
    /\ dict_get (flux_tab0 s') (name ++ "_Flux_Gaussian") = Some col'.
Proof.
  revert s. induction ls as [|[aa0 n0] ls IH]; intros s H Hnd aa name Hin.
  - destruct Hin.
  - cbn [map snd] in Hnd. inversion Hnd as [|? ? Hnot Hnd']; subst.
    cbn [randomize_fluxes] in H.
    destruct (tbl_col flux_tab (n0 ++ "_Flux_Gaussian")) as [x|e] eqn:Ex;
      [|discriminate H].
    rewrite obind_ok in H.
    destruct (tbl_col flux_tab (n0 ++ "_RMS")) as [dx|e] eqn:Edx;
      [|discriminate H].
    rewrite obind_ok in H.
    destruct (compute_onesig_pdf (random_pdf x dx aa0 1000) x)
      as [err peak] eqn:Eco.
    unfold tbl_put in H.
    destruct (tbl_col (flux_tab0 s) _) as [col|e] eqn:Ecol; [|discriminate H].
    rewrite obind_ok in H.
    destruct (Numpy.put col detect_idx peak) as [col'|e] eqn:Eput;
      [|discriminate H].
    rewrite !obind_ok in H.
    unfold tbl_col, getitem in Ecol.
    destruct (dict_get (flux_tab0 s) (n0 ++ "_Flux_Gaussian")) as [c|] eqn:Eg;
      [|discriminate Ecol].
    injection Ecol as ->.
    destruct Hin as [Hhead|Htail].
    + injection Hhead as <- <-.
      destruct (randomize_fluxes_other _ _ _ _ n0 H Hnot) as [H1 H2].
      exists x, dx, col, col'.
      rewrite Eco. cbn [snd]. rewrite H1, H2.
      cbn [flux_pdf_dict flux_tab0]. rewrite !dict_get_set. auto 10.
    + destruct (IH _ H Hnd' aa name Htail)
        as (x1 & dx1 & c1 & c1' & Hx & Hdx & Hpdf & Hc & Hp & Hc').
      exists x1, dx1, c1, c1'.
      split; [exact Hx|]. split; [exact Hdx|]. split; [exact Hpdf|].
      split; [|split; [exact Hp|exact Hc']].
      cbn [flux_tab0] in Hc. rewrite dict_get_set_other in Hc; [exact Hc|].
      intros E. apply append_suffix_inj in E. subst name.
      apply Hnot. apply (in_map snd _ _ Htail).
Qed.
End Randomization.

Section DetectionRun.
Variable libm_log10 : float -> float.
Variable libm_pow : float -> float -> float.
Variable random_pdf : list float -> list float -> nat -> nat -> value.
Variable compute_onesig_pdf : value -> list float -> value * value.
Variable np_int_ : float -> float.

(** The randomized branch either stops before it has written anything, or
    has randomized the detected rows and written the flux table. *)
Lemma randomized_branch_steps path apply_dust tab0 ptab0 idx ft pt w :
  let r := randomized_branch libm_log10 libm_pow random_pdf compute_onesig_pdf
             path apply_dust tab0 ptab0 (Some (idx, ft, pt)) w in
  snd r = w
  \/ exists fs frev,
       randomize_fluxes random_pdf compute_onesig_pdf ft idx (lines w)
         {| flux_pdf_dict := []; flux_peak_dict := []; flux_error_dict := [];
            flux_tab0 := tab0 |} = Ok fs
       /\ getitem (filename_dict (cols w)) "bin_fit_rev" = Ok frev
       /\ tables (snd r) = dict_set (tables w) (join path frev) (flux_tab0 fs).
Proof.
  unfold randomized_branch.
  cbv [mbind get local lift of_option].
  destruct (randomize_fluxes _ _ _ _ _ _) as [fs|e] eqn:Efs;
    [|left; reflexivity].
  destruct (getitem _ "bin_fit_rev") as [f|e] eqn:Ef; [|left; reflexivity].
  right. exists fs, f.
  split; [reflexivity|]. split; [reflexivity|].
  cbv [asc_write modify].
  destruct (getitem _ "flux_pdf") as [n1|e]; [|reflexivity].
  destruct (getitem _ "flux_errors") as [n2|e]; [|reflexivity].
  destruct (getitem _ "flux_peak") as [n3|e]; [|reflexivity].
  cbv [write_npz savez modify mbind mret].
  match goal with
  | |- context [py_call _ [?d] [] ?w1] =>
      destruct (flux_ratios_default_raises_keeping_tables libm_log10 libm_pow
                  d w1) as (e & w2 & E & T)
  end.
  rewrite E. simpl. rewrite T. reflexivity.
Qed.

(** A non-raw run: it always ends in an exception; if it has changed
    anything, it has found its three tables, computed the detection subset,
    randomized the detected rows and written the flux table. *)
Lemma randomized_run_steps path binned_data apply_dust revised w :
  let r := fluxes_derived_prop libm_log10 libm_pow random_pdf
             compute_onesig_pdf np_int_ path false binned_data apply_dust
             revised w in
  (exists e, fst r = Raise e)
  /\ (snd r = w
      \/ exists flux_file prop_file verify_file tab0 ptab0 verify_tab
                detect_idx flux_tab prop_tab fs frev,
           dict_get (tables w) flux_file = Some tab0
           /\ dict_get (tables w) prop_file = Some ptab0
           /\ dict_get (tables w) verify_file = Some verify_tab
           /\ detect verify_tab tab0 ptab0 = Ok (detect_idx, flux_tab, prop_tab)
           /\ randomize_fluxes random_pdf compute_onesig_pdf flux_tab
                detect_idx (lines w)
                {| flux_pdf_dict := []; flux_peak_dict := [];
                   flux_error_dict := []; flux_tab0 := tab0 |} = Ok fs
           /\ getitem (filename_dict (cols w)) "bin_fit_rev" = Ok frev
           /\ tables (snd r)
              = dict_set (tables w) (join path frev) (flux_tab0 fs)).
Proof.
  intros r. split.
  - destruct (fluxes_derived_prop_fails libm_log10 libm_pow random_pdf
                compute_onesig_pdf np_int_ path false binned_data apply_dust
                revised w) as (e & w' & E).
    exists e. subst r. rewrite E. reflexivity.
  - subst r. unfold fluxes_derived_prop.
    cbv [mbind get local lift of_option asc_read mret negb andb].
    destruct binned_data; [|left; reflexivity].
    destruct (getitem _ "bin_fit") as [f|e]; [|left; reflexivity].
    destruct (getitem _ "bin_derived_prop") as [p|e]; [|left; reflexivity].
    destruct (getitem _ (if revised then _ else _)) as [v|e];
      [|left; reflexivity].
    destruct (dict_get (tables w) (join path f)) as [tab0|] eqn:Ef;
      [|left; reflexivity].
    destruct (dict_get (tables w) (join path p)) as [ptab0|] eqn:Ep;
      [|left; reflexivity].
    destruct (dict_get (tables w) (join path v)) as [verify_tab|] eqn:Ev;
      [|left; reflexivity].
    destruct (detect verify_tab tab0 ptab0) as [[[idx ft] pt]|e] eqn:Ed;
      [|left; reflexivity].
    pose proof (randomized_branch_steps path apply_dust tab0 ptab0 idx ft pt w)
      as H.
    cbv zeta in H.
    destruct H as [H|(fs & frev & Hfs & Hrev & Ht)]; [left; exact H|right].
    exists (join path f), (join path p), (join path v), tab0, ptab0,
      verify_tab, idx, ft, pt, fs, frev.
    auto 10.
Qed.
End DetectionRun.

(** C7.  The detection subset holds exactly the rows whose [Detection] flag
    equals 1 (a row flagged 0.5 is not in it), and the tables handed on are
    those rows of the flux table and of the table of derived properties.
    The randomization draws, for every line, from the detected rows, keeps
    the ensemble under the line's name and assigns the peaks to the rows of
    the subset; every other row of the flux table is as it was.  A non-raw
    run ends in an exception in every case: if it has changed the store, it
    has done exactly this and written the flux table, and it never reaches
    the derived properties, whose loop would change rows of the subset
    only. *)
Theorem detection_flag_exactly_one :
  forall (random_pdf : list float -> list float -> nat -> nat -> value)
         (compute_onesig_pdf : value -> list float -> value * value),
    (forall verify_tab tab0 ptab0 detect_idx flux_tab prop_tab,
        detect verify_tab tab0 ptab0 = Ok (detect_idx, flux_tab, prop_tab) ->
        exists detection,
          tbl_col verify_tab "Detection" = Ok detection
          /\ (forall i, In i detect_idx <->
                        exists d, nth_error detection i = Some d
                                  /\ PrimFloat.eqb d 1 = true)
          /\ (forall i, nth_error detection i = Some 0.5%float ->
                        ~ In i detect_idx)
          /\ flux_tab
             = map (fun kc => (fst kc, map (fun j => nth j (snd kc) 0%float)
                                          detect_idx)) tab0
          /\ prop_tab
             = map (fun kc => (fst kc, map (fun j => nth j (snd kc) 0%float)
                                          detect_idx)) ptab0)
    /\ (forall flux_tab detect_idx ls s s',
          randomize_fluxes random_pdf compute_onesig_pdf flux_tab detect_idx
            ls s = Ok s' ->
          same_outside detect_idx (flux_tab0 s) (flux_tab0 s')
          /\ (NoDup (map snd ls) ->
              forall aa name, In (aa, name) ls ->
              exists x dx col col',
                tbl_col flux_tab (name ++ "_Flux_Gaussian") = Ok x
                /\ tbl_col flux_tab (name ++ "_RMS") = Ok dx
                /\ dict_get (flux_pdf_dict s') name
                   = Some (random_pdf x dx aa 1000)
                /\ dict_get (flux_tab0 s) (name ++ "_Flux_Gaussian") = Some col
                /\ Numpy.put col detect_idx
                     (snd (compute_onesig_pdf (random_pdf x dx aa 1000) x))
                   = Ok col'
                /\ dict_get (flux_tab0 s') (name ++ "_Flux_Gaussian")
                   = Some col'))
    /\ (forall prop_tab detect_idx pdf names s s',
          reduce_properties compute_onesig_pdf prop_tab detect_idx pdf names s
          = Ok s' ->
          same_outside detect_idx (prop_tab0 s) (prop_tab0 s'))
    /\ (forall libm_log10 libm_pow np_int_ path binned_data apply_dust revised w,
          let r := fluxes_derived_prop libm_log10 libm_pow random_pdf
                     compute_onesig_pdf np_int_ path false binned_data
                     apply_dust revised w in
          (exists e, fst r = Raise e)
          /\ (snd r = w
              \/ exists flux_file prop_file verify_file tab0 ptab0 verify_tab
                        detect_idx flux_tab prop_tab fs frev,
                   dict_get (tables w) flux_file = Some tab0
                   /\ dict_get (tables w) prop_file = Some ptab0
                   /\ dict_get (tables w) verify_file = Some verify_tab
                   /\ detect verify_tab tab0 ptab0
                      = Ok (detect_idx, flux_tab, prop_tab)
                   /\ randomize_fluxes random_pdf compute_onesig_pdf flux_tab
                        detect_idx (lines w)
                        {| flux_pdf_dict := []; flux_peak_dict := [];
                           flux_error_dict := []; flux_tab0 := tab0 |} = Ok fs
                   /\ getitem (filename_dict (cols w)) "bin_fit_rev" = Ok frev
                   /\ tables (snd r)
                      = dict_set (tables w) (join path frev) (flux_tab0 fs))).
Proof.
  intros rp co. split; [|split; [|split]].
  - intros vt tab0 ptab0 idx ft pt. unfold detect.
    destruct (tbl_col vt "Detection") as [detection|e]; [|discriminate].
    rewrite obind_ok.
    destruct (tbl_col vt "bin_ID") as [ID|e]; [|discriminate].
    rewrite obind_ok.
    destruct (mapM _ _) as [ID_detect|e]; [|discriminate].
    rewrite obind_ok.
    destruct (tbl_rows tab0 _) as [ft'|e] eqn:Eft; [|discriminate].
    rewrite obind_ok.
    destruct (tbl_rows ptab0 _) as [pt'|e] eqn:Ept; [|discriminate].
    rewrite obind_ok. intros H. injection H as <- <- <-.
    exists detection.
    assert (Hiff : forall i, In i (Numpy.where_eq detection 1 0) <->
                             exists d, nth_error detection i = Some d
                                       /\ PrimFloat.eqb d 1 = true).
    { intros i. rewrite where_eq_spec. rewrite Nat.sub_0_r.
      split; intros (d & H); exists d; intuition lia. }
    split; [reflexivity|]. split; [exact Hiff|].
    split; [|split; apply tbl_rows_inv; assumption].
    intros i Hi Hin. apply Hiff in Hin. destruct Hin as (d & Hd & Heq).
    rewrite Hi in Hd. injection Hd as <-. vm_compute in Heq. discriminate Heq.
  - intros ft idx ls s s' H. split.
    + apply (randomize_fluxes_frame _ _ _ _ _ _ H).
    + intros Hnd aa name Hin.
      apply (randomize_fluxes_line _ _ _ _ _ _ H Hnd aa name Hin).
  - intros pt idx pdf names s s' H.
    apply (reduce_properties_frame _ _ _ _ _ _ H).
  - intros lg pw ni path binned_data apply_dust revised w.
    apply randomized_run_steps.
Qed.

(** The sample directory: of its two bins, flagged 1 and 0.5, the first is
    detected; the run randomizes it, writes the flux table and raises
    TypeError, and the table of derived properties is as it was. *)
Lemma detection_flag_exactly_one_witness :
  for_every_libm (fun libm_log10 libm_pow =>
    (exists flux_tab prop_tab,
       detect Sample.valid_table Sample.flux_table Sample.prop_table
       = Ok ([0], flux_tab, prop_tab)
       /\ dict_get flux_tab "HBETA_Flux_Gaussian" = Some [50%float])
    /\ forall np_int_,
         let r := fluxes_derived_prop libm_log10 libm_pow SampleLib.random_pdf
                    SampleLib.compute_onesig_pdf np_int_ "/data" false true
                    false true Sample.w0 in
         fst r = Raise TypeError
         /\ map fst (tables (snd r))
            = map fst (tables Sample.w0)
              ++ ["/data/bin_emission_line_fit.revised.tbl"%string]
         /\ dict_get (tables (snd r)) "/data/bin_derived_properties.tbl"
            = Some Sample.prop_table).
Proof.
  intros lg pw. split.
  - destruct (detect Sample.valid_table Sample.flux_table Sample.prop_table)
      as [[[idx ft] pt]|e] eqn:E; [|vm_compute in E; discriminate E].
    destruct (proj1 (detection_flag_exactly_one SampleLib.random_pdf
                       SampleLib.compute_onesig_pdf)
                _ _ _ _ _ _ E) as (detection & _ & _ & _ & Hft & _).
    vm_compute in E. injection E as <- <- <-.
    eexists _, _. split; reflexivity.
  - intros ni. vm_compute. auto.
Defined.
